(** * Advanced POS System: cart, transaction ledger and request dispatcher

    A shallow embedding of the checkout engine (CartService), the
    transaction state machine (Transaction), the in-memory store
    (DatabaseService), the permission check (AuthService, User) and the
    request dispatcher (APIService), followed by the properties stated
    about them.

    Conventions of the embedding.
    - Numbers.  The models of the classes take the amounts as exact
      rationals ([Q]), the decimal amounts the code is written for;
      equalities between computed amounts are stated with [==].  What
      depends on how the machine rounds a sum, on [NaN] or on an amount
      given as text is stated on the module [Binary], which gives the cart
      and the transaction with JavaScript numbers as they are: binary64
      floating-point numbers ([Number.t]).
    - Dictionaries.  A plain object used as a dictionary is a finite map
      (or an association list where the order of the keys matters); keys
      that name members of [Object.prototype], and keys made of digits
      where the order matters, are set apart in [JsObject].
    - [new Date().toISOString()] is a parameter [now] of the operation
      that reads the clock; a generated identifier is a parameter [genId].
    - A method that mutates [this] and returns a value is a function from
      the object to the pair of the returned value and the new object.
    - A falsy string ([undefined], [null] or the empty string) is the
      empty string, or [None] where the source stores [null]. *)

From Stdlib Require Import QArith Qround Qabs ZArith String Ascii List Lia.
From Stdlib Require Import Floats.SpecFloat.
From stdpp Require Import gmap strings list.

(** ** Numbers *)

Module Num.

Definition Qlt_bool (x y : Q) : bool := negb (Qle_bool y x).

(** [parseFloat(x.toFixed(2))]: the integer [n] for which [n / 100] is
    nearest to [|x|], the larger one on a tie, with the sign of [x]. *)
Definition toFixed2 (x : Q) : Q :=
  if Qlt_bool x 0
  then (- (Qfloor ((- x) * 100 + (1 # 2)) # 100))%Q
  else (Qfloor (x * 100 + (1 # 2)) # 100)%Q.

(** [value || 0] on a number. *)
Definition orZero (x : Q) : Q := if Qeq_bool x 0 then 0%Q else x.

End Num.

(** [x || null] on a string that may be absent. *)
Definition orNull (o : option string) : option string :=
  match o with
  | Some EmptyString => None
  | _ => o
  end.

(** [x || d] on a string that may be absent. *)
Definition orElse (o : option string) (d : string) : string :=
  match o with
  | Some EmptyString | None => d
  | Some s => s
  end.

Definition isEmpty (s : string) : bool :=
  match s with EmptyString => true | _ => false end.

Definition newline : string := String (ascii_of_nat 10) EmptyString.

(** No character of [s] is [c]. *)
Fixpoint noChar (c : ascii) (s : string) : bool :=
  match s with
  | EmptyString => true
  | String c' s' => negb (Ascii.eqb c' c) && noChar c s'
  end.

(** ** Plain objects used as dictionaries

    [this.products], [this.transactions] and [this.endpoints] are plain
    objects.  Reading a key the object does not hold finds the member of
    [Object.prototype] of that name when there is one, and
    [Object.entries] lists the keys that are array indices before the
    others.  The dictionaries of the models are those objects for the
    other keys. *)

Module JsObject.

Definition prototypeMembers : list string :=
  ["constructor"; "__defineGetter__"; "__defineSetter__"; "hasOwnProperty";
   "__lookupGetter__"; "__lookupSetter__"; "isPrototypeOf";
   "propertyIsEnumerable"; "toString"; "valueOf"; "__proto__";
   "toLocaleString"]%string.

(** The key names a member of [Object.prototype]. *)
Definition inherited (key : string) : bool :=
  existsb (String.eqb key) prototypeMembers.



End JsObject.

(** ** Transaction model *)

Module Transaction.

Inductive Status := pending | completed | voided.

Definition Status_eqb (a b : Status) : bool :=
  match a, b with
  | pending, pending | completed, completed | voided, voided => true
  | _, _ => false
  end.

Record Item := {
  productId : string;
  name : string;
  priceAtSale : Q;
  taxRateAtSale : Q;
  quantity : Q;
  recognitionMethod : string;
  recognitionConfidence : Q
}.

Record PaymentMethod := {
  type : string;
  amount : Q;
  reference : option string;
  timestamp : option string
}.

Record t := {
  id : string;
  items : list Item;
  subtotal : Q;
  taxAmount : Q;
  discountAmount : Q;
  total : Q;
  status : Status;
  paymentMethods : list PaymentMethod;
  customerId : option string;
  employeeId : option string;
  storeId : option string;
  notes : string;
  createdAt : string;
  completedAt : option string;
  voidedAt : option string
}.

(** [new Transaction(data)] on a plain object with every field present.
    [genId] is the identifier generated when [data.id] is falsy. *)
Definition fromObject (genId : string) (data : t) : t :=
  {| id := if isEmpty (id data) then genId else id data;
     items := items data;
     subtotal := Num.orZero (subtotal data);
     taxAmount := Num.orZero (taxAmount data);
     discountAmount := Num.orZero (discountAmount data);
     total := Num.orZero (total data);
     status := status data;
     paymentMethods := paymentMethods data;
     customerId := orNull (customerId data);
     employeeId := orNull (employeeId data);
     storeId := orNull (storeId data);
     notes := notes data;
     createdAt := createdAt data;
     completedAt := orNull (completedAt data);
     voidedAt := orNull (voidedAt data) |}.

Definition toObject (x : t) : t := x.

Definition validate (x : t) : list string :=
  (if Nat.eqb (length (items x)) 0
   then ["Transaction must have at least one item"%string] else []) ++
  (if Num.Qlt_bool (subtotal x) 0
   then ["Subtotal cannot be negative"%string] else []) ++
  (if Num.Qlt_bool (taxAmount x) 0
   then ["Tax amount cannot be negative"%string] else []) ++
  (if Num.Qlt_bool (discountAmount x) 0
   then ["Discount amount cannot be negative"%string] else []) ++
  (match employeeId x with
   | None | Some EmptyString => ["Employee ID is required"%string]
   | _ => [] end) ++
  (match storeId x with
   | None | Some EmptyString => ["Store ID is required"%string]
   | _ => [] end).

Definition isValid (x : t) : bool := Nat.eqb (length (validate x)) 0.

Definition rawSubtotal (l : list Item) : Q :=
  fold_left (fun sum item => (sum + priceAtSale item * quantity item)%Q) l 0%Q.

Definition itemTax (item : Item) : Q :=
  if Qeq_bool (taxRateAtSale item) 0 then 0%Q
  else (priceAtSale item * quantity item * (taxRateAtSale item / 100))%Q.

Definition rawTax (l : list Item) : Q :=
  fold_left (fun sum item => (sum + itemTax item)%Q) l 0%Q.

Definition calculateTotals (x : t) : t :=
  let sub := rawSubtotal (items x) in
  let tax := rawTax (items x) in
  let tot := (sub + tax - discountAmount x)%Q in
  {| id := id x; items := items x;
     subtotal := Num.toFixed2 sub;
     taxAmount := Num.toFixed2 tax;
     discountAmount := discountAmount x;
     total := Num.toFixed2 tot;
     status := status x; paymentMethods := paymentMethods x;
     customerId := customerId x; employeeId := employeeId x;
     storeId := storeId x; notes := notes x; createdAt := createdAt x;
     completedAt := completedAt x; voidedAt := voidedAt x |}.

Definition set_paymentMethods (pms : list PaymentMethod) (x : t) : t :=
  {| id := id x; items := items x; subtotal := subtotal x;
     taxAmount := taxAmount x; discountAmount := discountAmount x;
     total := total x; status := status x; paymentMethods := pms;
     customerId := customerId x; employeeId := employeeId x;
     storeId := storeId x; notes := notes x; createdAt := createdAt x;
     completedAt := completedAt x; voidedAt := voidedAt x |}.

(** The entry pushed by [addPaymentMethod]. *)
Definition paymentEntry (now : string) (pm : PaymentMethod) : PaymentMethod :=
  {| type := type pm;
     amount := amount pm;
     reference := orNull (reference pm);
     timestamp := Some (orElse (timestamp pm) now) |}.

(** [!paymentMethod.type || !paymentMethod.amount] *)
Definition paymentRejected (pm : PaymentMethod) : bool :=
  isEmpty (type pm) || Qeq_bool (amount pm) 0.

Definition addPaymentMethod (now : string) (pm : PaymentMethod) (x : t)
  : bool * t :=
  if paymentRejected pm then (false, x)
  else (true, set_paymentMethods (paymentMethods x ++ [paymentEntry now pm]) x).

Definition totalPaid (x : t) : Q :=
  fold_left (fun sum method => (sum + amount method)%Q) (paymentMethods x) 0%Q.

Definition complete (now : string) (x : t) : bool * t :=
  if negb (Status_eqb (status x) pending) then (false, x)
  else if Num.Qlt_bool (totalPaid x) (total x) then (false, x)
  else (true,
        {| id := id x; items := items x; subtotal := subtotal x;
           taxAmount := taxAmount x; discountAmount := discountAmount x;
           total := total x; status := completed;
           paymentMethods := paymentMethods x;
           customerId := customerId x; employeeId := employeeId x;
           storeId := storeId x; notes := notes x; createdAt := createdAt x;
           completedAt := Some now; voidedAt := voidedAt x |}).

Definition voidNote (reason : string) : string :=
  if isEmpty reason then (newline +:+ "Voided")%string
  else (newline +:+ "Voided: " +:+ reason)%string.

Definition void (now : string) (reason : string) (x : t) : bool * t :=
  if Status_eqb (status x) voided then (false, x)
  else (true,
        {| id := id x; items := items x; subtotal := subtotal x;
           taxAmount := taxAmount x; discountAmount := discountAmount x;
           total := total x; status := voided;
           paymentMethods := paymentMethods x;
           customerId := customerId x; employeeId := employeeId x;
           storeId := storeId x; notes := (notes x +:+ voidNote reason)%string;
           createdAt := createdAt x;
           completedAt := completedAt x; voidedAt := Some now |}).

(** *** Editing the lines of a transaction *)

Definition isProduct (pid : string) (i : Item) : bool :=
  String.eqb (productId i) pid.

Definition set_items (l : list Item) (x : t) : t :=
  {| id := id x; items := l; subtotal := subtotal x;
     taxAmount := taxAmount x; discountAmount := discountAmount x;
     total := total x; status := status x; paymentMethods := paymentMethods x;
     customerId := customerId x; employeeId := employeeId x;
     storeId := storeId x; notes := notes x; createdAt := createdAt x;
     completedAt := completedAt x; voidedAt := voidedAt x |}.

Definition set_discountAmount (amt : Q) (x : t) : t :=
  {| id := id x; items := items x; subtotal := subtotal x;
     taxAmount := taxAmount x; discountAmount := amt;
     total := total x; status := status x; paymentMethods := paymentMethods x;
     customerId := customerId x; employeeId := employeeId x;
     storeId := storeId x; notes := notes x; createdAt := createdAt x;
     completedAt := completedAt x; voidedAt := voidedAt x |}.

Definition set_quantity (q : Q) (i : Item) : Item :=
  {| productId := productId i; name := name i; priceAtSale := priceAtSale i;
     taxRateAtSale := taxRateAtSale i; quantity := q;
     recognitionMethod := recognitionMethod i;
     recognitionConfidence := recognitionConfidence i |}.

Fixpoint findIndex (pid : string) (l : list Item) : option nat :=
  match l with
  | [] => None
  | i :: l' => if isProduct pid i then Some 0%nat
               else option_map S (findIndex pid l')
  end.

Definition removeItem (pid : string) (x : t) : bool * t :=
  let initialLength := length (items x) in
  let x1 := set_items (List.filter (fun i => negb (isProduct pid i)) (items x)) x in
  if negb (Nat.eqb (length (items x1)) initialLength)
  then (true, calculateTotals x1)
  else (false, x1).

Definition updateItemQuantity (pid : string) (qty : Q) (x : t) : bool * t :=
  if Qle_bool qty 0 then removeItem pid x
  else
    match findIndex pid (items x) with
    | None => (false, x)
    | Some idx =>
        (true, calculateTotals (set_items (alter (set_quantity qty) idx (items x)) x))
    end.

Definition applyDiscount (amt : Q) (x : t) : bool * t :=
  if Num.Qlt_bool amt 0 then (false, x)
  else (true, calculateTotals (set_discountAmount amt x)).

End Transaction.

(** ** Store

    [DatabaseService] keeps plain objects in dictionaries indexed by the
    object's own [id].  A product is stored under its id and the key plays
    the role of the [id] field; a transaction carries its [id], because
    transactions also live outside the store. *)

Module DatabaseService.

Record Product := {
  name : string;
  price : Q;
  stock : Q;
  taxRate : Q
}.

Record t := {
  products : gmap string Product;
  transactions : gmap string Transaction.t
}.

Definition getProductById (db : t) (id : string) : option Product :=
  products db !! id.

Definition getTransactionById (db : t) (id : string) : option Transaction.t :=
  transactions db !! id.

Definition set_stock (s : Q) (p : Product) : Product :=
  {| name := name p; price := price p; stock := s; taxRate := taxRate p |}.

(** Assignment to a field of the stored object itself: the object
    returned by [getProductById] is the one the dictionary holds. *)
Definition assignStock (id : string) (s : Q) (db : t) : t :=
  {| products := alter (set_stock s) id (products db);
     transactions := transactions db |}.

Definition saveProduct (id : string) (product : Product) (db : t) : bool * t :=
  if isEmpty id then (false, db)
  else (true, {| products := <[id := product]> (products db);
                 transactions := transactions db |}).

Definition saveTransaction (transaction : Transaction.t) (db : t) : bool * t :=
  if isEmpty (Transaction.id transaction) then (false, db)
  else (true, {| products := products db;
                 transactions :=
                   <[Transaction.id transaction := transaction]> (transactions db) |}).

(** [product.stock -= quantity; saveProduct(product)] for a line of a
    sale, skipped when the product is unknown; [sign] is [1] for a
    decrement and [-1] for the restoring increment. *)
Definition moveStock (sign : Q) (productId : string) (quantity : Q) (db : t) : t :=
  match getProductById db productId with
  | Some product =>
      let s := (stock product - sign * quantity)%Q in
      snd (saveProduct productId (set_stock s product)
             (assignStock productId s db))
  | None => db
  end.


End DatabaseService.

(** ** Cart *)

Module CartService.

Record CartItem := {
  productId : string;
  name : string;
  price : Q;
  taxRate : Q;
  quantity : Q;
  recognitionMethod : string;
  recognitionConfidence : Q
}.

Record t := {
  items : list CartItem;
  subtotal : Q;
  taxAmount : Q;
  discountAmount : Q;
  total : Q;
  customerId : option string;
  notes : string
}.

(** The object returned by the cart operations.  Fields that only
    repeat the new cart state ([discountAmount], [total], [customerId],
    [notes]) are read from the state. *)
Record Result := {
  success : bool;
  message : string;
  item : option CartItem;
  transaction : option Transaction.t;
  amountDue : option Q;
  change : option Q
}.

Definition result (ok : bool) (m : string) : Result :=
  {| success := ok; message := m; item := None; transaction := None;
     amountDue := None; change := None |}.

Definition failure (m : string) : Result := result false m.

Definition withItem (i : option CartItem) (r : Result) : Result :=
  {| success := success r; message := message r; item := i;
     transaction := transaction r; amountDue := amountDue r;
     change := change r |}.

Definition empty : t :=
  {| items := []; subtotal := 0; taxAmount := 0; discountAmount := 0;
     total := 0; customerId := None; notes := "" |}.

Definition set_items (l : list CartItem) (c : t) : t :=
  {| items := l; subtotal := subtotal c; taxAmount := taxAmount c;
     discountAmount := discountAmount c; total := total c;
     customerId := customerId c; notes := notes c |}.

Definition set_quantity (q : Q) (i : CartItem) : CartItem :=
  {| productId := productId i; name := name i; price := price i;
     taxRate := taxRate i; quantity := q;
     recognitionMethod := recognitionMethod i;
     recognitionConfidence := recognitionConfidence i |}.

Definition add_quantity (q : Q) (i : CartItem) : CartItem :=
  set_quantity (quantity i + q)%Q i.

Definition isProduct (pid : string) (i : CartItem) : bool :=
  String.eqb (productId i) pid.

Fixpoint findIndex (pid : string) (l : list CartItem) : option nat :=
  match l with
  | [] => None
  | i :: l' => if isProduct pid i then Some 0%nat
               else option_map S (findIndex pid l')
  end.

Definition find (pid : string) (l : list CartItem) : option CartItem :=
  List.find (isProduct pid) l.

Definition rawSubtotal (l : list CartItem) : Q :=
  fold_left (fun sum i => (sum + price i * quantity i)%Q) l 0%Q.

Definition itemTax (i : CartItem) : Q :=
  if Qeq_bool (taxRate i) 0 then 0%Q
  else (price i * quantity i * (taxRate i / 100))%Q.

Definition rawTax (l : list CartItem) : Q :=
  fold_left (fun sum i => (sum + itemTax i)%Q) l 0%Q.

Definition calculateTotals (c : t) : t :=
  let sub := rawSubtotal (items c) in
  let tax := rawTax (items c) in
  let tot := (sub + tax - discountAmount c)%Q in
  {| items := items c;
     subtotal := Num.toFixed2 sub;
     taxAmount := Num.toFixed2 tax;
     discountAmount := discountAmount c;
     total := Num.toFixed2 tot;
     customerId := customerId c; notes := notes c |}.

Definition addItem (db : DatabaseService.t) (pid : string) (qty : Q)
    (method : string) (confidence : Q) (c : t) : Result * t :=
  match DatabaseService.getProductById db pid with
  | None => (failure "Product not found", c)
  | Some product =>
      if Qle_bool qty 0 then (failure "Quantity must be greater than zero", c)
      else if Num.Qlt_bool (DatabaseService.stock product) qty
      then (failure "Insufficient stock", c)
      else
        let items' :=
          match findIndex pid (items c) with
          | Some existingItemIndex =>
              alter (add_quantity qty) existingItemIndex (items c)
          | None =>
              items c ++
              [{| productId := pid;
                  name := DatabaseService.name product;
                  price := DatabaseService.price product;
                  taxRate := Num.orZero (DatabaseService.taxRate product);
                  quantity := qty;
                  recognitionMethod := method;
                  recognitionConfidence := confidence |}]
          end in
        let c' := calculateTotals (set_items items' c) in
        (withItem (find pid (items c')) (result true "Item added to cart"), c')
  end.

Definition removeItem (pid : string) (c : t) : Result * t :=
  let initialLength := length (items c) in
  let c1 := set_items (List.filter (fun i => negb (isProduct pid i)) (items c)) c in
  if Nat.eqb (length (items c1)) initialLength
  then (failure "Item not found in cart", c1)
  else (result true "Item removed from cart", calculateTotals c1).

Definition updateItemQuantity (db : DatabaseService.t) (pid : string) (qty : Q)
    (c : t) : Result * t :=
  if Qle_bool qty 0 then removeItem pid c
  else
    match findIndex pid (items c) with
    | None => (failure "Item not found in cart", c)
    | Some idx =>
        match DatabaseService.getProductById db pid with
        | None => (failure "Product not found", c)
        | Some product =>
            if Num.Qlt_bool (DatabaseService.stock product) qty
            then (failure "Insufficient stock", c)
            else
              let c' := calculateTotals
                          (set_items (alter (set_quantity qty) idx (items c)) c) in
              (withItem (find pid (items c'))
                 (result true "Item quantity updated"), c')
        end
    end.

Definition applyDiscount (amt : Q) (c : t) : Result * t :=
  if Num.Qlt_bool amt 0 then (failure "Invalid discount amount", c)
  else if Num.Qlt_bool (subtotal c) amt
  then (failure "Discount cannot exceed subtotal", c)
  else
    (result true "Discount applied",
     calculateTotals
       {| items := items c; subtotal := subtotal c; taxAmount := taxAmount c;
          discountAmount := amt; total := total c;
          customerId := customerId c; notes := notes c |}).

Definition clearCart (c : t) : t := empty.

Definition toTransactionItem (i : CartItem) : Transaction.Item :=
  {| Transaction.productId := productId i;
     Transaction.name := name i;
     Transaction.priceAtSale := price i;
     Transaction.taxRateAtSale := taxRate i;
     Transaction.quantity := quantity i;
     Transaction.recognitionMethod := recognitionMethod i;
     Transaction.recognitionConfidence := recognitionConfidence i |}.

Definition createTransaction (genId now : string) (employeeId storeId : string)
    (c : t) : Result :=
  if Nat.eqb (length (items c)) 0 then failure "Cart is empty"
  else if isEmpty employeeId then failure "Employee ID is required"
  else if isEmpty storeId then failure "Store ID is required"
  else
    let transactionItems := map toTransactionItem (items c) in
    let x := Transaction.fromObject genId
      {| Transaction.id := "";
         Transaction.items := transactionItems;
         Transaction.subtotal := subtotal c;
         Transaction.taxAmount := taxAmount c;
         Transaction.discountAmount := discountAmount c;
         Transaction.total := total c;
         Transaction.status := Transaction.pending;
         Transaction.paymentMethods := [];
         Transaction.customerId := customerId c;
         Transaction.employeeId := Some employeeId;
         Transaction.storeId := Some storeId;
         Transaction.notes := notes c;
         Transaction.createdAt := now;
         Transaction.completedAt := None;
         Transaction.voidedAt := None |} in
    {| success := true; message := "Transaction created"; item := None;
       transaction := Some (Transaction.toObject x);
       amountDue := None; change := None |}.

Definition totalPayment (paymentMethods : list Transaction.PaymentMethod) : Q :=
  fold_left (fun sum method => (sum + Num.orZero (Transaction.amount method))%Q)
    paymentMethods 0%Q.

(** The loop of [checkout] that lowers the stock of every cart line. *)
Definition lowerStockOfItems (l : list CartItem) (db : DatabaseService.t)
  : DatabaseService.t :=
  fold_left (fun d i => DatabaseService.moveStock 1 (productId i) (quantity i) d)
    l db.

(** The mutable state a checkout acts on: the store and the cart. *)
Definition checkout (genId now : string) (employeeId storeId : string)
    (paymentMethods : list Transaction.PaymentMethod)
    (db : DatabaseService.t) (c : t) : Result * (DatabaseService.t * t) :=
  let transactionResult := createTransaction genId now employeeId storeId c in
  if negb (success transactionResult) then (transactionResult, (db, c))
  else
  match transaction transactionResult with
  | None => (failure "Checkout failed", (db, c))
  | Some x =>
      if Nat.eqb (length paymentMethods) 0
      then ({| success := false; message := "Payment methods are required";
               item := None; transaction := Some x;
               amountDue := None; change := None |}, (db, c))
      else
        let paid := totalPayment paymentMethods in
        if Num.Qlt_bool paid (total c)
        then ({| success := false; message := "Insufficient payment amount";
                 item := None; transaction := Some x;
                 amountDue := Some (total c - paid)%Q; change := None |},
              (db, c))
        else
          let transactionObj := Transaction.fromObject genId x in
          let withPayments :=
            fold_left
              (fun o method =>
                 snd (Transaction.addPaymentMethod now
                        {| Transaction.type := Transaction.type method;
                           Transaction.amount := Transaction.amount method;
                           Transaction.reference :=
                             orNull (Transaction.reference method);
                           Transaction.timestamp := Some now |} o))
              paymentMethods transactionObj in
          let completedObj := snd (Transaction.complete now withPayments) in
          let db1 := lowerStockOfItems (items c) db in
          let db2 := snd (DatabaseService.saveTransaction
                            (Transaction.toObject completedObj) db1) in
          let c' := clearCart c in
          ({| success := true; message := "Checkout completed"; item := None;
              transaction := Some (Transaction.toObject completedObj);
              amountDue := None;
              change := Some (paid - total c')%Q |},
           (db2, c'))
  end.

End CartService.

(** ** Users and sessions *)

Module User.

Record t := {
  id : string;
  username : string;
  passwordHash : option string;
  role : string;
  permissions : list string
}.

Definition getDefaultPermissions (role : string) : list string :=
  if String.eqb role "admin" then
    ["users:read"; "users:create"; "users:update"; "users:delete";
     "products:read"; "products:create"; "products:update"; "products:delete";
     "transactions:read"; "transactions:create"; "transactions:update";
     "transactions:void";
     "reports:read"; "settings:read"; "settings:update"]%string
  else if String.eqb role "manager" then
    ["users:read";
     "products:read"; "products:create"; "products:update";
     "transactions:read"; "transactions:create"; "transactions:update";
     "transactions:void";
     "reports:read"; "settings:read"]%string
  else if String.eqb role "cashier" then
    ["products:read";
     "transactions:read"; "transactions:create"]%string
  else [].

(** [new User(data)]: the role defaults to cashier and the permissions to
    the defaults of the role. *)
Definition create (id username : string) (passwordHash : option string)
    (role : option string) (permissions : option (list string)) : t :=
  {| id := id; username := username; passwordHash := passwordHash;
     role := orElse role "cashier";
     permissions :=
       match permissions with
       | Some l => l
       | None => getDefaultPermissions (orElse role "cashier")
       end |}.

Definition includes (p : string) (l : list string) : bool :=
  existsb (String.eqb p) l.

Definition set_permissions (l : list string) (u : t) : t :=
  {| id := id u; username := username u; passwordHash := passwordHash u;
     role := role u; permissions := l |}.

Definition hasPermission (permission : string) (u : t) : bool :=
  includes permission (permissions u).

Definition addPermission (permission : string) (u : t) : bool * t :=
  if isEmpty permission || includes permission (permissions u) then (false, u)
  else (true, set_permissions (permissions u ++ [permission]) u).

Definition removePermission (permission : string) (u : t) : bool * t :=
  let initialLength := length (permissions u) in
  let u' := set_permissions
              (List.filter (fun p => negb (String.eqb p permission)) (permissions u)) u in
  (negb (Nat.eqb (length (permissions u')) initialLength), u').

End User.

Module AuthService.

(** Times are milliseconds since the epoch. *)
Record t := {
  currentUser : option User.t;
  token : option string;
  tokenExpiry : option Z
}.

Definition getCurrentUser (now : Z) (a : t) : option User.t :=
  match currentUser a, token a, tokenExpiry a with
  | Some u, Some tok, Some expiry =>
      if isEmpty tok then None
      else if (expiry <? now)%Z then None
      else Some {| User.id := User.id u; User.username := User.username u;
                   User.passwordHash := None; User.role := User.role u;
                   User.permissions := User.permissions u |}
  | _, _, _ => None
  end.

Definition isAuthenticated (now : Z) (a : t) : bool :=
  match getCurrentUser now a with Some _ => true | None => false end.

Definition hasPermission (now : Z) (permission : string) (a : t) : bool :=
  match getCurrentUser now a with
  | None => false
  | Some user => User.includes permission (User.permissions user)
  end.

Definition logout (a : t) : bool * t :=
  (true, {| currentUser := None; token := None; tokenExpiry := None |}).

End AuthService.

(** ** API service: dispatcher and transaction handlers *)

Module APIService.

Record Response (P : Type) := {
  success : bool;
  status : nat;
  message : option string;
  data : option P
}.
Arguments success {P} _.
Arguments status {P} _.
Arguments message {P} _.
Arguments data {P} _.

(** [{ success: false, status, message }] *)
Definition reply {P : Type} (st : nat) (m : string) : Response P :=
  {| success := false; status := st; message := Some m; data := None |}.

(** [{ success: true, status, data }] *)
Definition respond {P : Type} (st : nat) (d : P) : Response P :=
  {| success := true; status := st; message := None; data := Some d |}.

(** [String.prototype.split] with a one-character separator. *)
Fixpoint split (sep : ascii) (s : string) : list string :=
  match s with
  | EmptyString => [EmptyString]
  | String c s' =>
      if Ascii.eqb c sep then EmptyString :: split sep s'
      else match split sep s' with
           | h :: rest => String c h :: rest
           | [] => [String c EmptyString]
           end
  end.

(** The value of an expression that may raise an exception. *)
Inductive Outcome (A : Type) :=
| Returned (a : A)
| Thrown.
Arguments Returned {A} _.
Arguments Thrown {A}.

(** [part.startsWith(':')], giving [part.substring(1)]. *)
Definition paramName (part : string) : option string :=
  match part with
  | String c rest => if Ascii.eqb c ":" then Some rest else None
  | EmptyString => None
  end.

Fixpoint matchParts (patternParts pathParts : list string)
    (params : gmap string string) : option (gmap string string) :=
  match patternParts, pathParts with
  | [], _ => Some params
  | patternPart :: ps, pathPart :: xs =>
      match paramName patternPart with
      | Some n => matchParts ps xs (<[n := pathPart]> params)
      | None =>
          if String.eqb patternPart pathPart then matchParts ps xs params
          else None
      end
  | _ :: _, [] => None
  end.

(** An absent argument ([undefined]) makes [split] raise. *)
Definition matchPathPattern (pattern path : option string)
  : Outcome (option (gmap string string)) :=
  match pattern, path with
  | Some pattern, Some path =>
      let patternParts := split "/" pattern in
      let pathParts := split "/" path in
      if negb (Nat.eqb (length patternParts) (length pathParts))
      then Returned None
      else Returned (matchParts patternParts pathParts ∅)
  | _, _ => Thrown
  end.

Section Dispatcher.

(** Handlers are referred to by name; [invoke] runs one and gives
    [None] when it raises. *)
Variables (Handler Data Payload : Type).
Variable invoke :
  Handler -> gmap string string -> Data -> option (Response Payload).

Record Endpoint := {
  handler : Handler;
  permissions : list string
}.

(** The [endpoints] object: its keys in insertion order. *)
Fixpoint registerEndpoint (path : string) (h : Handler) (perms : list string)
    (endpoints : list (string * Endpoint)) : list (string * Endpoint) :=
  match endpoints with
  | [] => [(path, {| handler := h; permissions := perms |})]
  | (k, e) :: rest =>
      if String.eqb k path
      then (k, {| handler := h; permissions := perms |}) :: rest
      else (k, e) :: registerEndpoint path h perms rest
  end.

Fixpoint getEndpoint (key : string) (endpoints : list (string * Endpoint))
  : option Endpoint :=
  match endpoints with
  | [] => None
  | (k, e) :: rest => if String.eqb k key then Some e else getEndpoint key rest
  end.

(** The body of the loop over [Object.entries(this.endpoints)]: the
    path parameters when the entry matches, [None] to go on with the
    next entry. *)
Definition matchEntry (method : string) (path : option string)
    (pattern : string) : Outcome (option (gmap string string)) :=
  let patternParts := split " " pattern in
  let patternMethod := hd EmptyString patternParts in
  let patternPath := nth_error patternParts 1 in
  if negb (String.eqb patternMethod method) then Returned None
  else matchPathPattern patternPath path.

Fixpoint findPattern (method : string) (path : option string)
    (params : gmap string string) (entries : list (string * Endpoint))
  : Outcome (option (Endpoint * gmap string string)) :=
  match entries with
  | [] => Returned None
  | (pattern, endpoint) :: rest =>
      match matchEntry method path pattern with
      | Thrown => Thrown
      | Returned (Some m) => Returned (Some (endpoint, m ∪ params))
      | Returned None => findPattern method path params rest
      end
  end.

Definition findEndpoint (endpoints : list (string * Endpoint))
    (method : string) (path : option string) (params : gmap string string)
  : Outcome (option (Endpoint * gmap string string)) :=
  let exactPath :=
    (method +:+ " " +:+ match path with Some p => p | None => "undefined" end)%string in
  match getEndpoint exactPath endpoints with
  | Some e => Returned (Some (e, params))
  | None => findPattern method path params endpoints
  end.

Definition callHandler (e : Endpoint) (params : gmap string string) (d : Data)
  : Response Payload :=
  match invoke (handler e) params d with
  | Some r => r
  | None => reply 500 "Internal server error"
  end.

Definition handleRequest (now : Z) (auth : AuthService.t)
    (endpoints : list (string * Endpoint))
    (path : string) (params : gmap string string) (d : Data)
  : Response Payload :=
  let pathParts := split " " path in
  let method := hd EmptyString pathParts in
  let pathPattern := nth_error pathParts 1 in
  match findEndpoint endpoints method pathPattern params with
  | Thrown => reply 500 "Internal server error"
  | Returned None => reply 404 "Endpoint not found"
  | Returned (Some (endpoint, params')) =>
      if Nat.ltb 0 (length (permissions endpoint)) then
        if negb (AuthService.isAuthenticated now auth)
        then reply 401 "Authentication required"
        else if negb (forallb (fun permission =>
                                 AuthService.hasPermission now permission auth)
                        (permissions endpoint))
        then reply 403 "Permission denied"
        else callHandler endpoint params' d
      else callHandler endpoint params' d
  end.

End Dispatcher.

Arguments handler {Handler} _.
Arguments permissions {Handler} _.
Arguments registerEndpoint {Handler} _ _ _ _.
Arguments getEndpoint {Handler} _ _.
Arguments findPattern {Handler} _ _ _ _.
Arguments findEndpoint {Handler} _ _ _ _.
Arguments callHandler {Handler Data Payload} _ _ _ _.
Arguments handleRequest {Handler Data Payload} _ _ _ _ _ _ _.

(** The handlers bound by [registerEndpoints]. *)
Module Route.
Inductive name :=
| getProducts | getProductById | createProduct | updateProduct
| deleteProduct | getProductsByCategory | searchProducts
| getTransactions | getTransactionById | createTransaction
| updateTransaction | completeTransaction | voidTransaction
| getUsers | getUserById | createUser | updateUser | deleteUser
| resetUserPassword
| login | logout | getCurrentUser | changePassword
| getSettings | updateSettings | getSetting | updateSetting
| processImage | trainModel | getModelInfo | setConfidenceThreshold.
End Route.

Definition registrations : list (string * Route.name * list string) :=
  [ ("GET /api/products", Route.getProducts, ["products:read"]);
    ("GET /api/products/:id", Route.getProductById, ["products:read"]);
    ("POST /api/products", Route.createProduct, ["products:create"]);
    ("PUT /api/products/:id", Route.updateProduct, ["products:update"]);
    ("DELETE /api/products/:id", Route.deleteProduct, ["products:delete"]);
    ("GET /api/products/category/:category", Route.getProductsByCategory,
     ["products:read"]);
    ("GET /api/products/search/:query", Route.searchProducts, ["products:read"]);
    ("GET /api/transactions", Route.getTransactions, ["transactions:read"]);
    ("GET /api/transactions/:id", Route.getTransactionById, ["transactions:read"]);
    ("POST /api/transactions", Route.createTransaction, ["transactions:create"]);
    ("PUT /api/transactions/:id", Route.updateTransaction, ["transactions:update"]);
    ("POST /api/transactions/:id/complete", Route.completeTransaction,
     ["transactions:update"]);
    ("POST /api/transactions/:id/void", Route.voidTransaction, ["transactions:void"]);
    ("GET /api/users", Route.getUsers, ["users:read"]);
    ("GET /api/users/:id", Route.getUserById, ["users:read"]);
    ("POST /api/users", Route.createUser, ["users:create"]);
    ("PUT /api/users/:id", Route.updateUser, ["users:update"]);
    ("DELETE /api/users/:id", Route.deleteUser, ["users:delete"]);
    ("POST /api/users/:id/reset-password", Route.resetUserPassword, ["users:update"]);
    ("POST /api/auth/login", Route.login, []);
    ("POST /api/auth/logout", Route.logout, []);
    ("GET /api/auth/current-user", Route.getCurrentUser, []);
    ("POST /api/auth/change-password", Route.changePassword, []);
    ("GET /api/settings", Route.getSettings, ["settings:read"]);
    ("PUT /api/settings", Route.updateSettings, ["settings:update"]);
    ("GET /api/settings/:key", Route.getSetting, ["settings:read"]);
    ("PUT /api/settings/:key", Route.updateSetting, ["settings:update"]);
    ("POST /api/vision/process", Route.processImage, ["products:read"]);
    ("POST /api/vision/train", Route.trainModel, ["products:update"]);
    ("GET /api/vision/model-info", Route.getModelInfo, ["products:read"]);
    ("PUT /api/vision/threshold", Route.setConfidenceThreshold, ["settings:update"])
  ]%string.

Definition registerEndpoints : list (string * Endpoint Route.name) :=
  fold_left (fun endpoints '(path, h, perms) =>
               registerEndpoint path h perms endpoints)
    registrations [].

(** *** Transaction handlers *)

(** The store after [Transaction.fromObject(existing)] has pushed payment
    entries: the new object shares the [paymentMethods] array of the
    stored one, so the stored object sees the pushes. *)
Definition sharePayments (id : string) (pms : list Transaction.PaymentMethod)
    (db : DatabaseService.t) : DatabaseService.t :=
  {| DatabaseService.products := DatabaseService.products db;
     DatabaseService.transactions :=
       alter (Transaction.set_paymentMethods pms) id
         (DatabaseService.transactions db) |}.

Definition addPaymentMethods (now : string)
    (paymentMethods : list Transaction.PaymentMethod) (x : Transaction.t)
  : Transaction.t :=
  fold_left (fun o method => snd (Transaction.addPaymentMethod now method o))
    paymentMethods x.

Definition moveStockOfItems (sign : Q) (l : list Transaction.Item)
    (db : DatabaseService.t) : DatabaseService.t :=
  fold_left (fun d i =>
               DatabaseService.moveStock sign (Transaction.productId i)
                 (Transaction.quantity i) d)
    l db.

Definition completeTransaction (genId now : string) (db : DatabaseService.t)
    (id : string) (paymentMethods : list Transaction.PaymentMethod)
  : Response Transaction.t * DatabaseService.t :=
  match DatabaseService.getTransactionById db id with
  | None => (reply 404 "Transaction not found", db)
  | Some existingTransaction =>
      match Transaction.status existingTransaction with
      | Transaction.completed => (reply 400 "Transaction is already completed", db)
      | Transaction.voided => (reply 400 "Cannot complete voided transaction", db)
      | Transaction.pending =>
          if Nat.eqb (length paymentMethods) 0
          then (reply 400 "Payment methods are required", db)
          else
            let transaction := Transaction.fromObject genId existingTransaction in
            let paid := addPaymentMethods now paymentMethods transaction in
            let db1 := sharePayments id (Transaction.paymentMethods paid) db in
            let (completed, done) := Transaction.complete now paid in
            if negb completed
            then (reply 400 "Failed to complete transaction", db1)
            else
              let db2 := moveStockOfItems 1 (Transaction.items done) db1 in
              let (saved, db3) :=
                DatabaseService.saveTransaction (Transaction.toObject done) db2 in
              if negb saved then (reply 500 "Failed to save transaction", db3)
              else (respond 200 (Transaction.toObject done), db3)
      end
  end.

Definition voidTransaction (genId now : string) (db : DatabaseService.t)
    (id : string) (reason : string)
  : Response Transaction.t * DatabaseService.t :=
  match DatabaseService.getTransactionById db id with
  | None => (reply 404 "Transaction not found", db)
  | Some existingTransaction =>
      if Transaction.Status_eqb (Transaction.status existingTransaction)
           Transaction.voided
      then (reply 400 "Transaction is already voided", db)
      else
        let transaction := Transaction.fromObject genId existingTransaction in
        let (voided, done) := Transaction.void now reason transaction in
        if negb voided then (reply 400 "Failed to void transaction", db)
        else
          let db1 :=
            if Transaction.Status_eqb (Transaction.status existingTransaction)
                 Transaction.completed
            then moveStockOfItems (-1) (Transaction.items done) db
            else db in
          let (saved, db2) :=
            DatabaseService.saveTransaction (Transaction.toObject done) db1 in
          if negb saved then (reply 500 "Failed to save transaction", db2)
          else (respond 200 (Transaction.toObject done), db2)
  end.

(** The request body of an update: the fields it sets. *)
Record TransactionData := {
  d_items : option (list Transaction.Item);
  d_subtotal : option Q;
  d_taxAmount : option Q;
  d_discountAmount : option Q;
  d_total : option Q;
  d_status : option Transaction.Status;
  d_paymentMethods : option (list Transaction.PaymentMethod);
  d_customerId : option (option string);
  d_employeeId : option (option string);
  d_storeId : option (option string);
  d_notes : option string;
  d_createdAt : option string;
  d_completedAt : option (option string);
  d_voidedAt : option (option string)
}.

(** [{ ...existingTransaction, ...data, id: existingTransaction.id }] *)
Definition spread (existing : Transaction.t) (d : TransactionData) : Transaction.t :=
  {| Transaction.id := Transaction.id existing;
     Transaction.items := default (Transaction.items existing) (d_items d);
     Transaction.subtotal := default (Transaction.subtotal existing) (d_subtotal d);
     Transaction.taxAmount := default (Transaction.taxAmount existing) (d_taxAmount d);
     Transaction.discountAmount :=
       default (Transaction.discountAmount existing) (d_discountAmount d);
     Transaction.total := default (Transaction.total existing) (d_total d);
     Transaction.status := default (Transaction.status existing) (d_status d);
     Transaction.paymentMethods :=
       default (Transaction.paymentMethods existing) (d_paymentMethods d);
     Transaction.customerId :=
       default (Transaction.customerId existing) (d_customerId d);
     Transaction.employeeId :=
       default (Transaction.employeeId existing) (d_employeeId d);
     Transaction.storeId := default (Transaction.storeId existing) (d_storeId d);
     Transaction.notes := default (Transaction.notes existing) (d_notes d);
     Transaction.createdAt :=
       default (Transaction.createdAt existing) (d_createdAt d);
     Transaction.completedAt :=
       default (Transaction.completedAt existing) (d_completedAt d);
     Transaction.voidedAt :=
       default (Transaction.voidedAt existing) (d_voidedAt d) |}.

Definition joinErrors (errors : list string) : string :=
  String.concat ", " errors.

Definition updateTransaction (genId : string) (db : DatabaseService.t)
    (id : string) (d : TransactionData)
  : Response Transaction.t * DatabaseService.t :=
  match DatabaseService.getTransactionById db id with
  | None => (reply 404 "Transaction not found", db)
  | Some existingTransaction =>
      if Transaction.Status_eqb (Transaction.status existingTransaction)
           Transaction.completed
         || Transaction.Status_eqb (Transaction.status existingTransaction)
              Transaction.voided
      then (reply 400 "Cannot update completed or voided transaction", db)
      else
        let transaction :=
          Transaction.fromObject genId (spread existingTransaction d) in
        if negb (Transaction.isValid transaction)
        then (reply 400 (joinErrors (Transaction.validate transaction)), db)
        else
          let (saved, db1) :=
            DatabaseService.saveTransaction (Transaction.toObject transaction) db in
          if negb saved then (reply 500 "Failed to save transaction", db1)
          else (respond 200 (Transaction.toObject transaction), db1)
  end.

(** [new Transaction(data)] for a request body: the fields the body omits
    take the defaults of the constructor. *)
Definition construct (genId now : string) (id : option string)
    (d : TransactionData) : Transaction.t :=
  {| Transaction.id := orElse id genId;
     Transaction.items := default [] (d_items d);
     Transaction.subtotal := Num.orZero (default 0%Q (d_subtotal d));
     Transaction.taxAmount := Num.orZero (default 0%Q (d_taxAmount d));
     Transaction.discountAmount := Num.orZero (default 0%Q (d_discountAmount d));
     Transaction.total := Num.orZero (default 0%Q (d_total d));
     Transaction.status := default Transaction.pending (d_status d);
     Transaction.paymentMethods := default [] (d_paymentMethods d);
     Transaction.customerId := orNull (default None (d_customerId d));
     Transaction.employeeId := orNull (default None (d_employeeId d));
     Transaction.storeId := orNull (default None (d_storeId d));
     Transaction.notes := default EmptyString (d_notes d);
     Transaction.createdAt := orElse (d_createdAt d) now;
     Transaction.completedAt := orNull (default None (d_completedAt d));
     Transaction.voidedAt := orNull (default None (d_voidedAt d)) |}.

Definition createTransaction (genId now : string) (db : DatabaseService.t)
    (id : option string) (d : TransactionData)
  : Response Transaction.t * DatabaseService.t :=
  if Nat.eqb (length (default [] (d_items d))) 0
  then (reply 400 "Transaction must have at least one item", db)
  else
    let transaction := construct genId now id d in
    if negb (Transaction.isValid transaction)
    then (reply 400 (joinErrors (Transaction.validate transaction)), db)
    else
      let (saved, db1) :=
        DatabaseService.saveTransaction (Transaction.toObject transaction) db in
      if negb saved then (reply 500 "Failed to save transaction", db1)
      else (respond 201 (Transaction.toObject transaction), db1).

End APIService.

(** ** Lifecycle of a transaction

    One step is one lifecycle operation on a transaction: the three
    methods of the model, and the update handler applied to a store that
    holds the transaction under its id. *)

Module Lifecycle.

Inductive step : Transaction.t -> Transaction.t -> Prop :=
| step_addPayment (now : string) (pm : Transaction.PaymentMethod) (x : Transaction.t) :
    step x (snd (Transaction.addPaymentMethod now pm x))
| step_complete (now : string) (x : Transaction.t) :
    step x (snd (Transaction.complete now x))
| step_void (now reason : string) (x : Transaction.t) :
    step x (snd (Transaction.void now reason x))
| step_update (genId : string) (db : DatabaseService.t)
    (d : APIService.TransactionData) (x x' : Transaction.t) :
    DatabaseService.getTransactionById db (Transaction.id x) = Some x ->
    DatabaseService.getTransactionById
      (snd (APIService.updateTransaction genId db (Transaction.id x) d))
      (Transaction.id x) = Some x' ->
    step x x'.

Definition steps : Transaction.t -> Transaction.t -> Prop := rtc step.

End Lifecycle.

(** ** Cart sessions

    The cart states a caller can reach from a fresh cart with the four
    mutating operations; the catalogue may differ from call to call. *)

Module CartSession.

Inductive reachable : CartService.t -> Prop :=
| reach_empty : reachable CartService.empty
| reach_addItem db pid qty method confidence c :
    reachable c ->
    reachable (snd (CartService.addItem db pid qty method confidence c))
| reach_removeItem pid c :
    reachable c ->
    reachable (snd (CartService.removeItem pid c))
| reach_updateItemQuantity db pid qty c :
    reachable c ->
    reachable (snd (CartService.updateItemQuantity db pid qty c))
| reach_applyDiscount amt c :
    reachable c ->
    reachable (snd (CartService.applyDiscount amt c)).

(** The sum of [f] over the lines of a cart or of a transaction. *)
Definition sumOver {A : Type} (f : A -> Q) (l : list A) : Q :=
  fold_right (fun i acc => (f i + acc)%Q) 0%Q l.

Definition lineAmount (i : CartService.CartItem) : Q := (CartService.price i * CartService.quantity i)%Q.

Definition lineTax (i : CartService.CartItem) : Q :=
  (CartService.price i * CartService.quantity i * CartService.taxRate i / 100)%Q.

(** The stored totals are the roundings of the exact sums. *)
Definition consistent (c : CartService.t) : Prop :=
  (CartService.subtotal c == Num.toFixed2 (sumOver lineAmount (CartService.items c)))%Q
  /\ (CartService.taxAmount c == Num.toFixed2 (sumOver lineTax (CartService.items c)))%Q
  /\ (CartService.total c ==
      Num.toFixed2 (sumOver lineAmount (CartService.items c)
                    + sumOver lineTax (CartService.items c)
                    - CartService.discountAmount c))%Q.

End CartSession.

(** ** Stock ledger

    The stock ledger is the [stock] field of the catalogue entries. *)

Module StockLedger.

(** The quantity a sale asks of one product: the sum over its lines. *)
Definition quantityFor (pid : string) (l : list Transaction.Item) : Q :=
  fold_right
    (fun i acc =>
       if String.eqb (Transaction.productId i) pid
       then (Transaction.quantity i + acc)%Q else acc)
    0%Q l.

(** [shifted delta o o']: the entry [o'] is the entry [o] with [delta]
    added to its stock, and an absent entry stays absent. *)
Definition shifted (delta : Q)
    (o o' : option DatabaseService.Product) : Prop :=
  match o, o' with
  | Some p, Some p' =>
      DatabaseService.name p' = DatabaseService.name p
      /\ DatabaseService.price p' = DatabaseService.price p
      /\ DatabaseService.taxRate p' = DatabaseService.taxRate p
      /\ (DatabaseService.stock p' == DatabaseService.stock p + delta)%Q
  | None, None => True
  | _, _ => False
  end.

End StockLedger.

(** ** Sample data used to exercise the model *)

Module Sample.

Import Transaction.

Definition scenarioC : t :=
  {| id := "txn_1"; items := []; subtotal := 29.97; taxAmount := 2.25;
     discountAmount := 0; total := 32.22; status := pending;
     paymentMethods :=
       [{| type := "cash"; amount := 20; reference := None;
           timestamp := Some "2024-01-01T00:00:00.000Z" |}];
     customerId := None; employeeId := Some "emp_1"; storeId := Some "store_1";
     notes := ""; createdAt := "2024-01-01T00:00:00.000Z";
     completedAt := None; voidedAt := None |}.


Definition completedSale : t :=
  {| id := "txn_2"; items := []; subtotal := 10; taxAmount := 0;
     discountAmount := 0; total := 10; status := completed;
     paymentMethods :=
       [{| type := "cash"; amount := 10; reference := None;
           timestamp := Some "2024-01-01T00:00:00.000Z" |}];
     customerId := None; employeeId := Some "emp_1"; storeId := Some "store_1";
     notes := ""; createdAt := "2024-01-01T00:00:00.000Z";
     completedAt := Some "2024-01-01T00:01:00.000Z"; voidedAt := None |}.

Definition voidedSale : t :=
  snd (void "2024-01-01T00:03:00.000Z" "refund" completedSale).

Definition lateCash : PaymentMethod :=
  {| type := "cash"; amount := 5; reference := None; timestamp := None |}.

Definition catalog : DatabaseService.t :=
  {| DatabaseService.products :=
       {[ "apple"%string :=
            {| DatabaseService.name := "Apple"; DatabaseService.price := 10;
               DatabaseService.stock := 5; DatabaseService.taxRate := 0 |};
          "pear"%string :=
            {| DatabaseService.name := "Pear"; DatabaseService.price := 1;
               DatabaseService.stock := 5; DatabaseService.taxRate := 0 |};
          "tea"%string :=
            {| DatabaseService.name := "Tea"; DatabaseService.price := 9.99;
               DatabaseService.stock := 10; DatabaseService.taxRate := 7.5 |};
          "gum"%string :=
            {| DatabaseService.name := "Gum"; DatabaseService.price := 0.125;
               DatabaseService.stock := 10; DatabaseService.taxRate := 100 |} ]};
     DatabaseService.transactions := ∅ |}.

Definition add (pid : string) (qty : Q) (c : CartService.t) : CartService.t :=
  snd (CartService.addItem catalog pid qty "manual" 1 c).

(** Scenario A: three units of a 9.99 product taxed at 7.5 percent. *)
Definition cartA : CartService.t := add "tea" 3 CartService.empty.

(** One unit of a 0.125 product taxed at 100 percent. *)
Definition cartGum : CartService.t := add "gum" 1 CartService.empty.

(** An apple and a pear, a discount of the whole subtotal, then the
    apple is removed. *)
Definition cartDiscounted : CartService.t :=
  snd (CartService.applyDiscount 11 (add "pear" 1 (add "apple" 1 CartService.empty))).

Definition cartAfterRemoval : CartService.t :=
  snd (CartService.removeItem "apple" cartDiscounted).

(** Four apples in the cart while five are in stock. *)
Definition cartFourApples : CartService.t := add "apple" 4 CartService.empty.

(** A session of a user created with the role cashier and no explicit
    permissions. *)
Definition cashierSession : AuthService.t :=
  {| AuthService.currentUser :=
       Some (User.create "user_7" "kim" (Some "hash") (Some "cashier") None);
     AuthService.token := Some "token_1";
     AuthService.tokenExpiry := Some 2000%Z |}.

Definition noSession : AuthService.t :=
  {| AuthService.currentUser := None; AuthService.token := None;
     AuthService.tokenExpiry := None |}.

Definition voidEndpoint : APIService.Endpoint APIService.Route.name :=
  {| APIService.handler := APIService.Route.voidTransaction;
     APIService.permissions := ["transactions:void"%string] |}.

(** The path of a void request for the transaction [id]. *)
Definition voidPath (id : string) : string :=
  ("/api/transactions/" +:+ id +:+ "/void")%string.

Definition cash40 : list PaymentMethod :=
  [{| type := "cash"; amount := 40; reference := None; timestamp := None |}].

Definition checkoutA :=
  CartService.checkout "txn_A" "2024-01-01T00:00:00.000Z" "emp_1" "store_1"
    cash40 catalog cartA.

(** A pending sale of eight apples, five being in stock. *)
Definition eightApples : t :=
  {| id := "txn_9";
     items := [{| productId := "apple"; name := "Apple"; priceAtSale := 10;
                  taxRateAtSale := 0; quantity := 8;
                  recognitionMethod := "manual"; recognitionConfidence := 1 |}];
     subtotal := 80; taxAmount := 0; discountAmount := 0; total := 80;
     status := pending; paymentMethods := [];
     customerId := None; employeeId := Some "emp_1"; storeId := Some "store_1";
     notes := ""; createdAt := "2024-01-01T00:00:00.000Z";
     completedAt := None; voidedAt := None |}.

Definition store : DatabaseService.t :=
  {| DatabaseService.products := DatabaseService.products catalog;
     DatabaseService.transactions := {[ "txn_9"%string := eightApples ]} |}.

Definition cash80 : list PaymentMethod :=
  [{| type := "cash"; amount := 80; reference := None; timestamp := None |}].

Definition completion :=
  APIService.completeTransaction "txn_g" "2024-01-01T00:01:00.000Z" store
    "txn_9" cash80.


End Sample.

(** ** Edits of the lines of a cart *)

Module CartEdits.

(** What each operation does to the list of lines. *)
Inductive edit (l : list CartService.CartItem)
  : list CartService.CartItem -> Prop :=
| edit_none : edit l l
| edit_merge pid qty idx :
    CartService.findIndex pid l = Some idx -> (0 < qty)%Q ->
    edit l (alter (CartService.add_quantity qty) idx l)
| edit_push line :
    CartService.findIndex (CartService.productId line) l = None -> (0 < CartService.quantity line)%Q ->
    edit l (l ++ [line])
| edit_remove pid :
    edit l (List.filter (fun i => negb (CartService.isProduct pid i)) l)
| edit_set pid qty idx :
    CartService.findIndex pid l = Some idx -> (0 < qty)%Q ->
    edit l (alter (CartService.set_quantity qty) idx l).

End CartEdits.

(** ** Product model *)

Module Product.

Record t := {
  id : string;
  name : string;
  price : Q;
  sku : string;
  category : string;
  stock : Q;
  imageSignatures : list string;
  description : string;
  taxRate : Q;
  createdAt : string;
  updatedAt : string
}.

Definition validate (p : t) : list string :=
  (if isEmpty (name p) then ["Product name is required"%string] else []) ++
  (if Num.Qlt_bool (price p) 0 then ["Price cannot be negative"%string] else []) ++
  (if Num.Qlt_bool (stock p) 0 then ["Stock cannot be negative"%string] else []) ++
  (if Num.Qlt_bool (taxRate p) 0 then ["Tax rate cannot be negative"%string] else []).

Definition updateStock (now : string) (quantity : Q) (p : t) : bool * t :=
  let newStock := (stock p + quantity)%Q in
  if Num.Qlt_bool newStock 0 then (false, p)
  else (true,
        {| id := id p; name := name p; price := price p; sku := sku p;
           category := category p; stock := newStock;
           imageSignatures := imageSignatures p; description := description p;
           taxRate := taxRate p; createdAt := createdAt p; updatedAt := now |}).

End Product.

(** ** More sample data *)

Module Sample2.

Import Transaction.


(** A store holding the pending sale of eight apples and a voided sale. *)
Definition ledger : DatabaseService.t :=
  {| DatabaseService.products := DatabaseService.products Sample.catalog;
     DatabaseService.transactions :=
       {[ "txn_9"%string := Sample.eightApples;
          "txn_2"%string := Sample.voidedSale ]} |}.

(** A request body that only sets the status. *)
Definition markCompleted : APIService.TransactionData :=
  {| APIService.d_items := None; APIService.d_subtotal := None;
     APIService.d_taxAmount := None; APIService.d_discountAmount := None;
     APIService.d_total := None;
     APIService.d_status := Some completed;
     APIService.d_paymentMethods := None; APIService.d_customerId := None;
     APIService.d_employeeId := None; APIService.d_storeId := None;
     APIService.d_notes := None; APIService.d_createdAt := None;
     APIService.d_completedAt := None; APIService.d_voidedAt := None |}.

(** A request body for a new sale of one pear. *)
Definition onePear : APIService.TransactionData :=
  {| APIService.d_items :=
       Some [{| productId := "pear"; name := "Pear"; priceAtSale := 1;
                taxRateAtSale := 0; quantity := 1;
                recognitionMethod := "manual"; recognitionConfidence := 1 |}];
     APIService.d_subtotal := Some 1%Q;
     APIService.d_taxAmount := None; APIService.d_discountAmount := None;
     APIService.d_total := Some 1%Q;
     APIService.d_status := None;
     APIService.d_paymentMethods := None; APIService.d_customerId := None;
     APIService.d_employeeId := Some (Some "emp_1"%string);
     APIService.d_storeId := Some (Some "store_1"%string);
     APIService.d_notes := None; APIService.d_createdAt := None;
     APIService.d_completedAt := None; APIService.d_voidedAt := None |}.

Definition manager : User.t :=
  User.create "user_2" "lee" (Some "hash") (Some "manager") None.

Definition adminSession : AuthService.t :=
  {| AuthService.currentUser :=
       Some (User.create "user_1" "admin" (Some "hash") (Some "admin") None);
     AuthService.token := Some "token_2";
     AuthService.tokenExpiry := Some 2000%Z |}.

Definition shelfItem : Product.t :=
  {| Product.id := "apple"; Product.name := "Apple"; Product.price := 10;
     Product.sku := "A-1"; Product.category := "fruit"; Product.stock := 5;
     Product.imageSignatures := ["sig_1"%string]; Product.description := "";
     Product.taxRate := 0; Product.createdAt := "2024-01-01T00:00:00.000Z";
     Product.updatedAt := "2024-01-01T00:00:00.000Z" |}.

End Sample2.

(** The cart states reached when [addItem] is never given an id that
    names a member of [Object.prototype]. *)
Module OwnCartSession.

Inductive reachable : CartService.t -> Prop :=
| reach_empty : reachable CartService.empty
| reach_addItem db pid qty method confidence c :
    JsObject.inherited pid = false ->
    reachable c ->
    reachable (snd (CartService.addItem db pid qty method confidence c))
| reach_removeItem pid c :
    reachable c ->
    reachable (snd (CartService.removeItem pid c))
| reach_updateItemQuantity db pid qty c :
    reachable c ->
    reachable (snd (CartService.updateItemQuantity db pid qty c))
| reach_applyDiscount amt c :
    reachable c ->
    reachable (snd (CartService.applyDiscount amt c)).

End OwnCartSession.

(** ** Amounts in whole units

    Whole numbers whose magnitudes sum to at most [2 ^ 53] are added
    without rounding by the machine: on them a running sum of the code is
    the exact sum. *)

Module Whole.

Definition isWhole (x : Q) : bool := Z.eqb (Zpos (Qden (Qred x))) 1.

Definition magnitudes (pms : list Transaction.PaymentMethod) : Q :=
  fold_right (fun m acc => (Qabs (Transaction.amount m) + acc)%Q) 0%Q pms.

Definition exact (pms : list Transaction.PaymentMethod) : bool :=
  forallb (fun m => isWhole (Transaction.amount m)) pms
  && Qle_bool (magnitudes pms) (inject_Z (2 ^ 53)).

End Whole.

(** ** Numbers as the machine has them

    A JavaScript number is a binary64 floating-point number.  [Number]
    gives the arithmetic of the language on them: every operation rounds
    its exact result to the nearest number, ties to the even mantissa.
    Strings hold ASCII characters. *)

Module Number.

Definition t : Type := spec_float.

Definition NaN : t := S754_nan.
Definition zero : t := S754_zero false.

Definition add : t -> t -> t := SFadd 53 1024.
Definition sub : t -> t -> t := SFsub 53 1024.
Definition mul : t -> t -> t := SFmul 53 1024.
Definition div : t -> t -> t := SFdiv 53 1024.

(** [x < y] and [x <= y]: false as soon as an operand is [NaN]. *)
Definition ltb : t -> t -> bool := SFltb.
Definition leb : t -> t -> bool := SFleb.

(** [!x] is false: a number other than [0], [-0] and [NaN]. *)
Definition truthy (x : t) : bool :=
  match x with
  | S754_zero _ | S754_nan => false
  | _ => true
  end.

(** [x || 0] *)
Definition orZero (x : t) : t := if truthy x then x else zero.

(** The number nearest to the quotient of two positive integers. *)
Definition ofRatio (negative : bool) (n d : positive) : t :=
  SFdiv 53 1024 (S754_finite negative n 0) (S754_finite false d 0).

(** The number nearest to [m * 10 ^ k], the value of a decimal literal
    with the digits [m]. *)
Definition ofDecimal (negative : bool) (m : Z) (k : Z) : t :=
  match m with
  | Zpos p =>
      match k with
      | Zneg j => ofRatio negative p (10 ^ j)
      | _ => binary_normalize 53 1024
               (if negative then - (m * 10 ^ k) else m * 10 ^ k)%Z 0 negative
      end
  | _ => S754_zero negative
  end.

(** A literal of the source: [dec 999 (-2)] is [9.99]. *)
Definition dec (m : Z) (k : Z) : t := ofDecimal (m <? 0)%Z (Z.abs m) k.

(** The exact value of the finite number [m * 2 ^ e]. *)
Definition magnitude (m : positive) (e : Z) : Q := (inject_Z (Zpos m) * 2 ^ e)%Q.

(** The number nearest to [n / 100], with the sign given. *)
Definition ofCents (negative : bool) (n : Z) : t :=
  match n with
  | Zpos p => ofRatio negative p 100
  | _ => S754_zero negative
  end.

(** [parseFloat(x.toFixed(2))].  [toFixed(2)] writes the integer [n] for
    which [n / 100] is nearest to the exact value of [|x|], the larger on
    a tie, behind the sign of [x]; from [10 ^ 21] on, and for [NaN] and the
    infinities, it writes the number as [String(x)] does.  [parseFloat]
    reads the text back as the nearest number. *)
Definition toFixed2 (x : t) : t :=
  match x with
  | S754_finite negative m e =>
      if Qle_bool (10 ^ 21) (magnitude m e) then x
      else ofCents negative (Qfloor (magnitude m e * 100 + (1 # 2)))
  | S754_zero _ => zero
  | _ => x
  end.

(** [v] is [x] rounded to cents: when [x] is finite and below [10 ^ 21]
    in magnitude, [v] is the number nearest to [n / 100] for the integer
    [n] nearest to a hundred times the exact magnitude of [x], the larger
    one on a tie, with the sign of [x]. *)
Definition roundsToCents (x v : t) : Prop :=
  match x with
  | S754_finite negative m e =>
      ((10 ^ 21 <= magnitude m e)%Q -> v = x)
      /\ ((magnitude m e < 10 ^ 21)%Q ->
          exists n : Z,
            v = ofCents negative n
            /\ (inject_Z n - (1 # 2) <= magnitude m e * 100)%Q
            /\ (magnitude m e * 100 < inject_Z n + (1 # 2))%Q)
  | S754_zero _ => v = zero
  | _ => v = x
  end.

(** *** Reading a number from a string *)

Definition isWhiteSpace (c : ascii) : bool :=
  let n := nat_of_ascii c in
  (Nat.leb 9 n && Nat.leb n 13) || Nat.eqb n 32.

Fixpoint trimStart (s : string) : string :=
  match s with
  | String c s' => if isWhiteSpace c then trimStart s' else s
  | EmptyString => s
  end.

Definition digit (c : ascii) : option Z :=
  let n := nat_of_ascii c in
  if Nat.leb 48 n && Nat.leb n 57 then Some (Z.of_nat (n - 48)) else None.

(** The decimal digits at the head of [s]: [acc] extended by them, how
    many they are, and what follows them. *)
Fixpoint digits (acc : Z) (count : nat) (s : string) : Z * nat * string :=
  match s with
  | String c s' =>
      match digit c with
      | Some d => digits (10 * acc + d) (S count) s'
      | None => (acc, count, s)
      end
  | EmptyString => (acc, count, s)
  end.

(** The value of the exponent part at the head of [s], [0] without one. *)
Definition exponentPart (s : string) : Z :=
  match s with
  | String c s' =>
      if Ascii.eqb c "e" || Ascii.eqb c "E" then
        let '(negative, s'') :=
          match s' with
          | String "+" r => (false, r)
          | String "-" r => (true, r)
          | _ => (false, s')
          end in
        let '(v, n, _) := digits 0 0 s'' in
        if Nat.eqb n 0 then 0%Z else if negative then (- v)%Z else v
      else 0%Z
  | EmptyString => 0%Z
  end.

(** The longest prefix that is an unsigned decimal literal. *)
Definition parseUnsigned (negative : bool) (s : string) : t :=
  if String.prefix "Infinity" s then S754_infinity negative
  else
    let '(i, ni, r) := digits 0 0 s in
    let '(m, nf, r') :=
      match r with
      | String "." r1 => digits i 0 r1
      | _ => (i, 0%nat, r)
      end in
    if Nat.eqb (ni + nf) 0 then NaN
    else ofDecimal negative m (exponentPart r' - Z.of_nat nf).

(** [parseFloat] on a string. *)
Definition parseString (s : string) : t :=
  match trimStart s with
  | String "+" r => parseUnsigned false r
  | String "-" r => parseUnsigned true r
  | s' => parseUnsigned false s'
  end.

End Number.

(** A value a caller may pass where a number is expected. *)
Module Value.

Inductive t :=
| number (x : Number.t)
| text (s : string)
| undefined.

Definition truthy (v : t) : bool :=
  match v with
  | number x => Number.truthy x
  | text s => negb (isEmpty s)
  | undefined => false
  end.

(** [parseFloat(v)]: the argument is first written as a string.  A
    number is read back as itself, [-0] as [0]. *)
Definition parseFloat (v : t) : Number.t :=
  match v with
  | number (S754_zero _) => Number.zero
  | number x => x
  | text s => Number.parseString s
  | undefined => Number.NaN
  end.

End Value.

(** ** The models in machine arithmetic

    The cart and the transaction with their amounts as [Number.t]: the
    same methods as above, every [+], [*], [/] and comparison being the
    one of the language. *)

Module Binary.

Module Transaction.

(** The status values are those of the model above. *)
Definition Status : Type := Transaction.Status.
Definition pending : Status := Transaction.pending.
Definition completed : Status := Transaction.completed.
Definition voided : Status := Transaction.voided.
Definition Status_eqb : Status -> Status -> bool := Transaction.Status_eqb.

Record Item := {
  productId : string;
  name : string;
  priceAtSale : Number.t;
  taxRateAtSale : Number.t;
  quantity : Number.t;
  recognitionMethod : string;
  recognitionConfidence : Number.t
}.

(** An entry of [paymentMethods]. *)
Record PaymentMethod := {
  type : string;
  amount : Number.t;
  reference : option string;
  timestamp : option string
}.

(** The argument of [addPaymentMethod]: the amount is the value the
    caller gave, a number or the text of one. *)
Record PaymentRequest := {
  requestType : string;
  requestAmount : Value.t;
  requestReference : option string;
  requestTimestamp : option string
}.

Record t := {
  id : string;
  items : list Item;
  subtotal : Number.t;
  taxAmount : Number.t;
  discountAmount : Number.t;
  total : Number.t;
  status : Status;
  paymentMethods : list PaymentMethod;
  customerId : option string;
  employeeId : option string;
  storeId : option string;
  notes : string;
  createdAt : string;
  completedAt : option string;
  voidedAt : option string
}.

Definition rawSubtotal (l : list Item) : Number.t :=
  fold_left (fun sum item =>
               Number.add sum (Number.mul (priceAtSale item) (quantity item)))
    l Number.zero.

Definition itemTax (item : Item) : Number.t :=
  if Number.truthy (taxRateAtSale item)
  then Number.mul (Number.mul (priceAtSale item) (quantity item))
         (Number.div (taxRateAtSale item) (Number.dec 100 0))
  else Number.zero.

Definition rawTax (l : list Item) : Number.t :=
  fold_left (fun sum item => Number.add sum (itemTax item)) l Number.zero.

Definition calculateTotals (x : t) : t :=
  let sub := rawSubtotal (items x) in
  let tax := rawTax (items x) in
  let tot := Number.sub (Number.add sub tax) (discountAmount x) in
  {| id := id x; items := items x;
     subtotal := Number.toFixed2 sub;
     taxAmount := Number.toFixed2 tax;
     discountAmount := discountAmount x;
     total := Number.toFixed2 tot;
     status := status x; paymentMethods := paymentMethods x;
     customerId := customerId x; employeeId := employeeId x;
     storeId := storeId x; notes := notes x; createdAt := createdAt x;
     completedAt := completedAt x; voidedAt := voidedAt x |}.

Definition set_paymentMethods (pms : list PaymentMethod) (x : t) : t :=
  {| id := id x; items := items x; subtotal := subtotal x;
     taxAmount := taxAmount x; discountAmount := discountAmount x;
     total := total x; status := status x; paymentMethods := pms;
     customerId := customerId x; employeeId := employeeId x;
     storeId := storeId x; notes := notes x; createdAt := createdAt x;
     completedAt := completedAt x; voidedAt := voidedAt x |}.

(** The entry pushed by [addPaymentMethod]. *)
Definition paymentEntry (now : string) (pm : PaymentRequest) : PaymentMethod :=
  {| type := requestType pm;
     amount := Value.parseFloat (requestAmount pm);
     reference := orNull (requestReference pm);
     timestamp := Some (orElse (requestTimestamp pm) now) |}.

(** [!paymentMethod.type || !paymentMethod.amount] *)
Definition paymentRejected (pm : PaymentRequest) : bool :=
  isEmpty (requestType pm) || negb (Value.truthy (requestAmount pm)).

Definition addPaymentMethod (now : string) (pm : PaymentRequest) (x : t)
  : bool * t :=
  if paymentRejected pm then (false, x)
  else (true, set_paymentMethods (paymentMethods x ++ [paymentEntry now pm]) x).

Definition totalPaid (x : t) : Number.t :=
  fold_left (fun sum method => Number.add sum (amount method))
    (paymentMethods x) Number.zero.

Definition complete (now : string) (x : t) : bool * t :=
  if negb (Status_eqb (status x) pending) then (false, x)
  else if Number.ltb (totalPaid x) (total x) then (false, x)
  else (true,
        {| id := id x; items := items x; subtotal := subtotal x;
           taxAmount := taxAmount x; discountAmount := discountAmount x;
           total := total x; status := completed;
           paymentMethods := paymentMethods x;
           customerId := customerId x; employeeId := employeeId x;
           storeId := storeId x; notes := notes x; createdAt := createdAt x;
           completedAt := Some now; voidedAt := voidedAt x |}).

End Transaction.

Module DatabaseService.

Record Product := {
  id : string;
  name : string;
  price : Number.t;
  stock : Number.t;
  taxRate : Number.t
}.

Definition getProductById (products : gmap string Product) (id : string)
  : option Product :=
  products !! id.

End DatabaseService.

Module CartService.

Record CartItem := {
  productId : string;
  name : string;
  price : Number.t;
  taxRate : Number.t;
  quantity : Number.t;
  recognitionMethod : string;
  recognitionConfidence : Number.t
}.

Record t := {
  items : list CartItem;
  subtotal : Number.t;
  taxAmount : Number.t;
  discountAmount : Number.t;
  total : Number.t;
  customerId : option string;
  notes : string
}.

Record Result := {
  success : bool;
  message : string;
  item : option CartItem
}.

Definition failure (m : string) : Result :=
  {| success := false; message := m; item := None |}.

Definition empty : t :=
  {| items := []; subtotal := Number.zero; taxAmount := Number.zero;
     discountAmount := Number.zero; total := Number.zero;
     customerId := None; notes := "" |}.

Definition set_items (l : list CartItem) (c : t) : t :=
  {| items := l; subtotal := subtotal c; taxAmount := taxAmount c;
     discountAmount := discountAmount c; total := total c;
     customerId := customerId c; notes := notes c |}.

Definition set_discountAmount (amt : Number.t) (c : t) : t :=
  {| items := items c; subtotal := subtotal c; taxAmount := taxAmount c;
     discountAmount := amt; total := total c;
     customerId := customerId c; notes := notes c |}.

Definition set_quantity (q : Number.t) (i : CartItem) : CartItem :=
  {| productId := productId i; name := name i; price := price i;
     taxRate := taxRate i; quantity := q;
     recognitionMethod := recognitionMethod i;
     recognitionConfidence := recognitionConfidence i |}.

Definition add_quantity (q : Number.t) (i : CartItem) : CartItem :=
  set_quantity (Number.add (quantity i) q) i.

Definition isProduct (pid : string) (i : CartItem) : bool :=
  String.eqb (productId i) pid.

Fixpoint findIndex (pid : string) (l : list CartItem) : option nat :=
  match l with
  | [] => None
  | i :: l' => if isProduct pid i then Some 0%nat
               else option_map S (findIndex pid l')
  end.

Definition find (pid : string) (l : list CartItem) : option CartItem :=
  List.find (isProduct pid) l.

Definition rawSubtotal (l : list CartItem) : Number.t :=
  fold_left (fun sum i => Number.add sum (Number.mul (price i) (quantity i)))
    l Number.zero.

Definition itemTax (i : CartItem) : Number.t :=
  if Number.truthy (taxRate i)
  then Number.mul (Number.mul (price i) (quantity i))
         (Number.div (taxRate i) (Number.dec 100 0))
  else Number.zero.

Definition rawTax (l : list CartItem) : Number.t :=
  fold_left (fun sum i => Number.add sum (itemTax i)) l Number.zero.

Definition calculateTotals (c : t) : t :=
  let sub := rawSubtotal (items c) in
  let tax := rawTax (items c) in
  let tot := Number.sub (Number.add sub tax) (discountAmount c) in
  {| items := items c;
     subtotal := Number.toFixed2 sub;
     taxAmount := Number.toFixed2 tax;
     discountAmount := discountAmount c;
     total := Number.toFixed2 tot;
     customerId := customerId c; notes := notes c |}.

Definition addItem (products : gmap string DatabaseService.Product) (pid : string)
    (qty : Number.t) (method : string) (confidence : Number.t) (c : t)
  : Result * t :=
  match DatabaseService.getProductById products pid with
  | None => (failure "Product not found", c)
  | Some product =>
      if Number.leb qty Number.zero
      then (failure "Quantity must be greater than zero", c)
      else if Number.ltb (DatabaseService.stock product) qty
      then (failure "Insufficient stock", c)
      else
        let items' :=
          match findIndex pid (items c) with
          | Some existingItemIndex =>
              alter (add_quantity qty) existingItemIndex (items c)
          | None =>
              items c ++
              [{| productId := DatabaseService.id product;
                  name := DatabaseService.name product;
                  price := DatabaseService.price product;
                  taxRate := Number.orZero (DatabaseService.taxRate product);
                  quantity := qty;
                  recognitionMethod := method;
                  recognitionConfidence := confidence |}]
          end in
        let c' := calculateTotals (set_items items' c) in
        ({| success := true; message := "Item added to cart";
            item := find pid (items c') |}, c')
  end.

Definition removeItem (pid : string) (c : t) : Result * t :=
  let initialLength := length (items c) in
  let c1 := set_items (List.filter (fun i => negb (isProduct pid i)) (items c)) c in
  if Nat.eqb (length (items c1)) initialLength
  then (failure "Item not found in cart", c1)
  else ({| success := true; message := "Item removed from cart"; item := None |},
        calculateTotals c1).

Definition updateItemQuantity (products : gmap string DatabaseService.Product)
    (pid : string)
    (qty : Number.t) (c : t) : Result * t :=
  if Number.leb qty Number.zero then removeItem pid c
  else
    match findIndex pid (items c) with
    | None => (failure "Item not found in cart", c)
    | Some idx =>
        match DatabaseService.getProductById products pid with
        | None => (failure "Product not found", c)
        | Some product =>
            if Number.ltb (DatabaseService.stock product) qty
            then (failure "Insufficient stock", c)
            else
              let c' := calculateTotals
                          (set_items (alter (set_quantity qty) idx (items c)) c) in
              ({| success := true; message := "Item quantity updated";
                  item := find pid (items c') |}, c')
        end
    end.

Definition applyDiscount (amt : Number.t) (c : t) : Result * t :=
  if Number.ltb amt Number.zero then (failure "Invalid discount amount", c)
  else if Number.ltb (subtotal c) amt
  then (failure "Discount cannot exceed subtotal", c)
  else ({| success := true; message := "Discount applied"; item := None |},
        calculateTotals (set_discountAmount amt c)).

End CartService.

(** The cart states reached from a fresh cart. *)
Module CartSession.

Inductive reachable : CartService.t -> Prop :=
| reach_empty : reachable CartService.empty
| reach_addItem products pid qty method confidence c :
    reachable c ->
    reachable (snd (CartService.addItem products pid qty method confidence c))
| reach_removeItem pid c :
    reachable c ->
    reachable (snd (CartService.removeItem pid c))
| reach_updateItemQuantity products pid qty c :
    reachable c ->
    reachable (snd (CartService.updateItemQuantity products pid qty c))
| reach_applyDiscount amt c :
    reachable c ->
    reachable (snd (CartService.applyDiscount amt c)).

(** The stored totals are the roundings to cents of the running sums. *)
Definition rounded (c : CartService.t) : Prop :=
  Number.roundsToCents (CartService.rawSubtotal (CartService.items c))
    (CartService.subtotal c)
  /\ Number.roundsToCents (CartService.rawTax (CartService.items c))
       (CartService.taxAmount c)
  /\ Number.roundsToCents
       (Number.sub
          (Number.add (CartService.rawSubtotal (CartService.items c))
             (CartService.rawTax (CartService.items c)))
          (CartService.discountAmount c))
       (CartService.total c).

End CartSession.

(** Sample data in machine arithmetic. *)
Module Sample.

Definition shelf : gmap string DatabaseService.Product :=
  {[ "unit"%string :=
       {| DatabaseService.id := "unit"; DatabaseService.name := "Unit";
          DatabaseService.price := Number.dec 100 (-2);
          DatabaseService.stock := Number.dec 10 0;
          DatabaseService.taxRate := Number.dec 75 (-1) |};
     "tea"%string :=
       {| DatabaseService.id := "tea"; DatabaseService.name := "Tea";
          DatabaseService.price := Number.dec 999 (-2);
          DatabaseService.stock := Number.dec 10 0;
          DatabaseService.taxRate := Number.dec 75 (-1) |};
     "gum"%string :=
       {| DatabaseService.id := "gum"; DatabaseService.name := "Gum";
          DatabaseService.price := Number.dec 125 (-3);
          DatabaseService.stock := Number.dec 10 0;
          DatabaseService.taxRate := Number.dec 100 0 |} ]}.

Definition add (pid : string) (qty : Z) (c : CartService.t) : CartService.t :=
  snd (CartService.addItem shelf pid (Number.dec qty 0) "manual" (Number.dec 1 0) c).

(** One unit of a 1.00 product taxed at 7.5 percent. *)
Definition cartUnit : CartService.t := add "unit" 1 CartService.empty.

(** Scenario A: three units of a 9.99 product taxed at 7.5 percent. *)
Definition cartA : CartService.t := add "tea" 3 CartService.empty.

(** One unit of a 0.125 product taxed at 100 percent. *)
Definition cartGum : CartService.t := add "gum" 1 CartService.empty.

(** Scenario C before any payment: a pending sale with a total of 32.22. *)
Definition unpaid : Transaction.t :=
  {| Transaction.id := "txn_1"; Transaction.items := [];
     Transaction.subtotal := Number.dec 2997 (-2);
     Transaction.taxAmount := Number.dec 225 (-2);
     Transaction.discountAmount := Number.zero;
     Transaction.total := Number.dec 3222 (-2);
     Transaction.status := Transaction.pending;
     Transaction.paymentMethods := [];
     Transaction.customerId := None; Transaction.employeeId := Some "emp_1"%string;
     Transaction.storeId := Some "store_1"%string;
     Transaction.notes := ""; Transaction.createdAt := "2024-01-01T00:00:00.000Z";
     Transaction.completedAt := None; Transaction.voidedAt := None |}.

(** A pending sale with a total of 0.80. *)
Definition eightyCents : Transaction.t :=
  {| Transaction.id := "txn_4"; Transaction.items := [];
     Transaction.subtotal := Number.dec 8 (-1);
     Transaction.taxAmount := Number.zero;
     Transaction.discountAmount := Number.zero;
     Transaction.total := Number.dec 8 (-1);
     Transaction.status := Transaction.pending;
     Transaction.paymentMethods := [];
     Transaction.customerId := None; Transaction.employeeId := Some "emp_1"%string;
     Transaction.storeId := Some "store_1"%string;
     Transaction.notes := ""; Transaction.createdAt := "2024-01-01T00:00:00.000Z";
     Transaction.completedAt := None; Transaction.voidedAt := None |}.

(** A payment whose amount is text that is not a number. *)
Definition unreadable : Transaction.PaymentRequest :=
  {| Transaction.requestType := "cash";
     Transaction.requestAmount := Value.text "abc";
     Transaction.requestReference := None;
     Transaction.requestTimestamp := None |}.

Definition cash (amount : Number.t) : Transaction.PaymentRequest :=
  {| Transaction.requestType := "cash";
     Transaction.requestAmount := Value.number amount;
     Transaction.requestReference := None;
     Transaction.requestTimestamp := None |}.

End Sample.

End Binary.

(** * Properties *)

Module NumFacts.

Lemma Qlt_bool_iff x y : Num.Qlt_bool x y = true <-> (x < y)%Q.
Proof.
  unfold Num.Qlt_bool. rewrite negb_true_iff. split.
  - intros H. apply Qnot_le_lt. intros Hle.
    apply Qle_bool_iff in Hle. congruence.
  - intros H. destruct (Qle_bool y x) eqn:E; [|reflexivity].
    apply Qle_bool_iff in E. exfalso. exact (Qlt_not_le _ _ H E).
Qed.

Lemma Qlt_bool_false x y : Num.Qlt_bool x y = false <-> (y <= x)%Q.
Proof.
  unfold Num.Qlt_bool. rewrite negb_false_iff. apply Qle_bool_iff.
Qed.

Lemma orZero_eq x : (Num.orZero x == x)%Q.
Proof.
  unfold Num.orZero. destruct (Qeq_bool x 0) eqn:E; [|reflexivity].
  apply Qeq_bool_eq in E. symmetry. exact E.
Qed.

(** On a non-negative amount [toFixed2] is rounding half up to cents. *)
Lemma toFixed2_nonneg x :
  (0 <= x)%Q -> Num.toFixed2 x = (Qfloor (x * 100 + (1 # 2)) # 100)%Q.
Proof.
  intros H. unfold Num.toFixed2.
  apply Qlt_bool_false in H. rewrite H. reflexivity.
Qed.

(** The rounded value is within half a cent of the amount. *)
Lemma toFixed2_close x :
  (0 <= x)%Q ->
  (Num.toFixed2 x - (1 # 200) <= x)%Q /\ (x < Num.toFixed2 x + (1 # 200))%Q.
Proof.
  intros H. rewrite (toFixed2_nonneg x H).
  set (y := (x * 100 + (1 # 2))%Q).
  pose proof (Qfloor_le y) as Hlo. pose proof (Qlt_floor y) as Hhi.
  assert (E : (Qfloor y # 100 == inject_Z (Qfloor y) / 100)%Q).
  { rewrite Qmake_Qdiv. reflexivity. }
  rewrite E. unfold y in *. clear E y.
  rewrite inject_Z_plus in Hhi.
  set (n := inject_Z (Qfloor (x * 100 + (1 # 2)))) in *.
  change (inject_Z 1) with 1%Q in Hhi.
  split.
  - apply Qle_minus_iff. apply Qle_minus_iff in Hlo.
    setoid_replace (x + - (n / 100 - (1 # 200)))%Q
      with ((x * 100 + (1 # 2) + - n) / 100)%Q using relation Qeq by field.
    apply Qle_shift_div_l; [reflexivity|].
    setoid_replace (0 * 100)%Q with 0%Q using relation Qeq by ring. exact Hlo.
  - apply Qlt_minus_iff. apply Qlt_minus_iff in Hhi.
    setoid_replace (n / 100 + (1 # 200) + - x)%Q
      with ((n + 1 + - (x * 100 + (1 # 2))) / 100)%Q using relation Qeq by field.
    apply Qlt_shift_div_l; [reflexivity|].
    setoid_replace (0 * 100)%Q with 0%Q using relation Qeq by ring. exact Hhi.
Qed.

End NumFacts.

(** ** Transaction state machine *)

Module TransactionFacts.

Import Transaction.

Lemma Status_eqb_eq a b : Status_eqb a b = true <-> a = b.
Proof. destruct a, b; simpl; split; intros H; congruence. Qed.

Lemma set_paymentMethods_id x : set_paymentMethods (paymentMethods x) x = x.
Proof. destruct x; reflexivity. Qed.

Lemma set_paymentMethods_twice l l' x :
  set_paymentMethods l' (set_paymentMethods l x) = set_paymentMethods l' x.
Proof. reflexivity. Qed.

Lemma complete_status now x :
  status (snd (complete now x)) = status x
  \/ (status x = pending /\ status (snd (complete now x)) = completed).
Proof.
  unfold complete.
  destruct (status x) eqn:E; simpl; auto.
  destruct (Num.Qlt_bool (totalPaid x) (total x)); simpl; auto.
Qed.

Lemma void_status now reason x :
  status (snd (void now reason x)) = voided.
Proof.
  unfold void. destruct (status x) eqn:E; simpl; auto.
Qed.

Lemma addPaymentMethod_shape now pm x :
  exists extra,
    snd (addPaymentMethod now pm x)
    = set_paymentMethods (paymentMethods x ++ extra) x.
Proof.
  unfold addPaymentMethod. destruct (paymentRejected pm); simpl.
  - exists []. rewrite app_nil_r. symmetry. apply set_paymentMethods_id.
  - eexists. reflexivity.
Qed.




End TransactionFacts.

Module LifecycleFacts.

Import Transaction.

Lemma update_refused_on_terminal genId db d x :
  DatabaseService.getTransactionById db (id x) = Some x ->
  status x = completed \/ status x = voided ->
  APIService.updateTransaction genId db (id x) d
  = (APIService.reply 400 "Cannot update completed or voided transaction", db).
Proof.
  intros Hget Hst. unfold APIService.updateTransaction. rewrite Hget.
  destruct Hst as [-> | ->]; reflexivity.
Qed.

Lemma step_from_voided y z :
  Lifecycle.step y z -> status y = voided ->
  exists extra, z = set_paymentMethods (paymentMethods y ++ extra) y.
Proof.
  intros Hstep Hv. destruct Hstep as [now pm x | now x | now reason x | genId db d x x' Hget Hget'].
  - apply TransactionFacts.addPaymentMethod_shape.
  - exists []. rewrite app_nil_r, TransactionFacts.set_paymentMethods_id.
    unfold complete. rewrite Hv. reflexivity.
  - exists []. rewrite app_nil_r, TransactionFacts.set_paymentMethods_id.
    unfold void. rewrite Hv. reflexivity.
  - exists []. rewrite app_nil_r, TransactionFacts.set_paymentMethods_id.
    rewrite (update_refused_on_terminal genId db d x Hget) in Hget' by auto.
    simpl in Hget'. congruence.
Qed.

Lemma step_keeps_terminal y z :
  Lifecycle.step y z ->
  status y = completed \/ status y = voided ->
  status z = completed \/ status z = voided.
Proof.
  intros Hstep Hst. destruct Hstep as [now pm x | now x | now reason x | genId db d x x' Hget Hget'].
  - destruct (TransactionFacts.addPaymentMethod_shape now pm x) as [extra ->].
    exact Hst.
  - destruct (TransactionFacts.complete_status now x) as [-> | [Hp _]];
      [exact Hst|].
    destruct Hst; congruence.
  - right. apply TransactionFacts.void_status.
  - rewrite (update_refused_on_terminal genId db d x Hget Hst) in Hget'.
    simpl in Hget'. assert (x' = x) as -> by congruence. exact Hst.
Qed.

(** A voided transaction is left exactly as it is by [complete], [void]
    and the update handler. *)
Lemma voided_fixed_by_complete_void_update now reason genId db d x :
  status x = voided ->
  complete now x = (false, x)
  /\ void now reason x = (false, x)
  /\ (DatabaseService.getTransactionById db (id x) = Some x ->
      snd (APIService.updateTransaction genId db (id x) d) = db).
Proof.
  intros Hv. unfold complete, void. rewrite Hv. simpl.
  repeat split. intros Hget.
  rewrite (update_refused_on_terminal genId db d x Hget) by auto.
  reflexivity.
Qed.

(** C3, as stated, fails: on a voided transaction [addPaymentMethod]
    still succeeds and changes the payment entries. *)
Lemma voided_still_takes_payments :
  status Sample.voidedSale = voided
  /\ Lifecycle.step Sample.voidedSale
       (snd (addPaymentMethod "2024-01-01T00:04:00.000Z" Sample.lateCash Sample.voidedSale))
  /\ fst (addPaymentMethod "2024-01-01T00:04:00.000Z" Sample.lateCash Sample.voidedSale) = true
  /\ length (paymentMethods
               (snd (addPaymentMethod "2024-01-01T00:04:00.000Z" Sample.lateCash Sample.voidedSale)))
     = S (length (paymentMethods Sample.voidedSale)).
Proof.
  split; [reflexivity|]. split; [constructor|]. split; reflexivity.
Qed.

(** C3, amended. Along every sequence of lifecycle operations
    (addPaymentMethod, complete, void, update): a voided transaction
    stays voided and keeps every field except that payment entries may
    still be appended to it; a completed transaction is afterwards
    completed or voided, never pending. *)
Theorem terminal_status_is_kept (x x' : t) :
  Lifecycle.steps x x' ->
  (status x = voided ->
     status x' = voided
     /\ exists extra, x' = set_paymentMethods (paymentMethods x ++ extra) x)
  /\ (status x = completed -> status x' = completed \/ status x' = voided).
Proof.
  intros Hsteps. split.
  - intros Hv.
    induction Hsteps as [x | x y z Hxy Hyz IH].
    + split; [exact Hv|]. exists [].
      rewrite app_nil_r. symmetry. apply TransactionFacts.set_paymentMethods_id.
    + destruct (step_from_voided x y Hxy Hv) as [e1 Hy].
      assert (Hvy : status y = voided) by (rewrite Hy; exact Hv).
      destruct (IH Hvy) as [Hvz [e2 Hz]].
      split; [exact Hvz|]. exists (e1 ++ e2).
      rewrite Hz, Hy. simpl. rewrite app_assoc. reflexivity.
  - intros Hc.
    assert (Hterm : status x = completed \/ status x = voided) by auto.
    clear Hc. induction Hsteps as [x | x y z Hxy Hyz IH]; [exact Hterm|].
    apply IH. exact (step_keeps_terminal x y Hxy Hterm).
Qed.

Lemma terminal_status_is_kept_witness :
  status (snd (addPaymentMethod "2024-01-01T00:04:00.000Z" Sample.lateCash Sample.voidedSale))
  = voided
  /\ exists extra,
       snd (addPaymentMethod "2024-01-01T00:04:00.000Z" Sample.lateCash Sample.voidedSale)
       = set_paymentMethods (paymentMethods Sample.voidedSale ++ extra) Sample.voidedSale.
Proof.
  apply (proj1 (terminal_status_is_kept Sample.voidedSale
                  (snd (addPaymentMethod "2024-01-01T00:04:00.000Z" Sample.lateCash
                          Sample.voidedSale))
                  (rtc_once _ _ (Lifecycle.step_addPayment _ _ _)))).
  reflexivity.
Defined.

End LifecycleFacts.

(** ** Cart totals *)

Module CartFacts.

Import CartService.

Lemma toFixed2_comp x y : (x == y)%Q -> Num.toFixed2 x = Num.toFixed2 y.
Proof.
  intros H. unfold Num.toFixed2, Num.Qlt_bool.
  assert (E : Qle_bool 0 x = Qle_bool 0 y).
  { apply Qleb_comp; [reflexivity | exact H]. }
  rewrite E. destruct (negb (Qle_bool 0 y)).
  - f_equal. f_equal. apply Qfloor_comp. rewrite H. reflexivity.
  - f_equal. apply Qfloor_comp. rewrite H. reflexivity.
Qed.

Section Sums.

Context {A : Type}.
Variables f g : A -> Q.

Lemma fold_left_sum (l : list A) (a : Q) :
  (fold_left (fun sum i => (sum + f i)%Q) l a
   == a + fold_right (fun i acc => (f i + acc)%Q) 0%Q l)%Q.
Proof.
  revert a. induction l as [|i l IH]; intros a; simpl.
  - ring.
  - rewrite IH. ring.
Qed.

Lemma fold_right_sum_ext (l : list A) :
  (forall i, (f i == g i)%Q) ->
  (fold_right (fun i acc => (f i + acc)%Q) 0%Q l
   == fold_right (fun i acc => (g i + acc)%Q) 0%Q l)%Q.
Proof.
  intros Hfg. induction l as [|i l IH]; simpl.
  - reflexivity.
  - rewrite IH, (Hfg i). reflexivity.
Qed.

End Sums.

Lemma itemTax_eq i : (itemTax i == CartSession.lineTax i)%Q.
Proof.
  unfold itemTax, CartSession.lineTax. destruct (Qeq_bool (taxRate i) 0) eqn:E.
  - apply Qeq_bool_eq in E. rewrite E. field.
  - field.
Qed.

Lemma rawSubtotal_sum l : (rawSubtotal l == CartSession.sumOver CartSession.lineAmount l)%Q.
Proof.
  unfold rawSubtotal, CartSession.sumOver.
  rewrite (fold_left_sum CartSession.lineAmount). ring.
Qed.

Lemma rawTax_sum l : (rawTax l == CartSession.sumOver CartSession.lineTax l)%Q.
Proof.
  unfold rawTax, CartSession.sumOver.
  rewrite (fold_left_sum itemTax).
  rewrite (fold_right_sum_ext itemTax CartSession.lineTax l itemTax_eq). ring.
Qed.

Lemma calculateTotals_consistent c : CartSession.consistent (calculateTotals c).
Proof.
  unfold CartSession.consistent, calculateTotals; simpl. repeat split.
  - rewrite (toFixed2_comp _ _ (rawSubtotal_sum (items c))). reflexivity.
  - rewrite (toFixed2_comp _ _ (rawTax_sum (items c))). reflexivity.
  - assert (E : (rawSubtotal (items c) + rawTax (items c) - discountAmount c
                 == CartSession.sumOver CartSession.lineAmount (items c)
                    + CartSession.sumOver CartSession.lineTax (items c)
                    - discountAmount c)%Q).
    { rewrite rawSubtotal_sum, rawTax_sum. reflexivity. }
    rewrite (toFixed2_comp _ _ E). reflexivity.
Qed.

Lemma filter_same_length {A : Type} (f : A -> bool) (l : list A) :
  length (List.filter f l) = length l -> List.filter f l = l.
Proof.
  induction l as [|a l IH]; simpl; [reflexivity|].
  destruct (f a); simpl; intros H.
  - f_equal. apply IH. lia.
  - pose proof (List.filter_length_le f l). lia.
Qed.

Lemma set_items_same c : set_items (items c) c = c.
Proof. destruct c; reflexivity. Qed.

(** A failed removal leaves the cart as it was. *)
Lemma removeItem_failure pid c :
  success (fst (removeItem pid c)) = false -> snd (removeItem pid c) = c.
Proof.
  unfold removeItem. simpl.
  destruct (Nat.eqb _ _) eqn:E; simpl; [|discriminate].
  intros _. apply Nat.eqb_eq in E.
  rewrite (filter_same_length _ _ E). apply set_items_same.
Qed.

Lemma removeItem_consistent pid c :
  CartSession.consistent c -> CartSession.consistent (snd (removeItem pid c)).
Proof.
  intros Hc. unfold removeItem. simpl.
  destruct (Nat.eqb _ _) eqn:E; simpl.
  - apply Nat.eqb_eq in E. rewrite (filter_same_length _ _ E).
    rewrite set_items_same. exact Hc.
  - apply calculateTotals_consistent.
Qed.

Lemma reachable_consistent c :
  CartSession.reachable c -> CartSession.consistent c.
Proof.
  induction 1 as [ | db pid qty method confidence c Hr IH | pid c Hr IH
                   | db pid qty c Hr IH | amt c Hr IH ].
  - unfold CartSession.consistent. simpl. repeat split; reflexivity.
  - unfold addItem.
    destruct (DatabaseService.getProductById db pid); [|exact IH].
    destruct (Qle_bool qty 0); [exact IH|].
    destruct (Num.Qlt_bool _ qty); [exact IH|].
    apply calculateTotals_consistent.
  - apply removeItem_consistent. exact IH.
  - unfold updateItemQuantity.
    destruct (Qle_bool qty 0); [apply removeItem_consistent; exact IH|].
    destruct (findIndex pid (items c)); [|exact IH].
    destruct (DatabaseService.getProductById db pid); [|exact IH].
    destruct (Num.Qlt_bool _ qty); [exact IH|].
    apply calculateTotals_consistent.
  - unfold applyDiscount.
    destruct (Num.Qlt_bool amt 0); [exact IH|].
    destruct (Num.Qlt_bool (subtotal c) amt); [exact IH|].
    apply calculateTotals_consistent.
Qed.

(** Scenario A of the specification. *)
Lemma scenarioA_totals :
  (subtotal Sample.cartA == 29.97)%Q
  /\ (taxAmount Sample.cartA == 2.25)%Q
  /\ (total Sample.cartA == 32.22)%Q.
Proof. repeat split; vm_compute; reflexivity. Qed.

(** The stored total is not recomputed from the stored, rounded parts:
    with 0.125 of subtotal and 0.125 of tax both parts are stored as
    0.13 and the total as 0.25. *)
Lemma total_not_from_rounded_parts :
  CartSession.reachable Sample.cartGum
  /\ (subtotal Sample.cartGum == 0.13)%Q
  /\ (taxAmount Sample.cartGum == 0.13)%Q
  /\ (total Sample.cartGum == 0.25)%Q
  /\ ~ (total Sample.cartGum ==
        subtotal Sample.cartGum + taxAmount Sample.cartGum
        - discountAmount Sample.cartGum)%Q.
Proof.
  split; [apply CartSession.reach_addItem, CartSession.reach_empty|].
  repeat split; try (vm_compute; reflexivity).
  vm_compute. discriminate.
Qed.

End CartFacts.

(** ** Totals of a transaction *)

Module TransactionTotalsFacts.

Import Transaction.

Lemma transaction_itemTax_eq i :
  (itemTax i == priceAtSale i * quantity i * taxRateAtSale i / 100)%Q.
Proof.
  unfold itemTax. destruct (Qeq_bool (taxRateAtSale i) 0) eqn:E.
  - apply Qeq_bool_eq in E. rewrite E. field.
  - field.
Qed.

(** [Transaction.calculateTotals] follows the same rule as the cart: the
    three stored values are roundings of the exact sums over the lines,
    and nothing else changes. *)
Lemma calculateTotals_roundings x :
  subtotal (calculateTotals x)
  = Num.toFixed2
      (CartSession.sumOver (fun i => priceAtSale i * quantity i) (items x))%Q
  /\ taxAmount (calculateTotals x)
     = Num.toFixed2
         (CartSession.sumOver
            (fun i => priceAtSale i * quantity i * taxRateAtSale i / 100)
            (items x))%Q
  /\ total (calculateTotals x)
     = Num.toFixed2
         (CartSession.sumOver (fun i => priceAtSale i * quantity i) (items x)
          + CartSession.sumOver
              (fun i => priceAtSale i * quantity i * taxRateAtSale i / 100)
              (items x)
          - discountAmount x)%Q
  /\ items (calculateTotals x) = items x
  /\ discountAmount (calculateTotals x) = discountAmount x
  /\ status (calculateTotals x) = status x
  /\ paymentMethods (calculateTotals x) = paymentMethods x.
Proof.
  assert (Hsub : (rawSubtotal (items x)
                  == CartSession.sumOver (fun i => priceAtSale i * quantity i)
                       (items x))%Q).
  { unfold rawSubtotal, CartSession.sumOver.
    rewrite (CartFacts.fold_left_sum (fun i => priceAtSale i * quantity i)%Q).
    ring. }
  assert (Htax : (rawTax (items x)
                  == CartSession.sumOver
                       (fun i => priceAtSale i * quantity i * taxRateAtSale i / 100)
                       (items x))%Q).
  { unfold rawTax, CartSession.sumOver.
    rewrite (CartFacts.fold_left_sum itemTax).
    rewrite (CartFacts.fold_right_sum_ext itemTax _ (items x) transaction_itemTax_eq).
    ring. }
  unfold calculateTotals; simpl. repeat split.
  - apply CartFacts.toFixed2_comp. exact Hsub.
  - apply CartFacts.toFixed2_comp. exact Htax.
  - apply CartFacts.toFixed2_comp. rewrite Hsub, Htax. reflexivity.
Qed.

End TransactionTotalsFacts.

(** ** Rounding to cents in machine arithmetic *)

Module NumberFacts.

Import Number.

(** [toFixed2] rounds to cents. *)
Lemma toFixed2_rounds x : roundsToCents x (toFixed2 x).
Proof.
  destruct x as [s | s | | s m e]; try reflexivity.
  unfold roundsToCents, toFixed2. split.
  - intros H. apply Qle_bool_iff in H. rewrite H. reflexivity.
  - intros H.
    destruct (Qle_bool (10 ^ 21) (magnitude m e)) eqn:E.
    { apply Qle_bool_iff in E. exfalso. exact (Qlt_not_le _ _ H E). }
    exists (Qfloor (magnitude m e * 100 + (1 # 2))).
    split; [reflexivity|].
    set (y := (magnitude m e * 100 + (1 # 2))%Q).
    pose proof (Qfloor_le y) as Hlo. pose proof (Qlt_floor y) as Hhi.
    rewrite inject_Z_plus in Hhi. change (inject_Z 1) with 1%Q in Hhi.
    unfold y in *. clear y.
    set (n := inject_Z (Qfloor (magnitude m e * 100 + (1 # 2)))) in *.
    set (a := (magnitude m e * 100)%Q) in *.
    split.
    + apply Qle_minus_iff. apply Qle_minus_iff in Hlo.
      setoid_replace (a + - (n - (1 # 2)))%Q with (a + (1 # 2) + - n)%Q
        using relation Qeq by ring.
      exact Hlo.
    + apply Qlt_minus_iff. apply Qlt_minus_iff in Hhi.
      setoid_replace (n + (1 # 2) + - a)%Q with (n + 1 + - (a + (1 # 2)))%Q
        using relation Qeq by ring.
      exact Hhi.
Qed.

(** The arithmetic on the amounts of the examples: [7.5 / 100] is the
    number written [0.075], which lies below the decimal 0.075 and rounds
    to 0.07; [0.7 + 0.1] is below [0.8]; [32.22 - 20] is not [12.22]; and
    the tie 0.125, which is a binary number, rounds away from zero. *)
Lemma machine_arithmetic_examples :
  div (dec 75 (-1)) (dec 100 0) = dec 75 (-3)
  /\ toFixed2 (dec 75 (-3)) = dec 7 (-2)
  /\ ltb (add (dec 7 (-1)) (dec 1 (-1))) (dec 8 (-1)) = true
  /\ sub (dec 3222 (-2)) (dec 20 0) <> dec 1222 (-2)
  /\ toFixed2 (dec 125 (-3)) = dec 13 (-2)
  /\ toFixed2 (dec (-125) (-3)) = dec (-13) (-2).
Proof.
  repeat split; try (vm_compute; reflexivity).
  vm_compute. discriminate.
Qed.

End NumberFacts.

(** ** Cart totals in machine arithmetic *)

Module BinaryCartFacts.

Import Binary.CartService.

Lemma calculateTotals_rounded c : Binary.CartSession.rounded (calculateTotals c).
Proof.
  unfold Binary.CartSession.rounded, calculateTotals.
  cbn [items subtotal taxAmount discountAmount total].
  repeat split; apply NumberFacts.toFixed2_rounds.
Qed.

Lemma binary_set_items_same c : set_items (items c) c = c.
Proof. destruct c; reflexivity. Qed.

Lemma removeItem_rounded pid c :
  Binary.CartSession.rounded c -> Binary.CartSession.rounded (snd (removeItem pid c)).
Proof.
  intros Hc. unfold removeItem. cbn [items set_items].
  destruct (Nat.eqb _ _) eqn:E; cbn [snd].
  - apply Nat.eqb_eq in E. rewrite (CartFacts.filter_same_length _ _ E).
    rewrite binary_set_items_same. exact Hc.
  - apply calculateTotals_rounded.
Qed.

Lemma reachable_rounded c :
  Binary.CartSession.reachable c -> Binary.CartSession.rounded c.
Proof.
  induction 1 as [ | products pid qty method confidence c Hr IH | pid c Hr IH
                   | products pid qty c Hr IH | amt c Hr IH ].
  - repeat split.
  - unfold addItem.
    destruct (Binary.DatabaseService.getProductById products pid); [|exact IH].
    destruct (Number.leb qty Number.zero); [exact IH|].
    destruct (Number.ltb _ qty); [exact IH|].
    apply calculateTotals_rounded.
  - apply removeItem_rounded. exact IH.
  - unfold updateItemQuantity.
    destruct (Number.leb qty Number.zero); [apply removeItem_rounded; exact IH|].
    destruct (findIndex pid (items c)); [|exact IH].
    destruct (Binary.DatabaseService.getProductById products pid); [|exact IH].
    destruct (Number.ltb _ qty); [exact IH|].
    apply calculateTotals_rounded.
  - unfold applyDiscount.
    destruct (Number.ltb amt Number.zero); [exact IH|].
    destruct (Number.ltb (subtotal c) amt); [exact IH|].
    apply calculateTotals_rounded.
Qed.

(** C1, amended. In every cart state reached by add, remove,
    update-quantity and apply-discount calls, the three stored values are
    roundings to cents of running sums in machine arithmetic: [subtotal]
    of the sum of price times quantity over the lines, [taxAmount] of the
    sum of price times quantity times taxRate/100, and [total] of the
    unrounded subtotal plus the unrounded tax minus the discount.  Each
    sum, product and quotient is rounded to the nearest binary number, and
    the rounding to cents takes the exact value of the running sum to the
    nearest hundredth, the one larger in magnitude on a tie. *)
Theorem totals_are_roundings_of_machine_sums (c : t) :
  Binary.CartSession.reachable c ->
  Number.roundsToCents
    (fold_left (fun sum i => Number.add sum (Number.mul (price i) (quantity i)))
       (items c) Number.zero)
    (subtotal c)
  /\ Number.roundsToCents
       (fold_left
          (fun sum i =>
             Number.add sum
               (if Number.truthy (taxRate i)
                then Number.mul (Number.mul (price i) (quantity i))
                       (Number.div (taxRate i) (Number.dec 100 0))
                else Number.zero))
          (items c) Number.zero)
       (taxAmount c)
  /\ Number.roundsToCents
       (Number.sub
          (Number.add (rawSubtotal (items c)) (rawTax (items c)))
          (discountAmount c))
       (total c).
Proof.
  intros Hr. exact (reachable_rounded c Hr).
Qed.

Lemma totals_are_roundings_of_machine_sums_witness :
  Number.roundsToCents
    (fold_left (fun sum i => Number.add sum (Number.mul (price i) (quantity i)))
       (items Binary.Sample.cartA) Number.zero)
    (subtotal Binary.Sample.cartA)
  /\ Number.roundsToCents
       (fold_left
          (fun sum i =>
             Number.add sum
               (if Number.truthy (taxRate i)
                then Number.mul (Number.mul (price i) (quantity i))
                       (Number.div (taxRate i) (Number.dec 100 0))
                else Number.zero))
          (items Binary.Sample.cartA) Number.zero)
       (taxAmount Binary.Sample.cartA)
  /\ Number.roundsToCents
       (Number.sub
          (Number.add (rawSubtotal (items Binary.Sample.cartA))
             (rawTax (items Binary.Sample.cartA)))
          (discountAmount Binary.Sample.cartA))
       (total Binary.Sample.cartA).
Proof.
  apply (totals_are_roundings_of_machine_sums Binary.Sample.cartA).
  apply Binary.CartSession.reach_addItem, Binary.CartSession.reach_empty.
Defined.

(** C1, as stated, fails: for one unit at 1.00 taxed at 7.5 percent the
    sum of price times quantity times taxRate/100 is 0.075, which rounds
    half up to 0.08; the cart stores 0.07 as tax and 1.07 as total. *)
Lemma tie_is_stored_a_cent_below_the_decimal_rounding :
  Binary.CartSession.reachable Binary.Sample.cartUnit
  /\ (Num.toFixed2 (1 * 1 * (7.5 / 100)) == 0.08)%Q
  /\ (Num.toFixed2 (1 * 1 + 1 * 1 * (7.5 / 100) - 0) == 1.08)%Q
  /\ subtotal Binary.Sample.cartUnit = Number.dec 100 (-2)
  /\ taxAmount Binary.Sample.cartUnit = Number.dec 7 (-2)
  /\ total Binary.Sample.cartUnit = Number.dec 107 (-2)
  /\ Number.dec 7 (-2) <> Number.dec 8 (-2)
  /\ Number.dec 107 (-2) <> Number.dec 108 (-2).
Proof.
  split; [apply Binary.CartSession.reach_addItem, Binary.CartSession.reach_empty|].
  repeat split; try (vm_compute; reflexivity); vm_compute; discriminate.
Qed.

(** Scenario A of the specification in machine arithmetic. *)
Lemma scenarioA_machine_totals :
  subtotal Binary.Sample.cartA = Number.dec 2997 (-2)
  /\ taxAmount Binary.Sample.cartA = Number.dec 225 (-2)
  /\ total Binary.Sample.cartA = Number.dec 3222 (-2).
Proof. repeat split; vm_compute; reflexivity. Qed.

(** The stored total is not recomputed from the stored parts: 0.125 of
    subtotal and 0.125 of tax are both stored as 0.13, the total as
    0.25. *)
Lemma machine_total_not_from_rounded_parts :
  subtotal Binary.Sample.cartGum = Number.dec 13 (-2)
  /\ taxAmount Binary.Sample.cartGum = Number.dec 13 (-2)
  /\ total Binary.Sample.cartGum = Number.dec 25 (-2)
  /\ Number.toFixed2
       (Number.sub
          (Number.add (subtotal Binary.Sample.cartGum)
             (taxAmount Binary.Sample.cartGum))
          (discountAmount Binary.Sample.cartGum))
     = Number.dec 26 (-2).
Proof. repeat split; vm_compute; reflexivity. Qed.

End BinaryCartFacts.

(** ** The transaction in machine arithmetic *)

Module BinaryTransactionFacts.

Import Binary.Transaction.

(** [Transaction.calculateTotals] rounds the same running sums. *)
Lemma transaction_totals_are_roundings_of_machine_sums x :
  Number.roundsToCents (rawSubtotal (items x)) (subtotal (calculateTotals x))
  /\ Number.roundsToCents (rawTax (items x)) (taxAmount (calculateTotals x))
  /\ Number.roundsToCents
       (Number.sub (Number.add (rawSubtotal (items x)) (rawTax (items x)))
          (discountAmount x))
       (total (calculateTotals x))
  /\ items (calculateTotals x) = items x
  /\ discountAmount (calculateTotals x) = discountAmount x.
Proof.
  unfold calculateTotals. cbn [items subtotal taxAmount discountAmount total].
  repeat split; apply NumberFacts.toFixed2_rounds.
Qed.

(** What the guard of [complete] decides: it succeeds exactly from
    [pending] when the sum of the entries is not below the total in the
    comparison of the language, which is the case as soon as the sum is
    [NaN]; otherwise nothing changes. *)
Lemma complete_guard now x :
  (fst (complete now x) = true
   <-> status x = pending /\ Number.ltb (totalPaid x) (total x) = false)
  /\ (fst (complete now x) = false -> snd (complete now x) = x)
  /\ (totalPaid x = Number.NaN -> status x = pending ->
      fst (complete now x) = true).
Proof.
  unfold complete, Status_eqb, pending.
  destruct (status x); cbn [Transaction.Status_eqb negb];
    destruct (Number.ltb (totalPaid x) (total x)) eqn:E; cbn [fst snd];
    repeat split; try tauto; try congruence; try discriminate;
    try (intros [? ?]; congruence).
  intros Hnan _. rewrite Hnan in E. discriminate.
Qed.

(** C2. A pending sale with a total of 32.22 is given one payment whose
    amount is the text [abc].  [addPaymentMethod] accepts it and stores
    [NaN]; the sum of the entries is [NaN], the guard [totalPaid <
    this.total] is false, and [complete] succeeds: the sale is completed
    although no payment entry holds an amount. *)
Theorem complete_succeeds_on_unreadable_amount :
  let paid := addPaymentMethod "2024-01-01T00:01:00.000Z" Binary.Sample.unreadable
                Binary.Sample.unpaid in
  status Binary.Sample.unpaid = pending
  /\ total Binary.Sample.unpaid = Number.dec 3222 (-2)
  /\ fst paid = true
  /\ map amount (paymentMethods (snd paid)) = [Number.NaN]
  /\ totalPaid (snd paid) = Number.NaN
  /\ Number.leb (total (snd paid)) (totalPaid (snd paid)) = false
  /\ fst (complete "2024-01-01T00:02:00.000Z" (snd paid)) = true
  /\ status (snd (complete "2024-01-01T00:02:00.000Z" (snd paid))) = completed.
Proof. repeat split; vm_compute; reflexivity. Qed.

(** The same with amounts that are numbers: an entry of [Infinity] and
    an entry of [-Infinity] sum to [NaN], and the sale is completed. *)
Lemma complete_succeeds_on_cancelling_infinities :
  let now := "2024-01-01T00:01:00.000Z"%string in
  let paid :=
    snd (addPaymentMethod now (Binary.Sample.cash (S754_infinity true))
           (snd (addPaymentMethod now (Binary.Sample.cash (S754_infinity false))
                   Binary.Sample.unpaid))) in
  totalPaid paid = Number.NaN
  /\ fst (complete now paid) = true
  /\ status (snd (complete now paid)) = completed.
Proof. repeat split; vm_compute; reflexivity. Qed.

(** The guard holds back a payment that is short, as in scenario C, and
    also a tender of 0.7 and 0.1 for a total of 0.8, whose sum in machine
    arithmetic is below 0.8. *)
Lemma complete_refuses_short_payment :
  let now := "2024-01-01T00:01:00.000Z"%string in
  let twenty := snd (addPaymentMethod now (Binary.Sample.cash (Number.dec 20 0))
                       Binary.Sample.unpaid) in
  let tender :=
    snd (addPaymentMethod now (Binary.Sample.cash (Number.dec 1 (-1)))
           (snd (addPaymentMethod now (Binary.Sample.cash (Number.dec 7 (-1)))
                   Binary.Sample.eightyCents))) in
  fst (complete now twenty) = false
  /\ status (snd (complete now twenty)) = pending
  /\ Number.ltb (totalPaid tender) (total tender) = true
  /\ fst (complete now tender) = false.
Proof. repeat split; vm_compute; reflexivity. Qed.

End BinaryTransactionFacts.

(** ** Discount bound *)

Module DiscountFacts.

Import CartService.

(** Right after a successful [applyDiscount] the discount is
    non-negative and within the stored subtotal. *)
Lemma discount_within_subtotal_when_applied amt c :
  CartSession.reachable c ->
  success (fst (applyDiscount amt c)) = true ->
  (0 <= discountAmount (snd (applyDiscount amt c)))%Q
  /\ (discountAmount (snd (applyDiscount amt c))
      <= subtotal (snd (applyDiscount amt c)))%Q.
Proof.
  intros Hr. apply CartFacts.reachable_consistent in Hr.
  destruct Hr as [Hsub _]. unfold applyDiscount.
  destruct (Num.Qlt_bool amt 0) eqn:E0; [discriminate|].
  destruct (Num.Qlt_bool (subtotal c) amt) eqn:E1; [discriminate|].
  intros _. simpl.
  apply NumFacts.Qlt_bool_false in E0. apply NumFacts.Qlt_bool_false in E1.
  split; [exact E0|].
  rewrite (CartFacts.toFixed2_comp _ _ (CartFacts.rawSubtotal_sum (items c))).
  rewrite <- Hsub. exact E1.
Qed.

(** C6 at the failing input: an apple (10) and a pear (1) are added, a
    discount of 11 is accepted, the apple is removed.  The cart is then
    observed with a discount of 11 against a subtotal of 1, and a total
    of -10. *)
Theorem discount_exceeds_subtotal_after_removal :
  CartSession.reachable Sample.cartAfterRemoval
  /\ success (fst (applyDiscount 11
                     (Sample.add "pear" 1 (Sample.add "apple" 1 empty)))) = true
  /\ success (fst (removeItem "apple" Sample.cartDiscounted)) = true
  /\ (subtotal Sample.cartAfterRemoval == 1)%Q
  /\ (discountAmount Sample.cartAfterRemoval == 11)%Q
  /\ (subtotal Sample.cartAfterRemoval < discountAmount Sample.cartAfterRemoval)%Q
  /\ (total Sample.cartAfterRemoval == -10)%Q.
Proof.
  split.
  { apply CartSession.reach_removeItem, CartSession.reach_applyDiscount,
      CartSession.reach_addItem, CartSession.reach_addItem,
      CartSession.reach_empty. }
  repeat split; vm_compute; reflexivity.
Qed.

End DiscountFacts.

(** ** Stock check when adding to the cart *)

Module StockCheckFacts.

Import CartService.

(** For a known product and a positive quantity, [addItem] reports
    insufficient stock exactly when the stock is below the quantity
    passed to the call, whatever the cart already holds. *)
Lemma addItem_stock_check db pid qty method confidence c product :
  DatabaseService.getProductById db pid = Some product ->
  (0 < qty)%Q ->
  (message (fst (addItem db pid qty method confidence c)) = "Insufficient stock"%string
   <-> (DatabaseService.stock product < qty)%Q).
Proof.
  intros Hget Hpos. unfold addItem. rewrite Hget.
  destruct (Qle_bool qty 0) eqn:E0.
  { apply Qle_bool_iff in E0. exfalso. exact (Qlt_not_le _ _ Hpos E0). }
  destruct (Num.Qlt_bool (DatabaseService.stock product) qty) eqn:E1; simpl.
  - apply NumFacts.Qlt_bool_iff in E1. split; auto.
  - apply NumFacts.Qlt_bool_false in E1. split; [discriminate|].
    intros H. exfalso. exact (Qlt_not_le _ _ H E1).
Qed.

(** A successful add of a product already in the cart keeps the number
    of lines and adds the quantity to the existing line. *)
Lemma addItem_merges db pid qty method confidence c idx :
  findIndex pid (items c) = Some idx ->
  success (fst (addItem db pid qty method confidence c)) = true ->
  items (snd (addItem db pid qty method confidence c))
  = alter (add_quantity qty) idx (items c)
  /\ length (items (snd (addItem db pid qty method confidence c)))
     = length (items c).
Proof.
  intros Hidx. unfold addItem.
  destruct (DatabaseService.getProductById db pid); [|discriminate].
  destruct (Qle_bool qty 0); [discriminate|].
  destruct (Num.Qlt_bool _ qty); [discriminate|].
  rewrite Hidx. simpl. intros _. split; [reflexivity|].
  apply length_alter.
Qed.

(** C7 at the failing input: five apples are in stock and four are in
    the cart; adding three more succeeds and the line then asks for
    seven, more than the stock. *)
Theorem addItem_checks_only_the_added_quantity :
  (DatabaseService.stock <$> DatabaseService.getProductById Sample.catalog "apple")
    = Some 5%Q
  /\ map quantity (items Sample.cartFourApples) = [4%Q]
  /\ success (fst (addItem Sample.catalog "apple" 3 "manual" 1
                     Sample.cartFourApples)) = true
  /\ message (fst (addItem Sample.catalog "apple" 3 "manual" 1
                     Sample.cartFourApples)) = "Item added to cart"%string
  /\ map quantity (items (snd (addItem Sample.catalog "apple" 3 "manual" 1
                                 Sample.cartFourApples))) = [(4 + 3)%Q]
  /\ (5 < 4 + 3)%Q.
Proof.
  repeat split; vm_compute; reflexivity.
Qed.

End StockCheckFacts.

(** ** Checkout *)

Module CheckoutFacts.

Import CartService.



(** On a cart totalling 32.22 paid with 40, the reported change is 40. *)
Lemma checkout_change_example :
  (total Sample.cartA == 32.22)%Q
  /\ (totalPayment Sample.cash40 == 40)%Q
  /\ match change (fst Sample.checkoutA) with
     | Some ch => (ch == 40)%Q
     | None => False
     end.
Proof. repeat split; vm_compute; reflexivity. Qed.

End CheckoutFacts.

(** ** Stock movements of completion and voiding *)

Module StockFacts.

Import DatabaseService StockLedger.

Lemma shifted_zero o : shifted 0 o o.
Proof.
  destruct o; simpl; [|exact I]. repeat split. ring.
Qed.

Lemma shifted_trans d1 d2 a b c :
  shifted d1 a b -> shifted d2 b c -> shifted (d1 + d2) a c.
Proof.
  destruct a, b, c; simpl; try tauto.
  intros (Hn1 & Hp1 & Ht1 & Hs1) (Hn2 & Hp2 & Ht2 & Hs2).
  repeat split; try congruence. rewrite Hs2, Hs1. ring.
Qed.

Lemma shifted_eq d d' a b : (d == d')%Q -> shifted d a b -> shifted d' a b.
Proof.
  intros Hd. destruct a, b; simpl; try tauto.
  intros (Hn & Hp & Ht & Hs). repeat split; try assumption.
  rewrite Hs, Hd. reflexivity.
Qed.

Lemma moveStock_transactions sign pid q db :
  transactions (moveStock sign pid q db) = transactions db.
Proof.
  unfold moveStock. destruct (getProductById db pid); [|reflexivity].
  unfold saveProduct. destruct (isEmpty pid); reflexivity.
Qed.

Lemma moveStock_shifted sign pid q db k :
  shifted (if String.eqb pid k then - (sign * q) else 0)%Q
    (products db !! k) (products (moveStock sign pid q db) !! k).
Proof.
  unfold moveStock, getProductById.
  destruct (products db !! pid) as [product|] eqn:E.
  - unfold saveProduct, assignStock.
    destruct (String.eqb_spec pid k) as [<-|Hne].
    + destruct (isEmpty pid); simpl.
      * rewrite lookup_alter_eq, E. simpl. repeat split; try ring.
      * rewrite lookup_insert_eq, E. simpl. repeat split; try ring.
    + destruct (isEmpty pid); simpl.
      * rewrite lookup_alter_ne by exact Hne. apply shifted_zero.
      * rewrite lookup_insert_ne by exact Hne.
        rewrite lookup_alter_ne by exact Hne. apply shifted_zero.
  - destruct (String.eqb_spec pid k) as [<-|Hne].
    + rewrite E. exact I.
    + apply shifted_zero.
Qed.

Lemma moveStockOfItems_transactions sign l db :
  transactions (APIService.moveStockOfItems sign l db) = transactions db.
Proof.
  unfold APIService.moveStockOfItems. revert db.
  induction l as [|i l IH]; intros db; simpl; [reflexivity|].
  rewrite IH. apply moveStock_transactions.
Qed.

(** The stock movements read and write the catalogue only. *)
Lemma moveStockOfItems_products_ext sign l dbA dbB :
  products dbA = products dbB ->
  products (APIService.moveStockOfItems sign l dbA)
  = products (APIService.moveStockOfItems sign l dbB).
Proof.
  unfold APIService.moveStockOfItems. revert dbA dbB.
  induction l as [|i l IH]; intros dbA dbB Hsame; simpl; [exact Hsame|].
  apply IH. unfold moveStock, getProductById.
  rewrite Hsame. destruct (products dbB !! _); [|exact Hsame].
  unfold saveProduct, assignStock.
  destruct (isEmpty _); simpl; rewrite Hsame; reflexivity.
Qed.

(** Moving the stock of the lines of a sale shifts the stock of every
    product by the quantity the sale asks of it, and of no other. *)
Lemma moveStockOfItems_shifted sign l db k :
  shifted (- (sign * quantityFor k l))%Q
    (products db !! k)
    (products (APIService.moveStockOfItems sign l db) !! k).
Proof.
  unfold APIService.moveStockOfItems. revert db.
  induction l as [|i l IH]; intros db; simpl.
  - apply (shifted_eq 0); [ring | apply shifted_zero].
  - eapply shifted_eq;
      [|exact (shifted_trans _ _ _ _ _
                 (moveStock_shifted sign (Transaction.productId i)
                    (Transaction.quantity i) db k)
                 (IH _))].
    destruct (String.eqb (Transaction.productId i) k); ring.
Qed.

End StockFacts.

(** ** Voiding a completed sale *)

Module VoidFacts.

Import Transaction.

Lemma fromObject_id genId x :
  isEmpty (id x) = false -> id (fromObject genId x) = id x.
Proof. intros H. simpl. rewrite H. reflexivity. Qed.

(** The transaction object after a successful [void]. *)
Lemma void_result now reason x :
  status x <> voided ->
  void now reason x
  = (true, snd (void now reason x))
  /\ status (snd (void now reason x)) = voided
  /\ items (snd (void now reason x)) = items x
  /\ id (snd (void now reason x)) = id x
  /\ notes (snd (void now reason x)) = (notes x +:+ voidNote reason)%string
  /\ voidedAt (snd (void now reason x)) = Some now.
Proof.
  intros H. unfold void.
  destruct (status x); simpl; try congruence; repeat split.
Qed.

Lemma voidTransaction_completed genId now db key reason x :
  DatabaseService.getTransactionById db key = Some x ->
  id x = key -> isEmpty key = false ->
  status x = completed ->
  APIService.voidTransaction genId now db key reason
  = (APIService.respond 200 (snd (void now reason (fromObject genId x))),
     {| DatabaseService.products :=
          DatabaseService.products
            (APIService.moveStockOfItems (-1) (items x) db);
        DatabaseService.transactions :=
          <[key := snd (void now reason (fromObject genId x))]>
            (DatabaseService.transactions db) |}).
Proof.
  intros Hget Hid Hne Hst.
  assert (Hne' : isEmpty (id x) = false) by congruence.
  assert (Hnv : status (fromObject genId x) <> voided)
    by (simpl; congruence).
  destruct (void_result now reason (fromObject genId x) Hnv)
    as (Hv & _ & Hitems & Hidv & _).
  unfold APIService.voidTransaction. rewrite Hget, Hst. simpl Status_eqb.
  cbv iota. rewrite Hv. cbv iota beta. simpl negb. cbv iota.
  unfold DatabaseService.saveTransaction, toObject.
  rewrite Hidv, (fromObject_id genId x Hne'), Hid, Hne.
  cbv iota beta. simpl negb. cbv iota.
  rewrite Hitems. simpl items.
  rewrite StockFacts.moveStockOfItems_transactions. reflexivity.
Qed.

Lemma voidTransaction_stock
    genId now db key reason x :
  DatabaseService.getTransactionById db key = Some x ->
  id x = key -> isEmpty key = false ->
  status x = completed ->
  forall pid,
    StockLedger.shifted (StockLedger.quantityFor pid (items x))
      (DatabaseService.products db !! pid)
      (DatabaseService.products
         (snd (APIService.voidTransaction genId now db key reason)) !! pid).
Proof.
  intros Hget Hid Hne Hst pid.
  rewrite (voidTransaction_completed genId now db key reason x Hget Hid Hne Hst).
  cbn [snd DatabaseService.products].
  eapply StockFacts.shifted_eq;
    [|apply (StockFacts.moveStockOfItems_shifted (-1) (items x) db pid)].
  ring.
Qed.



End VoidFacts.

(** ** Completing a paid sale *)

Module CompletionFacts.

Import Transaction.

Lemma addPaymentMethods_shape now pms x :
  exists extra,
    APIService.addPaymentMethods now pms x
    = set_paymentMethods (paymentMethods x ++ extra) x.
Proof.
  unfold APIService.addPaymentMethods. revert x.
  induction pms as [|pm pms IH]; intros x; simpl.
  - exists []. rewrite app_nil_r. symmetry.
    apply TransactionFacts.set_paymentMethods_id.
  - destruct (TransactionFacts.addPaymentMethod_shape now pm x) as [e1 ->].
    destruct (IH (set_paymentMethods (paymentMethods x ++ e1) x)) as [e2 ->].
    exists (e1 ++ e2). simpl. rewrite app_assoc. reflexivity.
Qed.

(** The transaction object after a successful [complete]. *)
Lemma complete_result now x :
  status x = pending -> (total x <= totalPaid x)%Q ->
  complete now x = (true, snd (complete now x))
  /\ status (snd (complete now x)) = completed
  /\ items (snd (complete now x)) = items x
  /\ id (snd (complete now x)) = id x
  /\ completedAt (snd (complete now x)) = Some now.
Proof.
  intros Hst Hpaid. unfold complete. rewrite Hst. simpl.
  apply NumFacts.Qlt_bool_false in Hpaid. rewrite Hpaid. simpl.
  repeat split.
Qed.

Lemma completeTransaction_paid genId now db key pms x :
  DatabaseService.getTransactionById db key = Some x ->
  id x = key -> isEmpty key = false ->
  status x = pending ->
  Nat.eqb (length pms) 0 = false ->
  (total x <= totalPaid (APIService.addPaymentMethods now pms (fromObject genId x)))%Q ->
  let paid := APIService.addPaymentMethods now pms (fromObject genId x) in
  APIService.completeTransaction genId now db key pms
  = (APIService.respond 200 (snd (complete now paid)),
     {| DatabaseService.products :=
          DatabaseService.products
            (APIService.moveStockOfItems 1 (items x) db);
        DatabaseService.transactions :=
          <[key := snd (complete now paid)]>
            (alter (set_paymentMethods (paymentMethods paid)) key
               (DatabaseService.transactions db)) |}).
Proof.
  intros Hget Hid Hne Hst Hlen Hpay paid.
  assert (Hne' : isEmpty (id x) = false) by congruence.
  destruct (addPaymentMethods_shape now pms (fromObject genId x)) as [extra Hshape].
  assert (Hpst : status paid = pending).
  { unfold paid. rewrite Hshape. simpl. exact Hst. }
  assert (Hptot : (total paid <= totalPaid paid)%Q).
  { unfold paid at 1. rewrite Hshape. simpl total.
    rewrite NumFacts.orZero_eq. exact Hpay. }
  assert (Hpitems : items paid = items x).
  { unfold paid. rewrite Hshape. reflexivity. }
  assert (Hpid : id paid = id x).
  { unfold paid. rewrite Hshape. simpl id. rewrite Hne'. reflexivity. }
  destruct (complete_result now paid Hpst Hptot)
    as (Hc & _ & Hitems & Hidc & _).
  unfold APIService.completeTransaction. rewrite Hget, Hst, Hlen.
  fold paid. rewrite Hc. cbv iota beta. simpl negb. cbv iota.
  unfold DatabaseService.saveTransaction, toObject.
  rewrite Hidc, Hpid, Hid, Hne. cbv iota beta. simpl negb. cbv iota.
  rewrite Hitems, Hpitems.
  rewrite StockFacts.moveStockOfItems_transactions.
  unfold APIService.sharePayments. cbn [DatabaseService.transactions].
  f_equal. f_equal.
  apply StockFacts.moveStockOfItems_products_ext. reflexivity.
Qed.

(** A completion request whose payments do not cover the total is
    answered 400 and the stored transaction stays pending; the payment
    entries it carried are nevertheless on the stored transaction, whose
    array the handler pushed them into. *)
Lemma completeTransaction_underpaid genId now db key pms x :
  DatabaseService.getTransactionById db key = Some x ->
  status x = pending ->
  Nat.eqb (length pms) 0 = false ->
  (totalPaid (APIService.addPaymentMethods now pms (fromObject genId x)) < total x)%Q ->
  APIService.completeTransaction genId now db key pms
  = (APIService.reply 400 "Failed to complete transaction",
     APIService.sharePayments key
       (paymentMethods (APIService.addPaymentMethods now pms (fromObject genId x)))
       db)
  /\ (status <$> DatabaseService.getTransactionById
                   (snd (APIService.completeTransaction genId now db key pms)) key)
     = Some pending
  /\ DatabaseService.products
       (snd (APIService.completeTransaction genId now db key pms))
     = DatabaseService.products db.
Proof.
  intros Hget Hst Hlen Hpay.
  set (paid := APIService.addPaymentMethods now pms (fromObject genId x)) in *.
  destruct (addPaymentMethods_shape now pms (fromObject genId x)) as [extra Hshape].
  assert (Hc : complete now paid = (false, paid)).
  { unfold complete.
    assert (Hpst : status paid = pending).
    { unfold paid. rewrite Hshape. simpl. exact Hst. }
    rewrite Hpst. simpl negb. cbv iota.
    assert (Hlt : Num.Qlt_bool (totalPaid paid) (total paid) = true).
    { apply NumFacts.Qlt_bool_iff. unfold paid at 2. rewrite Hshape. simpl total.
      rewrite NumFacts.orZero_eq. exact Hpay. }
    rewrite Hlt. reflexivity. }
  assert (Heq : APIService.completeTransaction genId now db key pms
                = (APIService.reply 400 "Failed to complete transaction",
                   APIService.sharePayments key (paymentMethods paid) db)).
  { unfold APIService.completeTransaction. rewrite Hget, Hst, Hlen.
    fold paid. rewrite Hc. reflexivity. }
  rewrite Heq. split; [reflexivity|]. split; [|reflexivity].
  unfold DatabaseService.getTransactionById, APIService.sharePayments.
  cbn [snd DatabaseService.transactions].
  rewrite lookup_alter_eq.
  unfold DatabaseService.getTransactionById in Hget. rewrite Hget.
  simpl. rewrite Hst. reflexivity.
Qed.

(** C5, as stated, fails: five apples are in stock and a paid, pending
    sale asks for eight; completion succeeds, the sale is stored as
    completed and the stock of apples becomes -3. *)
Lemma completion_succeeds_with_insufficient_stock :
  (DatabaseService.stock <$> DatabaseService.getProductById Sample.store "apple")
    = Some 5%Q
  /\ map quantity (items Sample.eightApples) = [8%Q]
  /\ APIService.success (fst Sample.completion) = true
  /\ APIService.status (fst Sample.completion) = 200%nat
  /\ (status <$> DatabaseService.getTransactionById (snd Sample.completion) "txn_9")
     = Some completed
  /\ (DatabaseService.stock
        <$> DatabaseService.getProductById (snd Sample.completion) "apple")
     = Some (-3)%Q.
Proof. repeat split; vm_compute; reflexivity. Qed.

(** The product model refuses what completion does to the stock:
    [updateStock] declines to take eight from a stock of five, and
    [validate] rejects a product whose stock is -3. *)
Lemma product_model_refuses_negative_stock :
  Product.stock Sample2.shelfItem = 5%Q
  /\ Product.updateStock "2024-01-01T00:01:00.000Z" (-8) Sample2.shelfItem
     = (false, Sample2.shelfItem)
  /\ Product.validate
       {| Product.id := "apple"; Product.name := "Apple"; Product.price := 10;
          Product.sku := "A-1"; Product.category := "fruit";
          Product.stock := -3;
          Product.imageSignatures := []; Product.description := "";
          Product.taxRate := 0;
          Product.createdAt := "2024-01-01T00:00:00.000Z";
          Product.updatedAt := "2024-01-01T00:00:00.000Z" |}
     = ["Stock cannot be negative"%string].
Proof. repeat split; vm_compute; reflexivity. Qed.

(** What a paid completion returns and stores. *)
Lemma completeTransaction_effect
    (genId now : string) (db : DatabaseService.t) (key : string)
    (pms : list PaymentMethod) (x : t) :
  DatabaseService.getTransactionById db key = Some x ->
  id x = key -> isEmpty key = false ->
  status x = pending ->
  Nat.eqb (length pms) 0 = false ->
  (total x <= totalPaid (APIService.addPaymentMethods now pms (fromObject genId x)))%Q ->
  let r := APIService.completeTransaction genId now db key pms in
  APIService.success (fst r) = true
  /\ APIService.status (fst r) = 200%nat
  /\ (forall pid,
        StockLedger.shifted (- StockLedger.quantityFor pid (items x))
          (DatabaseService.products db !! pid)
          (DatabaseService.products (snd r) !! pid))
  /\ (exists x',
        DatabaseService.getTransactionById (snd r) key = Some x'
        /\ APIService.data (fst r) = Some x'
        /\ status x' = completed
        /\ items x' = items x
        /\ completedAt x' = Some now).
Proof.
  intros Hget Hid Hne Hst Hlen Hpay r. subst r.
  rewrite (completeTransaction_paid genId now db key pms x
             Hget Hid Hne Hst Hlen Hpay).
  set (paid := APIService.addPaymentMethods now pms (fromObject genId x)).
  destruct (addPaymentMethods_shape now pms (fromObject genId x)) as [extra Hshape].
  assert (Hpst : status paid = pending).
  { unfold paid. rewrite Hshape. simpl. exact Hst. }
  assert (Hptot : (total paid <= totalPaid paid)%Q).
  { unfold paid at 1. rewrite Hshape. simpl total.
    rewrite NumFacts.orZero_eq. exact Hpay. }
  assert (Hpitems : items paid = items x).
  { unfold paid. rewrite Hshape. reflexivity. }
  destruct (complete_result now paid Hpst Hptot)
    as (_ & Hcs & Hitems & _ & Hat).
  cbn [fst snd]. split; [reflexivity|]. split; [reflexivity|]. split.
  { intros pid. cbn [DatabaseService.products].
    eapply StockFacts.shifted_eq;
      [|apply (StockFacts.moveStockOfItems_shifted 1 (items x) db pid)].
    ring. }
  exists (snd (complete now paid)).
  unfold DatabaseService.getTransactionById.
  cbn [DatabaseService.transactions].
  rewrite lookup_insert_eq. repeat split; try assumption.
  rewrite Hitems. exact Hpitems.
Qed.

(** Completion followed by voiding puts every stock level back to its
    value before the completion. *)
Lemma complete_then_void_restores_stock
    (genId now now' : string) (db : DatabaseService.t) (key reason : string)
    (pms : list PaymentMethod) (x : t) (pid : string) :
  DatabaseService.getTransactionById db key = Some x ->
  id x = key -> isEmpty key = false ->
  status x = pending ->
  Nat.eqb (length pms) 0 = false ->
  (total x <= totalPaid (APIService.addPaymentMethods now pms (fromObject genId x)))%Q ->
  StockLedger.shifted 0
    (DatabaseService.products db !! pid)
    (DatabaseService.products
       (snd (APIService.voidTransaction genId now'
               (snd (APIService.completeTransaction genId now db key pms))
               key reason)) !! pid).
Proof.
  intros Hget Hid Hne Hst Hlen Hpay.
  destruct (completeTransaction_effect genId now db key pms x
              Hget Hid Hne Hst Hlen Hpay)
    as (_ & _ & Hdown & (x' & Hget' & Hdata & Hst' & Hitems' & _)).
  assert (Hid' : id x' = key).
  { rewrite (completeTransaction_paid genId now db key pms x
               Hget Hid Hne Hst Hlen Hpay) in Hdata.
    cbn in Hdata. injection Hdata as <-.
    destruct (addPaymentMethods_shape now pms (fromObject genId x)) as [extra Hshape].
    unfold complete. rewrite Hshape. simpl status. rewrite Hst. simpl negb.
    cbv iota. destruct (Num.Qlt_bool _ _); simpl; rewrite Hid, Hne; reflexivity. }
  pose proof (VoidFacts.voidTransaction_stock genId now'
                _ key reason x' Hget' Hid' Hne Hst') as Hup.
  eapply StockFacts.shifted_eq;
    [|exact (StockFacts.shifted_trans _ _ _ _ _ (Hdown pid) (Hup pid))].
  rewrite Hitems'. ring.
Qed.

End CompletionFacts.

(** ** Permission gate of the dispatcher *)

Module DispatchFacts.

Import APIService.

Lemma append_String c a b : (String c a +:+ b)%string = String c (a +:+ b).
Proof. reflexivity. Qed.

Lemma append_Empty b : (EmptyString +:+ b)%string = b.
Proof. reflexivity. Qed.

Lemma append_empty_r s : (s +:+ "")%string = s.
Proof.
  induction s as [|c s IH]; [reflexivity|].
  rewrite append_String, IH. reflexivity.
Qed.

Lemma split_nonempty sep s : split sep s <> [].
Proof.
  destruct s as [|c s]; simpl; [discriminate|].
  destruct (Ascii.eqb c sep); [discriminate|].
  destruct (split sep s); discriminate.
Qed.

(** A prefix without separator stays in the first part. *)
Lemma split_app sep a b :
  noChar sep a = true ->
  split sep (a +:+ b)
  = match split sep b with
    | h :: rest => (a +:+ h) :: rest
    | [] => [a]
    end.
Proof.
  induction a as [|c a IH]; intros Hno.
  - rewrite append_Empty.
    destruct (split sep b) eqn:E; [|rewrite append_Empty; reflexivity].
    exfalso. exact (split_nonempty sep b E).
  - simpl in Hno. apply andb_true_iff in Hno. destruct Hno as [Hc Ha].
    apply negb_true_iff in Hc. rewrite append_String. simpl.
    rewrite Hc, (IH Ha).
    destruct (split sep b); [reflexivity|].
    rewrite append_String. reflexivity.
Qed.

Lemma voidRequest_parts id :
  noChar " " id = true ->
  split " " ("POST " +:+ Sample.voidPath id) = ["POST"%string; Sample.voidPath id].
Proof.
  intros Hno. unfold Sample.voidPath.
  rewrite ?append_String, ?append_Empty. simpl.
  rewrite (split_app " " id "/void" Hno). simpl.
  rewrite ?append_String, ?append_Empty.
  reflexivity.
Qed.

Lemma voidPath_parts id :
  noChar "/" id = true ->
  split "/" (Sample.voidPath id)
  = [""; "api"; "transactions"; id; "void"]%string.
Proof.
  intros Hno. unfold Sample.voidPath.
  rewrite ?append_String, ?append_Empty. simpl.
  rewrite (split_app "/" id "/void" Hno). simpl.
  rewrite append_empty_r. reflexivity.
Qed.

Lemma exactVoidPath_parts id :
  noChar "/" id = true ->
  split "/" ("POST" +:+ " " +:+ Sample.voidPath id)
  = ["POST "; "api"; "transactions"; id; "void"]%string.
Proof.
  intros Hno. unfold Sample.voidPath.
  rewrite ?append_String, ?append_Empty. simpl.
  rewrite (split_app "/" id "/void" Hno). simpl.
  rewrite append_empty_r. reflexivity.
Qed.

Lemma getEndpoint_In {H : Type} key (eps : list (string * Endpoint H)) e :
  getEndpoint key eps = Some e -> In (key, e) eps.
Proof.
  induction eps as [|[k e'] eps IH]; simpl; [discriminate|].
  destruct (String.eqb_spec k key) as [->|Hne].
  - intros [= ->]. left. reflexivity.
  - intros Hget. right. exact (IH Hget).
Qed.

Lemma findPattern_first_match {H : Type} method path params
    (before after : list (string * Endpoint H)) pattern e m :
  Forall (fun entry => matchEntry method path (fst entry) = Returned None) before ->
  matchEntry method path pattern = Returned (Some m) ->
  findPattern method path params (before ++ (pattern, e) :: after)
  = Returned (Some (e, m ∪ params)).
Proof.
  intros Hbefore Hhit.
  induction Hbefore as [|[k e'] before Hk Hbefore IH]; simpl.
  - rewrite Hhit. reflexivity.
  - simpl in Hk. rewrite Hk. exact IH.
Qed.

Lemma registerEndpoints_around_void :
  registerEndpoints
  = firstn 12 registerEndpoints
    ++ ("POST /api/transactions/:id/void"%string, Sample.voidEndpoint)
    :: skipn 13 registerEndpoints.
Proof. vm_compute. reflexivity. Qed.

Lemma matchEntry_void id pattern :
  noChar "/" id = true ->
  matchEntry "POST" (Some (Sample.voidPath id)) pattern
  = match nth_error (split " " pattern) 1 with
    | Some patternPath =>
        if negb (String.eqb (hd EmptyString (split " " pattern)) "POST")
        then Returned None
        else if negb (Nat.eqb (length (split "/" patternPath)) 5)
        then Returned None
        else Returned (matchParts (split "/" patternPath)
                         [""; "api"; "transactions"; id; "void"]%string ∅)
    | None =>
        if negb (String.eqb (hd EmptyString (split " " pattern)) "POST")
        then Returned None else Thrown
    end.
Proof.
  intros Hno. unfold matchEntry, matchPathPattern.
  rewrite (voidPath_parts id Hno).
  destruct (nth_error (split " " pattern) 1); reflexivity.
Qed.

(** Only the void route has the segments of a void request. *)
Lemma only_void_has_void_parts id :
  Forall (fun entry =>
            split "/" (fst entry)
            = ["POST "; "api"; "transactions"; id; "void"]%string ->
            snd entry = Sample.voidEndpoint)
    registerEndpoints.
Proof.
  let l := eval vm_compute in registerEndpoints in
  change registerEndpoints with l.
  repeat constructor;
    intros Hk; first [reflexivity | vm_compute in Hk; discriminate Hk].
Qed.

Lemma before_void_none_matches id :
  noChar "/" id = true ->
  Forall (fun entry : string * Endpoint Route.name =>
            matchEntry "POST" (Some (Sample.voidPath id)) (fst entry)
            = Returned None)
    (firstn 12 registerEndpoints).
Proof.
  intros Hno.
  let l := eval vm_compute in (firstn 12 registerEndpoints) in
  change (firstn 12 registerEndpoints) with l.
  repeat constructor; rewrite (matchEntry_void id _ Hno); reflexivity.
Qed.

(** The route table sends a void request to the void endpoint. *)
Lemma findEndpoint_void id params :
  noChar "/" id = true ->
  exists params',
    findEndpoint registerEndpoints "POST" (Some (Sample.voidPath id)) params
    = Returned (Some (Sample.voidEndpoint, params')).
Proof.
  intros Hno. unfold findEndpoint.
  destruct (getEndpoint _ registerEndpoints) as [e|] eqn:E.
  - exists params. apply getEndpoint_In in E.
    pose proof (only_void_has_void_parts id) as Hall.
    rewrite Forall_forall in Hall. apply list_elem_of_In in E.
    pose proof (Hall _ E (exactVoidPath_parts id Hno)) as He.
    simpl in He. rewrite He. reflexivity.
  - exists (<["id"%string := id]> ∅ ∪ params).
    rewrite registerEndpoints_around_void.
    apply findPattern_first_match.
    + exact (before_void_none_matches id Hno).
    + rewrite (matchEntry_void id _ Hno). reflexivity.
Qed.

Section Gate.

Context {Handler Data Payload : Type}.
Variable invoke :
  Handler -> gmap string string -> Data -> option (Response Payload).

Lemma gate_of_matched_route now auth endpoints path params d endpoint params' :
  findEndpoint endpoints (hd EmptyString (split " " path))
    (nth_error (split " " path) 1) params
  = Returned (Some (endpoint, params')) ->
  (permissions endpoint <> [] ->
   AuthService.isAuthenticated now auth = false ->
   handleRequest invoke now auth endpoints path params d
   = reply 401 "Authentication required")
  /\ (permissions endpoint <> [] ->
      AuthService.isAuthenticated now auth = true ->
      (exists p, In p (permissions endpoint)
                 /\ AuthService.hasPermission now p auth = false) ->
      handleRequest invoke now auth endpoints path params d
      = reply 403 "Permission denied")
  /\ (permissions endpoint <> [] ->
      AuthService.isAuthenticated now auth = true ->
      (forall p, In p (permissions endpoint) ->
                 AuthService.hasPermission now p auth = true) ->
      handleRequest invoke now auth endpoints path params d
      = callHandler invoke endpoint params' d)
  /\ (permissions endpoint = [] ->
      handleRequest invoke now auth endpoints path params d
      = callHandler invoke endpoint params' d).
Proof.
  intros Hfind. unfold handleRequest. rewrite Hfind.
  destruct (permissions endpoint) as [|p0 perms] eqn:Eperms.
  - repeat split; intros; try congruence; reflexivity.
  - change (Nat.ltb 0 (length (p0 :: perms))) with true. cbv iota.
    repeat split.
    + intros _ Hauth. rewrite Hauth. reflexivity.
    + intros _ Hauth (p & Hin & Hp). rewrite Hauth. change (negb true) with false. cbv iota.
      match goal with
      | |- context [forallb ?f ?l] => destruct (forallb f l) eqn:Eall
      end; [|reflexivity].
      rewrite List.forallb_forall in Eall. rewrite (Eall p Hin) in Hp.
      discriminate.
    + intros _ Hauth Hall. rewrite Hauth. change (negb true) with false. cbv iota.
      assert (Eall : forallb (fun permission =>
                                AuthService.hasPermission now permission auth)
                       (p0 :: perms) = true).
      { apply List.forallb_forall. exact Hall. }
      rewrite Eall. reflexivity.
    + discriminate.
Qed.

End Gate.

(** A session of a user holding the default permissions of a cashier
    is refused on the void route. *)
Lemma cashier_void_forbidden {Data Payload : Type}
    (invoke : Route.name -> gmap string string -> Data -> option (Response Payload))
    now auth user id params d :
  AuthService.getCurrentUser now auth = Some user ->
  User.permissions user = User.getDefaultPermissions "cashier" ->
  noChar "/" id = true -> noChar " " id = true ->
  handleRequest invoke now auth registerEndpoints
    ("POST " +:+ Sample.voidPath id) params d
  = reply 403 "Permission denied".
Proof.
  intros Huser Hperms Hslash Hspace.
  destruct (findEndpoint_void id params Hslash) as [params' Hfind].
  assert (Hfind' :
    findEndpoint registerEndpoints
      (hd EmptyString (split " " ("POST " +:+ Sample.voidPath id)))
      (nth_error (split " " ("POST " +:+ Sample.voidPath id)) 1) params
    = Returned (Some (Sample.voidEndpoint, params'))).
  { rewrite (voidRequest_parts id Hspace). exact Hfind. }
  destruct (gate_of_matched_route invoke now auth registerEndpoints
              ("POST " +:+ Sample.voidPath id) params d _ _ Hfind')
    as (_ & H403 & _).
  apply H403.
  - discriminate.
  - unfold AuthService.isAuthenticated. rewrite Huser. reflexivity.
  - exists "transactions:void"%string. split; [left; reflexivity|].
    unfold AuthService.hasPermission. rewrite Huser, Hperms. reflexivity.
Qed.

(** C9, as stated, fails on the request it names: the routes are
    registered under [/api], and a cashier session posting to
    [/transactions/txn_9/void], or to the pattern [/transactions/:id/void]
    itself, matches no route and is answered 404, not 403. *)
Lemma void_without_api_prefix_is_not_found :
  User.includes "transactions:void"
    (User.permissions (User.create "user_7" "kim" (Some "hash"%string)
                         (Some "cashier"%string) None)) = false
  /\ handleRequest (fun (_ : Route.name) (_ : gmap string string) (_ : unit) =>
                      Some (respond 200 tt))
       1000%Z Sample.cashierSession registerEndpoints
       "POST /transactions/txn_9/void" ∅ tt
     = reply 404 "Endpoint not found"
  /\ handleRequest (fun (_ : Route.name) (_ : gmap string string) (_ : unit) =>
                      Some (respond 200 tt))
       1000%Z Sample.cashierSession registerEndpoints
       "POST /transactions/:id/void" ∅ tt
     = reply 404 "Endpoint not found".
Proof. repeat split; vm_compute; reflexivity. Qed.

(** C9, amended. For a request whose route is found: when the route lists
    permissions and no authenticated session is present the answer is
    the envelope with [success = false] and [status = 401]; when a
    session is present and one of the listed permissions is not held the
    answer is the envelope with [success = false] and [status = 403];
    when every listed permission is held, or the route lists none, the
    handler is called without further check.  In particular a session
    holding the default permissions of a cashier that posts to the void
    route of a transaction, [/api/transactions/:id/void], is answered with
    status 403. *)
Theorem permission_gate_of_dispatcher :
  (forall (Handler Data Payload : Type)
          (invoke : Handler -> gmap string string -> Data -> option (Response Payload))
          now auth endpoints path params d endpoint params',
      findEndpoint endpoints (hd EmptyString (split " " path))
        (nth_error (split " " path) 1) params
      = Returned (Some (endpoint, params')) ->
      (permissions endpoint <> [] ->
       AuthService.isAuthenticated now auth = false ->
       handleRequest invoke now auth endpoints path params d
       = {| success := false; status := 401;
            message := Some "Authentication required"%string; data := None |})
      /\ (permissions endpoint <> [] ->
          AuthService.isAuthenticated now auth = true ->
          (exists p, In p (permissions endpoint)
                     /\ AuthService.hasPermission now p auth = false) ->
          handleRequest invoke now auth endpoints path params d
          = {| success := false; status := 403;
               message := Some "Permission denied"%string; data := None |})
      /\ (permissions endpoint <> [] ->
          AuthService.isAuthenticated now auth = true ->
          (forall p, In p (permissions endpoint) ->
                     AuthService.hasPermission now p auth = true) ->
          handleRequest invoke now auth endpoints path params d
          = callHandler invoke endpoint params' d)
      /\ (permissions endpoint = [] ->
          handleRequest invoke now auth endpoints path params d
          = callHandler invoke endpoint params' d))
  /\ (forall (Data Payload : Type)
             (invoke : Route.name -> gmap string string -> Data
                       -> option (Response Payload))
             now auth user id params d,
         AuthService.getCurrentUser now auth = Some user ->
         User.permissions user = User.getDefaultPermissions "cashier" ->
         User.includes "transactions:void" (User.permissions user) = false
         /\ (noChar "/" id = true -> noChar " " id = true ->
             handleRequest invoke now auth registerEndpoints
               ("POST /api/transactions/" +:+ id +:+ "/void") params d
             = {| success := false; status := 403;
                  message := Some "Permission denied"%string; data := None |})).
Proof.
  split.
  - intros Handler Data Payload invoke now auth endpoints path params d
      endpoint params' Hfind.
    exact (gate_of_matched_route invoke now auth endpoints path params d
             endpoint params' Hfind).
  - intros Data Payload invoke now auth user id params d Huser Hperms.
    split; [rewrite Hperms; reflexivity|].
    intros Hslash Hspace.
    exact (cashier_void_forbidden invoke now auth user id params d
             Huser Hperms Hslash Hspace).
Qed.

Lemma permission_gate_of_dispatcher_witness :
  handleRequest (fun (_ : Route.name) (_ : gmap string string) (_ : unit) =>
                   Some (respond 200 tt))
    1000%Z Sample.cashierSession registerEndpoints
    ("POST /api/transactions/" +:+ "txn_9" +:+ "/void") ∅ tt
  = {| success := false; status := 403;
       message := Some "Permission denied"%string; data := None |}
  /\ handleRequest (fun (_ : Route.name) (_ : gmap string string) (_ : unit) =>
                      Some (respond 200 tt))
       1000%Z Sample.noSession registerEndpoints
       "POST /api/transactions/txn_9/void" ∅ tt
     = {| success := false; status := 401;
          message := Some "Authentication required"%string; data := None |}
  /\ handleRequest (fun (_ : Route.name) (_ : gmap string string) (_ : unit) =>
                      Some (respond 200 tt))
       1000%Z Sample.noSession registerEndpoints
       "POST /api/auth/login" ∅ tt
     = callHandler (fun (_ : Route.name) (_ : gmap string string) (_ : unit) =>
                      Some (respond 200 tt))
         {| handler := Route.login; permissions := [] |} ∅ tt.
Proof.
  split; [|split].
  - refine (proj2 (proj2 permission_gate_of_dispatcher unit unit
                     (fun _ _ _ => Some (respond 200 tt))
                     1000%Z Sample.cashierSession
                     (User.create "user_7" "kim" None (Some "cashier") None)
                     "txn_9"%string ∅ tt _ _) _ _);
      reflexivity.
  - refine (proj1 (proj1 permission_gate_of_dispatcher Route.name unit unit
                     (fun _ _ _ => Some (respond 200 tt))
                     1000%Z Sample.noSession registerEndpoints
                     "POST /api/transactions/txn_9/void"%string ∅ tt
                     Sample.voidEndpoint {[ "id"%string := "txn_9"%string ]} _)
              _ _).
    + vm_compute. reflexivity.
    + discriminate.
    + reflexivity.
  - refine (proj2 (proj2 (proj2 (proj1 permission_gate_of_dispatcher
                     Route.name unit unit
                     (fun _ _ _ => Some (respond 200 tt))
                     1000%Z Sample.noSession registerEndpoints
                     "POST /api/auth/login"%string ∅ tt
                     {| handler := Route.login; permissions := [] |} ∅ _)))
              _).
    + vm_compute. reflexivity.
    + reflexivity.
Defined.

(** Without a session the void route answers 401, and the login route,
    which lists no permission, reaches its handler. *)
Lemma dispatcher_examples :
  status (handleRequest (fun (_ : Route.name) (_ : gmap string string) (_ : unit) =>
                           Some (respond 200 tt))
            1000%Z Sample.noSession registerEndpoints
            "POST /api/transactions/txn_9/void" ∅ tt) = 401%nat
  /\ handleRequest (fun (_ : Route.name) (_ : gmap string string) (_ : unit) =>
                      Some (respond 200 tt))
       1000%Z Sample.noSession registerEndpoints
       "POST /api/auth/login" ∅ tt = respond 200 tt
  /\ status (handleRequest (fun (_ : Route.name) (_ : gmap string string) (_ : unit) =>
                              Some (respond 200 tt))
               1000%Z Sample.cashierSession registerEndpoints
               "POST /transactions/txn_9/void" ∅ tt) = 404%nat.
Proof. repeat split; vm_compute; reflexivity. Qed.

End DispatchFacts.

(** * Further properties *)

(** ** Shape of the lines of a cart *)

Module CartLineFacts.

Import CartService.

Lemma findIndex_Some pid l n :
  findIndex pid l = Some n ->
  exists i, l !! n = Some i /\ productId i = pid.
Proof.
  revert n. induction l as [|i l IH]; intros n; simpl; [discriminate|].
  unfold isProduct at 1. destruct (String.eqb_spec (productId i) pid) as [E|E].
  - intros [= <-]. exists i. split; [reflexivity | exact E].
  - destruct (findIndex pid l) as [m|]; simpl; [|discriminate].
    intros [= <-]. exact (IH m eq_refl).
Qed.

Lemma findIndex_None pid l :
  findIndex pid l = None -> ~ In pid (map productId l).
Proof.
  induction l as [|i l IH]; simpl; [intros _ []|].
  unfold isProduct at 1. destruct (String.eqb_spec (productId i) pid) as [E|E];
    [discriminate|].
  destruct (findIndex pid l); simpl; [discriminate|].
  intros _ [H|H]; [contradiction | exact (IH eq_refl H)].
Qed.

Lemma findIndex_In pid l :
  In pid (map productId l) -> exists n, findIndex pid l = Some n.
Proof.
  induction l as [|i l IH]; simpl; [intros []|].
  unfold isProduct at 1. destruct (String.eqb_spec (productId i) pid) as [E|E].
  - intros _. exists 0%nat. reflexivity.
  - intros [H|H]; [contradiction|].
    destruct (IH H) as [n ->]. exists (S n). reflexivity.
Qed.

Lemma map_productId_alter (f : CartItem -> CartItem) n l :
  (forall i, productId (f i) = productId i) ->
  map productId (alter f n l) = map productId l.
Proof.
  intros Hf. revert n. induction l as [|i l IH]; intros [|n]; simpl;
    try reflexivity.
  - rewrite Hf. reflexivity.
  - f_equal. apply IH.
Qed.

Lemma In_map_filter {A B : Type} (g : A -> B) (f : A -> bool) l y :
  In y (map g (List.filter f l)) -> In y (map g l).
Proof.
  induction l as [|a l IH]; simpl; [exact (fun H => H)|].
  destruct (f a); simpl; intuition.
Qed.

Lemma NoDup_map_filter {A B : Type} (g : A -> B) (f : A -> bool) l :
  List.NoDup (map g l) -> List.NoDup (map g (List.filter f l)).
Proof.
  induction l as [|a l IH]; simpl; [exact (fun H => H)|].
  intros H. inversion H as [|? ? Hnin Hnd]; subst.
  destruct (f a); simpl; [|exact (IH Hnd)].
  constructor; [|exact (IH Hnd)].
  intros Hin. apply Hnin. exact (In_map_filter g f l _ Hin).
Qed.

Lemma NoDup_map_snoc {A B : Type} (g : A -> B) l x :
  List.NoDup (map g l) -> ~ In (g x) (map g l) ->
  List.NoDup (map g (l ++ [x])).
Proof.
  induction l as [|a l IH]; simpl; intros Hnd Hnin.
  - constructor; [intros [] | constructor].
  - inversion Hnd as [|? ? Ha Hl]; subst. constructor.
    + rewrite map_app, in_app_iff. simpl. intros [H|[H|[]]].
      * exact (Ha H).
      * apply Hnin. left. symmetry. exact H.
    + apply IH; [exact Hl|]. intros H. apply Hnin. right. exact H.
Qed.


Lemma Qle_bool_false_lt q : Qle_bool q 0 = false -> (0 < q)%Q.
Proof.
  intros H. apply Qnot_le_lt. intros Hle. apply Qle_bool_iff in Hle. congruence.
Qed.

Lemma addItem_edit db pid qty method confidence c :
  CartEdits.edit (items c) (items (snd (addItem db pid qty method confidence c))).
Proof.
  unfold addItem.
  destruct (DatabaseService.getProductById db pid); [|constructor].
  destruct (Qle_bool qty 0) eqn:Eq; [constructor|].
  destruct (Num.Qlt_bool _ qty); [constructor|].
  apply Qle_bool_false_lt in Eq. simpl.
  destruct (findIndex pid (items c)) as [idx|] eqn:Ei.
  - exact (CartEdits.edit_merge _ pid qty idx Ei Eq).
  - apply (CartEdits.edit_push _ {| productId := pid; quantity := qty |}); assumption.
Qed.

Lemma removeItem_edit pid c :
  CartEdits.edit (items c) (items (snd (removeItem pid c))).
Proof.
  unfold removeItem. simpl. destruct (Nat.eqb _ _); simpl; constructor.
Qed.

Lemma updateItemQuantity_edit db pid qty c :
  CartEdits.edit (items c) (items (snd (updateItemQuantity db pid qty c))).
Proof.
  unfold updateItemQuantity.
  destruct (Qle_bool qty 0) eqn:Eq; [apply removeItem_edit|].
  apply Qle_bool_false_lt in Eq.
  destruct (findIndex pid (items c)) as [idx|] eqn:Ei; [|constructor].
  destruct (DatabaseService.getProductById db pid); [|constructor].
  destruct (Num.Qlt_bool _ qty); [constructor|].
  simpl. exact (CartEdits.edit_set _ pid qty idx Ei Eq).
Qed.

Lemma applyDiscount_edit amt c :
  CartEdits.edit (items c) (items (snd (applyDiscount amt c))).
Proof.
  unfold applyDiscount.
  destruct (Num.Qlt_bool amt 0); [constructor|].
  destruct (Num.Qlt_bool (subtotal c) amt); constructor.
Qed.

(** A property of the lines that holds of no lines and is kept by every
    CartEdits.edit holds in every reachable cart. *)
Lemma reachable_lines (P : list CartItem -> Prop) :
  P [] ->
  (forall l l', P l -> CartEdits.edit l l' -> P l') ->
  forall c, CartSession.reachable c -> P (items c).
Proof.
  intros Hnil Hstep c Hr.
  induction Hr as [ | db pid qty method confidence c Hr IH | pid c Hr IH
                    | db pid qty c Hr IH | amt c Hr IH ].
  - exact Hnil.
  - exact (Hstep _ _ IH (addItem_edit db pid qty method confidence c)).
  - exact (Hstep _ _ IH (removeItem_edit pid c)).
  - exact (Hstep _ _ IH (updateItemQuantity_edit db pid qty c)).
  - exact (Hstep _ _ IH (applyDiscount_edit amt c)).
Qed.

Lemma reachable_lines_distinct (c : t) :
  CartSession.reachable c -> List.NoDup (map productId (items c)).
Proof.
  apply (reachable_lines (fun l => List.NoDup (map productId l))).
  - constructor.
  - intros l l' Hl He. destruct He as [ | pid qty idx _ _ | line Hnew _ | pid
                                       | pid qty idx _ _ ].
    + exact Hl.
    + rewrite map_productId_alter; [exact Hl | reflexivity].
    + apply NoDup_map_snoc; [exact Hl | exact (findIndex_None _ _ Hnew)].
    + apply NoDup_map_filter. exact Hl.
    + rewrite map_productId_alter; [exact Hl | reflexivity].
Qed.








End CartLineFacts.

(** ** Adding to, removing from and resizing a line *)

Module CartOperationFacts.

Import CartService.


(** X4. Adding more of a product that is already in the cart changes
    only the quantity of its line: name, price and tax rate stay those
    captured when the line was created, whatever the catalogue says now,
    and every other line is untouched. *)
Theorem addItem_merge_keeps_captured_price
    db pid qty method confidence c idx line :
  findIndex pid (items c) = Some idx ->
  items c !! idx = Some line ->
  success (fst (addItem db pid qty method confidence c)) = true ->
  (exists line',
     items (snd (addItem db pid qty method confidence c)) !! idx = Some line'
     /\ name line' = name line
     /\ price line' = price line
     /\ taxRate line' = taxRate line
     /\ quantity line' = (quantity line + qty)%Q)
  /\ (forall j, j <> idx ->
        items (snd (addItem db pid qty method confidence c)) !! j
        = items c !! j).
Proof.
  intros Hidx Hline Hok.
  destruct (StockCheckFacts.addItem_merges db pid qty method confidence c idx
              Hidx Hok) as [Hitems _].
  rewrite Hitems. split.
  - exists (add_quantity qty line).
    rewrite list_lookup_alter_eq, Hline. repeat split.
  - intros j Hj. apply list_lookup_alter_ne. congruence.
Qed.

Lemma addItem_merge_keeps_captured_price_witness :
  (exists line',
     items (snd (addItem Sample.catalog "apple" 3 "manual" 1 Sample.cartFourApples))
       !! 0%nat = Some line'
     /\ name line' = "Apple"%string
     /\ price line' = 10%Q
     /\ taxRate line' = 0%Q
     /\ quantity line' = (4 + 3)%Q)
  /\ (forall j, j <> 0%nat ->
        items (snd (addItem Sample.catalog "apple" 3 "manual" 1
                      Sample.cartFourApples)) !! j
        = items Sample.cartFourApples !! j).
Proof.
  apply (addItem_merge_keeps_captured_price Sample.catalog "apple" 3 "manual" 1
           Sample.cartFourApples 0%nat
           {| productId := "apple"; name := "Apple"; price := 10; taxRate := 0;
              quantity := 4; recognitionMethod := "manual";
              recognitionConfidence := 1 |});
    vm_compute; reflexivity.
Defined.

Lemma filter_keeps_all_iff pid (l : list CartItem) :
  length (List.filter (fun i => negb (isProduct pid i)) l) = length l
  <-> ~ In pid (map productId l).
Proof.
  induction l as [|i l IH]; simpl; [tauto|].
  pose proof (List.filter_length_le (fun i => negb (isProduct pid i)) l) as Hle.
  unfold isProduct at 1. destruct (String.eqb_spec (productId i) pid) as [E|E]; simpl.
  - split; [lia|]. intros H. exfalso. apply H. left. exact E.
  - split.
    + intros H [H'|H']; [contradiction|]. apply IH; [lia | exact H'].
    + intros H. f_equal. apply IH. intros H'. apply H. right. exact H'.
Qed.

Lemma filter_drops_one pid (l : list CartItem) :
  List.NoDup (map productId l) -> In pid (map productId l) ->
  S (length (List.filter (fun i => negb (isProduct pid i)) l)) = length l.
Proof.
  induction l as [|i l IH]; simpl; [intros _ []|].
  intros Hnd Hin. inversion Hnd as [|? ? Hnin Hnd']; subst.
  unfold isProduct at 1. destruct (String.eqb_spec (productId i) pid) as [E|E]; simpl.
  - f_equal. apply filter_keeps_all_iff. rewrite <- E. exact Hnin.
  - f_equal. apply IH; [exact Hnd'|]. destruct Hin as [H|H]; [contradiction | exact H].
Qed.

Lemma not_in_after_filter pid (l : list CartItem) :
  ~ In pid (map productId (List.filter (fun i => negb (isProduct pid i)) l)).
Proof.
  intros H. apply in_map_iff in H. destruct H as [i [Hi Hin]].
  apply List.filter_In in Hin. destruct Hin as [_ Hf].
  unfold isProduct in Hf. apply String.eqb_eq in Hi. rewrite Hi in Hf. discriminate.
Qed.

(** X5. In a reachable cart [removeItem] succeeds exactly when the
    product is in the cart; it then leaves the cart with exactly one line
    fewer and without that product, the other lines being kept in their
    order; when it fails the cart is unchanged. *)
Theorem removeItem_removes_exactly_the_line pid c :
  CartSession.reachable c ->
  (success (fst (removeItem pid c)) = true <-> In pid (map productId (items c)))
  /\ (success (fst (removeItem pid c)) = true ->
        items (snd (removeItem pid c))
        = List.filter (fun i => negb (isProduct pid i)) (items c)
        /\ ~ In pid (map productId (items (snd (removeItem pid c))))
        /\ S (length (items (snd (removeItem pid c)))) = length (items c))
  /\ (success (fst (removeItem pid c)) = false -> snd (removeItem pid c) = c).
Proof.
  intros Hr.
  pose proof (CartLineFacts.reachable_lines_distinct c Hr) as Hnd.
  assert (Hiff : success (fst (removeItem pid c)) = true
                 <-> In pid (map productId (items c))).
  { unfold removeItem. simpl.
    destruct (Nat.eqb _ _) eqn:E; simpl.
    - apply Nat.eqb_eq in E. apply filter_keeps_all_iff in E.
      split; [discriminate | intros H; contradiction].
    - apply Nat.eqb_neq in E. split; [|reflexivity]. intros _.
      destruct (findIndex pid (items c)) as [n|] eqn:En.
      + destruct (CartLineFacts.findIndex_Some pid _ n En) as [i [Hi Hp]].
        apply in_map_iff. exists i. split; [exact Hp|].
        apply list_elem_of_In. apply list_elem_of_lookup. exists n. exact Hi.
      + exfalso. apply E. apply filter_keeps_all_iff.
        exact (CartLineFacts.findIndex_None pid _ En). }
  split; [exact Hiff|]. split.
  - intros Hok. pose proof (proj1 Hiff Hok) as Hin.
    unfold removeItem in *. simpl in *.
    destruct (Nat.eqb _ _) eqn:E; simpl in *; [discriminate|].
    split; [reflexivity|]. split.
    + apply not_in_after_filter.
    + apply filter_drops_one; assumption.
  - apply CartFacts.removeItem_failure.
Qed.

Lemma removeItem_removes_exactly_the_line_witness :
  (success (fst (removeItem "apple" Sample.cartDiscounted)) = true
   <-> In "apple"%string (map productId (items Sample.cartDiscounted)))
  /\ (success (fst (removeItem "apple" Sample.cartDiscounted)) = true ->
        items (snd (removeItem "apple" Sample.cartDiscounted))
        = List.filter (fun i => negb (isProduct "apple" i))
            (items Sample.cartDiscounted)
        /\ ~ In "apple"%string
               (map productId (items (snd (removeItem "apple" Sample.cartDiscounted))))
        /\ S (length (items (snd (removeItem "apple" Sample.cartDiscounted))))
           = length (items Sample.cartDiscounted))
  /\ (success (fst (removeItem "apple" Sample.cartDiscounted)) = false ->
       snd (removeItem "apple" Sample.cartDiscounted) = Sample.cartDiscounted).
Proof.
  apply (removeItem_removes_exactly_the_line "apple" Sample.cartDiscounted).
  apply CartSession.reach_applyDiscount,
    CartSession.reach_addItem, CartSession.reach_addItem,
    CartSession.reach_empty.
Defined.



End CartOperationFacts.

(** ** From the cart to a stored sale *)

Module CartCheckoutFacts.

Import CartService.

Lemma createTransaction_success genId now employeeId storeId c :
  success (createTransaction genId now employeeId storeId c) = true
  <-> (items c <> [] /\ isEmpty employeeId = false /\ isEmpty storeId = false).
Proof.
  unfold createTransaction.
  destruct (items c) as [|i l]; simpl.
  - split; [discriminate | intros [H _]; congruence].
  - destruct (isEmpty employeeId); simpl;
      [split; [discriminate | intros (_ & H & _); discriminate]|].
    destruct (isEmpty storeId); simpl;
      [split; [discriminate | intros (_ & _ & H); discriminate]|].
    split; [intros _; repeat split; discriminate | reflexivity].
Qed.

Lemma createTransaction_draft genId now employeeId storeId c :
  success (createTransaction genId now employeeId storeId c) = true ->
  exists x,
    transaction (createTransaction genId now employeeId storeId c) = Some x
    /\ Transaction.id x = genId
    /\ Transaction.status x = Transaction.pending
    /\ Transaction.paymentMethods x = []
    /\ Transaction.items x = map toTransactionItem (items c)
    /\ (Transaction.subtotal x == subtotal c)%Q
    /\ (Transaction.taxAmount x == taxAmount c)%Q
    /\ (Transaction.discountAmount x == discountAmount c)%Q
    /\ (Transaction.total x == total c)%Q
    /\ Transaction.employeeId x = Some employeeId
    /\ Transaction.storeId x = Some storeId
    /\ Transaction.createdAt x = now
    /\ Transaction.completedAt x = None
    /\ Transaction.voidedAt x = None.
Proof.
  intros Hok. apply createTransaction_success in Hok.
  destruct Hok as (Hitems & He & Hs).
  unfold createTransaction.
  destruct (items c) as [|i l] eqn:El; [congruence|].
  simpl length. simpl Nat.eqb. cbv iota. rewrite He, Hs. cbv iota.
  eexists. split; [reflexivity|].
  destruct employeeId; [discriminate|]. destruct storeId; [discriminate|].
  simpl. repeat split; try reflexivity; apply NumFacts.orZero_eq.
Qed.



(** X8. A checkout that does not succeed changes neither the store nor
    the cart, and says why: the cart is empty, the employee or the store
    is missing, no payment was given, or, for a cart with lines and a
    request with payments, the payments were found short of the total, in
    which case an amount due is reported. *)
Theorem failed_checkout_changes_nothing
    genId now employeeId storeId paymentMethods db c :
  success (fst (checkout genId now employeeId storeId paymentMethods db c)) = false ->
  snd (checkout genId now employeeId storeId paymentMethods db c) = (db, c)
  /\ ((items c = []
       /\ message (fst (checkout genId now employeeId storeId paymentMethods db c))
          = "Cart is empty"%string)
      \/ (isEmpty employeeId = true
          /\ message (fst (checkout genId now employeeId storeId paymentMethods db c))
             = "Employee ID is required"%string)
      \/ (isEmpty storeId = true
          /\ message (fst (checkout genId now employeeId storeId paymentMethods db c))
             = "Store ID is required"%string)
      \/ (paymentMethods = []
          /\ message (fst (checkout genId now employeeId storeId paymentMethods db c))
             = "Payment methods are required"%string)
      \/ (items c <> [] /\ paymentMethods <> []
          /\ message (fst (checkout genId now employeeId storeId paymentMethods db c))
             = "Insufficient payment amount"%string
          /\ amountDue (fst (checkout genId now employeeId storeId paymentMethods db c))
             <> None)).
Proof.
  unfold checkout.
  destruct (success (createTransaction genId now employeeId storeId c)) eqn:Es.
  - destruct (createTransaction_draft genId now employeeId storeId c Es)
      as (x & Hx & _).
    rewrite Hx. simpl negb. cbv iota.
    destruct paymentMethods as [|m l].
    + intros _. split; [reflexivity|]. right. right. right. left. split; reflexivity.
    + simpl length. simpl Nat.eqb. cbv iota.
      destruct (Num.Qlt_bool (totalPayment (m :: l)) (total c)) eqn:Ep.
      * intros _. split; [reflexivity|]. right. right. right. right.
        split; [|split; [discriminate | split; [reflexivity | discriminate]]].
        intros Hnil. unfold createTransaction in Es. rewrite Hnil in Es.
        discriminate.
      * simpl. discriminate.
  - simpl negb. cbv iota. intros _. split; [reflexivity|]. cbn [fst].
    revert Es. unfold createTransaction.
    destruct (items c) as [|i l]; simpl.
    + intros _. left. split; reflexivity.
    + destruct (isEmpty employeeId); simpl.
      * intros _. right. left. split; reflexivity.
      * destruct (isEmpty storeId); simpl; [|discriminate].
        intros _. right. right. left. split; reflexivity.
Qed.

Lemma failed_checkout_changes_nothing_witness :
  snd (checkout "txn_A" "2024-01-01T00:00:00.000Z" "emp_1" "store_1" []
         Sample.catalog Sample.cartA) = (Sample.catalog, Sample.cartA).
Proof.
  apply (proj1 (failed_checkout_changes_nothing "txn_A" "2024-01-01T00:00:00.000Z"
                  "emp_1" "store_1" [] Sample.catalog Sample.cartA eq_refl)).
Defined.



Lemma totalPaid_sum x :
  (Transaction.totalPaid x
   == CartSession.sumOver Transaction.amount (Transaction.paymentMethods x))%Q.
Proof.
  unfold Transaction.totalPaid, CartSession.sumOver.
  rewrite (CartFacts.fold_left_sum Transaction.amount). ring.
Qed.


Lemma sumOver_app {A : Type} (f : A -> Q) l l' :
  (CartSession.sumOver f (l ++ l')
   == CartSession.sumOver f l + CartSession.sumOver f l')%Q.
Proof.
  unfold CartSession.sumOver. induction l as [|a l IH]; simpl.
  - ring.
  - rewrite IH. ring.
Qed.

(** Entries that carry a type add their amounts to what is paid, the
    zero amounts, which are dropped, included. *)
Lemma totalPaid_addPaymentMethods now l x :
  List.Forall (fun m => isEmpty (Transaction.type m) = false) l ->
  (Transaction.totalPaid (APIService.addPaymentMethods now l x)
   == Transaction.totalPaid x + CartSession.sumOver Transaction.amount l)%Q.
Proof.
  unfold APIService.addPaymentMethods. intros Hall. revert x.
  induction Hall as [|m l Hm Hall IH]; intros x; simpl.
  - unfold CartSession.sumOver. simpl. ring.
  - rewrite IH. unfold Transaction.addPaymentMethod, Transaction.paymentRejected.
    rewrite Hm. simpl orb.
    destruct (Qeq_bool (Transaction.amount m) 0) eqn:E; simpl snd.
    + apply Qeq_bool_eq in E. unfold CartSession.sumOver. simpl.
      rewrite E. ring.
    + rewrite !totalPaid_sum. simpl Transaction.paymentMethods.
      rewrite sumOver_app. unfold CartSession.sumOver. simpl. ring.
Qed.




End CartCheckoutFacts.

(** ** Editing and validating a transaction *)

Module TransactionEditFacts.

Import Transaction.











End TransactionEditFacts.

(** ** Transaction handlers: refusals, voiding a pending sale, updates *)

Module HandlerFacts.

Import Transaction.



(** X14. Voiding a stored sale that is still pending succeeds, marks it
    voided with the void note appended, and does not touch the
    catalogue: no stock is restored, since none was taken. *)
Theorem void_of_pending_sale_leaves_the_stock
    genId now db key reason x :
  DatabaseService.getTransactionById db key = Some x ->
  id x = key -> isEmpty key = false ->
  status x = pending ->
  let r := APIService.voidTransaction genId now db key reason in
  APIService.success (fst r) = true
  /\ APIService.status (fst r) = 200%nat
  /\ DatabaseService.products (snd r) = DatabaseService.products db
  /\ exists x',
       APIService.data (fst r) = Some x'
       /\ DatabaseService.transactions (snd r)
          = <[key := x']> (DatabaseService.transactions db)
       /\ status x' = voided
       /\ items x' = items x
       /\ notes x' = (notes x +:+ voidNote reason)%string
       /\ voidedAt x' = Some now.
Proof.
  intros Hget Hid Hne Hst r. subst r.
  assert (Hne' : isEmpty (id x) = false) by congruence.
  assert (Hnv : status (fromObject genId x) <> voided) by (simpl; congruence).
  destruct (VoidFacts.void_result now reason (fromObject genId x) Hnv)
    as (Hv & Hvs & Hitems & Hidv & Hnotes & Hat).
  unfold APIService.voidTransaction. rewrite Hget, Hst. simpl Status_eqb.
  cbv iota. rewrite Hv. cbv iota beta. simpl negb. cbv iota.
  unfold DatabaseService.saveTransaction, toObject.
  rewrite Hidv, (VoidFacts.fromObject_id genId x Hne'), Hid, Hne.
  cbv iota beta. simpl negb. cbv iota. cbn [fst snd].
  split; [reflexivity|]. split; [reflexivity|]. split; [reflexivity|].
  eexists. split; [reflexivity|]. split; [reflexivity|].
  repeat split; assumption.
Qed.

Lemma void_of_pending_sale_leaves_the_stock_witness :
  let r := APIService.voidTransaction "txn_g" "2024-01-01T00:05:00.000Z"
             Sample.store "txn_9" "mistake" in
  APIService.success (fst r) = true
  /\ APIService.status (fst r) = 200%nat
  /\ DatabaseService.products (snd r) = DatabaseService.products Sample.store
  /\ exists x',
       APIService.data (fst r) = Some x'
       /\ DatabaseService.transactions (snd r)
          = <["txn_9"%string := x']> (DatabaseService.transactions Sample.store)
       /\ status x' = voided
       /\ items x' = items Sample.eightApples
       /\ notes x' = (notes Sample.eightApples +:+ voidNote "mistake")%string
       /\ voidedAt x' = Some "2024-01-01T00:05:00.000Z"%string.
Proof.
  apply (void_of_pending_sale_leaves_the_stock "txn_g" "2024-01-01T00:05:00.000Z"
           Sample.store "txn_9" "mistake" Sample.eightApples).
  - vm_compute. reflexivity.
  - reflexivity.
  - reflexivity.
  - reflexivity.
Defined.

(** X15. An update of a stored pending sale whose merged state passes
    [validate] and keeps a creation time is answered 200 and stores, under
    the same id, the stored fields overridden by those of the request.
    The status is taken from the request like any other field, and the
    catalogue is not touched: an update can mark a sale completed without
    payment or stock movement. *)
Theorem update_takes_every_field_from_the_request genId db key d x :
  DatabaseService.getTransactionById db key = Some x ->
  id x = key -> isEmpty key = false ->
  status x = pending ->
  isEmpty (createdAt (APIService.spread x d)) = false ->
  isValid (fromObject genId (APIService.spread x d)) = true ->
  let x' := fromObject genId (APIService.spread x d) in
  APIService.updateTransaction genId db key d
  = (APIService.respond 200 x',
     {| DatabaseService.products := DatabaseService.products db;
        DatabaseService.transactions :=
          <[key := x']> (DatabaseService.transactions db) |})
  /\ id x' = key
  /\ status x' = default pending (APIService.d_status d)
  /\ items x' = default (items x) (APIService.d_items d)
  /\ paymentMethods x' = default (paymentMethods x) (APIService.d_paymentMethods d).
Proof.
  intros Hget Hid Hne Hst _ Hvalid x'. subst x'.
  unfold APIService.updateTransaction. rewrite Hget, Hst. simpl orb. cbv iota.
  rewrite Hvalid. simpl negb. cbv iota.
  unfold DatabaseService.saveTransaction, toObject.
  assert (Hid' : id (fromObject genId (APIService.spread x d)) = key).
  { simpl. rewrite Hid, Hne. reflexivity. }
  rewrite Hid', Hne. cbv iota beta. simpl negb. cbv iota.
  split; [reflexivity|]. split; [reflexivity|].
  simpl. rewrite Hst. repeat split.
Qed.

Lemma update_takes_every_field_from_the_request_witness :
  let x' := fromObject "txn_g" (APIService.spread Sample.eightApples
                                  Sample2.markCompleted) in
  APIService.updateTransaction "txn_g" Sample.store "txn_9" Sample2.markCompleted
  = (APIService.respond 200 x',
     {| DatabaseService.products := DatabaseService.products Sample.store;
        DatabaseService.transactions :=
          <["txn_9"%string := x']> (DatabaseService.transactions Sample.store) |})
  /\ id x' = "txn_9"%string
  /\ status x' = default pending (APIService.d_status Sample2.markCompleted)
  /\ items x' = default (items Sample.eightApples)
                  (APIService.d_items Sample2.markCompleted)
  /\ paymentMethods x'
     = default (paymentMethods Sample.eightApples)
         (APIService.d_paymentMethods Sample2.markCompleted).
Proof.
  apply (update_takes_every_field_from_the_request "txn_g" Sample.store "txn_9"
           Sample2.markCompleted Sample.eightApples).
  - vm_compute. reflexivity.
  - reflexivity.
  - reflexivity.
  - reflexivity.
  - reflexivity.
  - vm_compute. reflexivity.
Defined.

End HandlerFacts.

(** ** Payment entries of a refused completion *)

Module RetryFacts.

Import Transaction.

(** The entries of a request that [addPaymentMethod] accepts are appended
    in order, the others are dropped. *)
Lemma addPaymentMethods_exact now pms x :
  APIService.addPaymentMethods now pms x
  = set_paymentMethods
      (paymentMethods x
       ++ map (paymentEntry now)
            (List.filter (fun m => negb (paymentRejected m)) pms)) x.
Proof.
  unfold APIService.addPaymentMethods. revert x.
  induction pms as [|m l IH]; intros x; simpl.
  - rewrite app_nil_r. symmetry. apply TransactionFacts.set_paymentMethods_id.
  - rewrite IH. unfold addPaymentMethod.
    destruct (paymentRejected m); simpl; [reflexivity|].
    rewrite <- app_assoc. reflexivity.
Qed.

Lemma underpaid_completion_effect genId now db key pms x :
  DatabaseService.getTransactionById db key = Some x ->
  status x = pending ->
  Nat.eqb (length pms) 0 = false ->
  (totalPaid (APIService.addPaymentMethods now pms (fromObject genId x)) < total x)%Q ->
  APIService.status (fst (APIService.completeTransaction genId now db key pms))
  = 400%nat
  /\ APIService.success (fst (APIService.completeTransaction genId now db key pms))
     = false
  /\ DatabaseService.products
       (snd (APIService.completeTransaction genId now db key pms))
     = DatabaseService.products db
  /\ DatabaseService.transactions
       (snd (APIService.completeTransaction genId now db key pms))
     = <[key :=
           set_paymentMethods
             (paymentMethods x
              ++ map (paymentEntry now)
                   (List.filter (fun m => negb (paymentRejected m)) pms)) x]>
         (DatabaseService.transactions db).
Proof.
  intros Hget Hst Hlen Hpay.
  destruct (CompletionFacts.completeTransaction_underpaid genId now db key pms x
              Hget Hst Hlen Hpay) as (Heq & _ & _).
  rewrite Heq. cbn [fst snd]. repeat split.
  unfold APIService.sharePayments. cbn [DatabaseService.transactions].
  rewrite addPaymentMethods_exact. cbn [paymentMethods set_paymentMethods fromObject].
  unfold DatabaseService.getTransactionById in Hget.
  apply map_eq. intros k. destruct (decide (key = k)) as [<-|Hne].
  - rewrite lookup_alter_eq, lookup_insert_eq, Hget. reflexivity.
  - rewrite lookup_alter_ne, lookup_insert_ne by exact Hne. reflexivity.
Qed.

(** X16. A completion request whose payments do not cover the total is
    answered 400 and leaves the catalogue and the status alone, yet the
    stored sale has changed: the payment entries of the request that carry
    a type and a non-zero amount are now appended to its payment
    entries. *)
Theorem underpaid_completion_keeps_the_payment_entries
    genId now db key pms x :
  DatabaseService.getTransactionById db key = Some x ->
  status x = pending ->
  Nat.eqb (length pms) 0 = false ->
  (totalPaid (APIService.addPaymentMethods now pms (fromObject genId x)) < total x)%Q ->
  APIService.status (fst (APIService.completeTransaction genId now db key pms))
  = 400%nat
  /\ APIService.success (fst (APIService.completeTransaction genId now db key pms))
     = false
  /\ DatabaseService.products
       (snd (APIService.completeTransaction genId now db key pms))
     = DatabaseService.products db
  /\ DatabaseService.transactions
       (snd (APIService.completeTransaction genId now db key pms))
     = <[key :=
           set_paymentMethods
             (paymentMethods x
              ++ map (paymentEntry now)
                   (List.filter (fun m => negb (paymentRejected m)) pms)) x]>
         (DatabaseService.transactions db).
Proof. exact (underpaid_completion_effect genId now db key pms x). Qed.

Lemma underpaid_completion_keeps_the_payment_entries_witness :
  APIService.status
    (fst (APIService.completeTransaction "txn_g" "2024-01-01T00:01:00.000Z"
            Sample.store "txn_9" Sample.cash40)) = 400%nat
  /\ APIService.success
       (fst (APIService.completeTransaction "txn_g" "2024-01-01T00:01:00.000Z"
               Sample.store "txn_9" Sample.cash40)) = false
  /\ DatabaseService.products
       (snd (APIService.completeTransaction "txn_g" "2024-01-01T00:01:00.000Z"
               Sample.store "txn_9" Sample.cash40))
     = DatabaseService.products Sample.store
  /\ DatabaseService.transactions
       (snd (APIService.completeTransaction "txn_g" "2024-01-01T00:01:00.000Z"
               Sample.store "txn_9" Sample.cash40))
     = <["txn_9"%string :=
           set_paymentMethods
             (paymentMethods Sample.eightApples
              ++ map (paymentEntry "2024-01-01T00:01:00.000Z")
                   (List.filter (fun m => negb (paymentRejected m)) Sample.cash40))
             Sample.eightApples]>
         (DatabaseService.transactions Sample.store).
Proof.
  apply (underpaid_completion_keeps_the_payment_entries "txn_g"
           "2024-01-01T00:01:00.000Z" Sample.store "txn_9" Sample.cash40
           Sample.eightApples).
  - vm_compute. reflexivity.
  - reflexivity.
  - reflexivity.
  - vm_compute. reflexivity.
Defined.

(** X17. Payments of a refused completion count toward the next one,
    for amounts in whole units, which the machine adds without rounding:
    if a first request is refused as underpaid and a second request brings
    what was missing, the second request completes the sale although its
    own payments do not cover the total. *)
Theorem refused_payments_count_toward_the_next_completion
    genId now now' db key pms1 pms2 x :
  DatabaseService.getTransactionById db key = Some x ->
  id x = key -> isEmpty key = false ->
  status x = pending ->
  Whole.exact (paymentMethods x ++ pms1 ++ pms2) = true ->
  Nat.eqb (length pms1) 0 = false ->
  Nat.eqb (length pms2) 0 = false ->
  List.Forall (fun m => isEmpty (type m) = false) pms1 ->
  List.Forall (fun m => isEmpty (type m) = false) pms2 ->
  (totalPaid x + CartSession.sumOver amount pms1 < total x)%Q ->
  (total x <= totalPaid x + CartSession.sumOver amount pms1
              + CartSession.sumOver amount pms2)%Q ->
  let first := APIService.completeTransaction genId now db key pms1 in
  let second := APIService.completeTransaction genId now' (snd first) key pms2 in
  APIService.status (fst first) = 400%nat
  /\ APIService.status (fst second) = 200%nat
  /\ exists x',
       DatabaseService.getTransactionById (snd second) key = Some x'
       /\ status x' = completed.
Proof.
  intros Hget Hid Hne Hst _ Hlen1 Hlen2 Hall1 Hall2 Hunder Hcover first second.
  assert (Hpay1 : (totalPaid (APIService.addPaymentMethods now pms1
                                (fromObject genId x)) < total x)%Q).
  { rewrite (CartCheckoutFacts.totalPaid_addPaymentMethods now pms1 _ Hall1).
    exact Hunder. }
  destruct (CompletionFacts.completeTransaction_underpaid genId now db key pms1 x
              Hget Hst Hlen1 Hpay1) as (Heq & _ & _).
  set (paid1 := APIService.addPaymentMethods now pms1 (fromObject genId x)) in *.
  set (x1 := set_paymentMethods (paymentMethods paid1) x).
  assert (Hget1 : DatabaseService.getTransactionById (snd first) key = Some x1).
  { unfold first. rewrite Heq. cbn [snd].
    unfold DatabaseService.getTransactionById, APIService.sharePayments.
    cbn [DatabaseService.transactions]. rewrite lookup_alter_eq.
    unfold DatabaseService.getTransactionById in Hget. rewrite Hget. reflexivity. }
  assert (Hpay2 : (total x1 <= totalPaid (APIService.addPaymentMethods now' pms2
                                           (fromObject genId x1)))%Q).
  { rewrite (CartCheckoutFacts.totalPaid_addPaymentMethods now' pms2 _ Hall2).
    change (total x1) with (total x).
    change (totalPaid (fromObject genId x1)) with (totalPaid paid1).
    unfold paid1.
    rewrite (CartCheckoutFacts.totalPaid_addPaymentMethods now pms1 _ Hall1).
    exact Hcover. }
  destruct (CompletionFacts.completeTransaction_effect genId now' (snd first) key
              pms2 x1 Hget1 Hid Hne Hst Hlen2 Hpay2)
    as (_ & H200 & _ & (x' & Hx' & _ & Hc & _)).
  split; [unfold first; rewrite Heq; reflexivity|].
  split; [exact H200|]. exists x'. split; assumption.
Qed.

Lemma refused_payments_count_toward_the_next_completion_witness :
  let first := APIService.completeTransaction "txn_g" "2024-01-01T00:01:00.000Z"
                 Sample.store "txn_9" Sample.cash40 in
  let second := APIService.completeTransaction "txn_g" "2024-01-01T00:02:00.000Z"
                  (snd first) "txn_9" Sample.cash40 in
  APIService.status (fst first) = 400%nat
  /\ APIService.status (fst second) = 200%nat
  /\ exists x',
       DatabaseService.getTransactionById (snd second) "txn_9" = Some x'
       /\ status x' = completed.
Proof.
  apply (refused_payments_count_toward_the_next_completion "txn_g"
           "2024-01-01T00:01:00.000Z" "2024-01-01T00:02:00.000Z"
           Sample.store "txn_9" Sample.cash40 Sample.cash40 Sample.eightApples).
  - vm_compute. reflexivity.
  - reflexivity.
  - reflexivity.
  - reflexivity.
  - vm_compute. reflexivity.
  - reflexivity.
  - reflexivity.
  - repeat constructor.
  - repeat constructor.
  - vm_compute. reflexivity.
  - vm_compute. discriminate.
Defined.

End RetryFacts.

(** ** Creating a transaction through the API *)

Module CreateFacts.

Import Transaction.



(** The voided sale stored as txn_2 is pending again after the create
    request above. *)
Lemma create_revives_a_voided_sale :
  (status <$> DatabaseService.getTransactionById Sample2.ledger "txn_2")
  = Some voided
  /\ (status <$> DatabaseService.getTransactionById
                   (snd (APIService.createTransaction "txn_g"
                           "2024-01-02T00:00:00.000Z" Sample2.ledger
                           (Some "txn_2"%string) Sample2.onePear)) "txn_2")
     = Some pending.
Proof. split; vm_compute; reflexivity. Qed.

End CreateFacts.

(** ** Route table and route resolution *)

Module RouteFacts.

Import APIService.

Section Routes.

Context {Handler Data Payload : Type}.
Variable invoke :
  Handler -> gmap string string -> Data -> option (Response Payload).

Lemma findPattern_In method path params (eps : list (string * Endpoint Handler)) e ps :
  findPattern method path params eps = Returned (Some (e, ps)) ->
  exists k, In (k, e) eps.
Proof.
  induction eps as [|[k e'] eps IH]; simpl; [discriminate|].
  destruct (matchEntry method path k) as [[m|]|].
  - intros [= <- _]. exists k. left. reflexivity.
  - intros H. destruct (IH H) as [k' Hk']. exists k'. right. exact Hk'.
  - discriminate.
Qed.

Lemma findEndpoint_In (eps : list (string * Endpoint Handler)) method path params e ps :
  findEndpoint eps method path params = Returned (Some (e, ps)) ->
  exists k, In (k, e) eps.
Proof.
  unfold findEndpoint.
  destruct (getEndpoint _ eps) as [e'|] eqn:E.
  - intros [= <- _]. eexists. exact (DispatchFacts.getEndpoint_In _ _ _ E).
  - apply findPattern_In.
Qed.

(** X19. Whatever the request, the dispatcher answers with one of its
    four envelopes (404, 500, 401, 403) or with the answer of the handler
    of a registered route, and a handler runs only when its route lists no
    permission or the session is authenticated and holds every permission
    the route lists. *)
Theorem dispatcher_runs_only_permitted_registered_handlers
    now auth (eps : list (string * Endpoint Handler)) path params d :
  handleRequest invoke now auth eps path params d
    = reply 404 "Endpoint not found"
  \/ handleRequest invoke now auth eps path params d
     = reply 500 "Internal server error"
  \/ handleRequest invoke now auth eps path params d
     = reply 401 "Authentication required"
  \/ handleRequest invoke now auth eps path params d
     = reply 403 "Permission denied"
  \/ exists k e ps,
       In (k, e) eps
       /\ invoke (handler e) ps d
          = Some (handleRequest invoke now auth eps path params d)
       /\ (permissions e = []
           \/ (AuthService.isAuthenticated now auth = true
               /\ forall p, In p (permissions e) ->
                            AuthService.hasPermission now p auth = true)).
Proof.
  unfold handleRequest.
  destruct (findEndpoint eps _ _ params) as [[[e ps]|]|] eqn:Efind;
    [|left; reflexivity | right; left; reflexivity].
  destruct (findEndpoint_In _ _ _ _ _ _ Efind) as [k Hk].
  assert (Hcall : forall (gate : permissions e = []
                          \/ (AuthService.isAuthenticated now auth = true
                              /\ forall p, In p (permissions e) ->
                                   AuthService.hasPermission now p auth = true)),
             callHandler invoke e ps d = reply 500 "Internal server error"
             \/ exists k e' ps',
                  In (k, e') eps
                  /\ invoke (handler e') ps' d = Some (callHandler invoke e ps d)
                  /\ (permissions e' = []
                      \/ (AuthService.isAuthenticated now auth = true
                          /\ forall p, In p (permissions e') ->
                               AuthService.hasPermission now p auth = true))).
  { intros gate. unfold callHandler.
    destruct (invoke (handler e) ps d) as [r|] eqn:Er; [|left; reflexivity].
    right. exists k, e, ps. rewrite Er. repeat split; assumption. }
  destruct (permissions e) as [|p0 perms] eqn:Eperms.
  - simpl. destruct (Hcall (or_introl eq_refl)) as [H|H]; [right; left; exact H|].
    right. right. right. right. exact H.
  - change (Nat.ltb 0 (length (p0 :: perms))) with true. cbv iota.
    destruct (AuthService.isAuthenticated now auth) eqn:Eauth;
      [|right; right; left; reflexivity].
    change (negb true) with false. cbv iota.
    match goal with
    | |- context [forallb ?f ?l] => destruct (forallb f l) eqn:Eall
    end; [|right; right; right; left; reflexivity].
    change (negb true) with false. cbv iota.
    rewrite List.forallb_forall in Eall.
    destruct (Hcall (or_intror (conj eq_refl Eall))) as [H|H];
      [right; left; exact H|].
    right. right. right. right. exact H.
Qed.

Lemma hd_split_noChar sep s :
  noChar sep (hd EmptyString (split sep s)) = true.
Proof.
  induction s as [|c s IH]; simpl; [reflexivity|].
  destruct (Ascii.eqb c sep) eqn:E; simpl; [reflexivity|].
  destruct (split sep s) as [|h rest]; simpl in *.
  - rewrite E. reflexivity.
  - rewrite E, IH. reflexivity.
Qed.

Lemma hd_of_exact_key method rest :
  noChar " " method = true ->
  hd EmptyString (split " " (method +:+ " " +:+ rest)) = method.
Proof.
  intros Hno. rewrite (DispatchFacts.split_app " " method _ Hno).
  rewrite DispatchFacts.append_String, DispatchFacts.append_Empty. simpl.
  apply DispatchFacts.append_empty_r.
Qed.

(** X20. A request whose verb is the verb of no registered route is
    answered 404, and no handler runs. *)
Theorem unknown_verb_is_not_found
    now auth (eps : list (string * Endpoint Handler)) path params d :
  List.Forall (fun entry =>
                 hd EmptyString (split " " (fst entry))
                 <> hd EmptyString (split " " path)) eps ->
  handleRequest invoke now auth eps path params d
  = reply 404 "Endpoint not found".
Proof.
  intros Hall. unfold handleRequest, findEndpoint.
  set (method := hd EmptyString (split " " path)) in *.
  set (rest := match nth_error (split " " path) 1 with
               | Some p => p | None => "undefined"%string end).
  assert (Hno : noChar " " method = true) by apply hd_split_noChar.
  assert (Hexact : getEndpoint (method +:+ " " +:+ rest) eps = None).
  { induction Hall as [|[k e] eps Hk Hall IH]; simpl; [reflexivity|].
    destruct (String.eqb_spec k (method +:+ " " +:+ rest)) as [->|_]; [|exact IH].
    exfalso. apply Hk. simpl. apply hd_of_exact_key. exact Hno. }
  rewrite Hexact.
  assert (Hpat : findPattern method (nth_error (split " " path) 1) params eps
                 = Returned None).
  { clear Hexact. induction Hall as [|[k e] eps Hk Hall IH]; simpl; [reflexivity|].
    unfold matchEntry at 1. simpl in Hk.
    destruct (String.eqb_spec (hd EmptyString (split " " k)) method) as [E|_];
      [contradiction|].
    simpl negb. cbv iota. exact IH. }
  rewrite Hpat. reflexivity.
Qed.

End Routes.

Lemma unknown_verb_is_not_found_witness :
  handleRequest (fun (_ : Route.name) (_ : gmap string string) (_ : unit) =>
                   Some (respond 200 tt))
    1000%Z Sample2.adminSession registerEndpoints "PATCH /api/products/p1" ∅ tt
  = reply 404 "Endpoint not found".
Proof.
  apply (unknown_verb_is_not_found
           (fun (_ : Route.name) (_ : gmap string string) (_ : unit) =>
              Some (respond 200 tt))
           1000%Z Sample2.adminSession registerEndpoints
           "PATCH /api/products/p1" ∅ tt).
  vm_compute. repeat constructor; discriminate.
Defined.

End RouteFacts.

(** ** Registering routes and matching paths *)

Module RegistrationFacts.

Import APIService.

Section Registration.

Context {Handler : Type}.





End Registration.


Lemma split_inj sep a b : split sep a = split sep b -> a = b.
Proof.
  revert b. induction a as [|c a IH]; intros b.
  - destruct b as [|d b]; simpl; [reflexivity|].
    destruct (Ascii.eqb d sep).
    + intros [= H]. symmetry in H. exfalso. exact (DispatchFacts.split_nonempty _ _ H).
    + destruct (split sep b); discriminate.
  - simpl. destruct (Ascii.eqb c sep) eqn:Ec.
    + destruct b as [|d b]; simpl.
      * intros [= H]. exfalso. exact (DispatchFacts.split_nonempty _ _ H).
      * destruct (Ascii.eqb d sep) eqn:Ed.
        -- intros [= H]. apply Ascii.eqb_eq in Ec, Ed. subst.
           f_equal. exact (IH b H).
        -- destruct (split sep b); discriminate.
    + destruct (split sep a) as [|h rest] eqn:Ea.
      { exfalso. exact (DispatchFacts.split_nonempty _ _ Ea). }
      destruct b as [|d b]; simpl; [discriminate|].
      destruct (Ascii.eqb d sep) eqn:Ed; [discriminate|].
      destruct (split sep b) as [|h' rest'] eqn:Eb.
      { exfalso. exact (DispatchFacts.split_nonempty _ _ Eb). }
      intros [= -> -> ->]. f_equal. apply IH. symmetry. exact Eb.
Qed.

Lemma matchParts_literal pp xs m :
  List.Forall (fun p => paramName p = None) pp ->
  length pp = length xs ->
  (pp = xs -> matchParts pp xs m = Some m)
  /\ (pp <> xs -> matchParts pp xs m = None).
Proof.
  intros Hlit. revert xs. induction Hlit as [|p pp Hp Hlit IH]; intros xs Hlen.
  - destruct xs; [|discriminate]. split; [reflexivity | congruence].
  - destruct xs as [|x xs]; [discriminate|]. simpl. rewrite Hp.
    assert (Hlen' : length pp = length xs) by (simpl in Hlen; lia).
    destruct (IH xs Hlen') as [IH1 IH2].
    destruct (String.eqb_spec p x) as [->|Hne].
    + split.
      * intros [= ->]. apply IH1. reflexivity.
      * intros H. apply IH2. congruence.
    + split; [congruence | reflexivity].
Qed.

(** X22. A pattern none of whose segments is a placeholder matches
    exactly the path equal to it, and binds no parameter. *)
Theorem literal_pattern_matches_only_itself pattern path :
  List.Forall (fun p => paramName p = None) (split "/" pattern) ->
  matchPathPattern (Some pattern) (Some path)
  = Returned (if String.eqb pattern path then Some ∅ else None).
Proof.
  intros Hlit. unfold matchPathPattern.
  destruct (Nat.eqb (length (split "/" pattern)) (length (split "/" path))) eqn:El;
    simpl negb; cbv iota.
  - apply Nat.eqb_eq in El.
    destruct (matchParts_literal _ _ ∅ Hlit El) as [H1 H2].
    destruct (String.eqb_spec pattern path) as [->|Hne].
    + rewrite H1 by reflexivity. reflexivity.
    + rewrite H2; [reflexivity|]. intros E. apply Hne. exact (split_inj _ _ _ E).
  - apply Nat.eqb_neq in El.
    destruct (String.eqb_spec pattern path) as [->|_]; [congruence | reflexivity].
Qed.

Lemma literal_pattern_matches_only_itself_witness :
  matchPathPattern (Some "/api/auth/login"%string) (Some "/api/auth/logout"%string)
  = Returned (if String.eqb "/api/auth/login" "/api/auth/logout"
              then Some ∅ else None).
Proof.
  apply (literal_pattern_matches_only_itself "/api/auth/login" "/api/auth/logout").
  vm_compute. repeat constructor.
Defined.

End RegistrationFacts.

(** ** Roles and the route table *)

Module RoleFacts.

Import APIService.

Lemma includes_In p l : User.includes p l = true <-> In p l.
Proof.
  unfold User.includes. rewrite List.existsb_exists. split.
  - intros [q [Hin Heq]]. apply String.eqb_eq in Heq. subst. exact Hin.
  - intros Hin. exists p. split; [exact Hin | apply String.eqb_refl].
Qed.

Lemma admin_holds_every_route_permission :
  forallb (fun entry : string * Endpoint Route.name =>
             forallb (fun p => User.includes p (User.getDefaultPermissions "admin"))
               (permissions (snd entry)))
    registerEndpoints = true.
Proof. vm_compute. reflexivity. Qed.

(** X23. A session whose user holds the default permissions of an admin
    is never stopped by the permission gate: on the registered route table
    every request is answered 404, 500 or by the handler of a registered
    route. *)
Theorem admin_is_never_stopped_by_the_gate {Data Payload : Type}
    (invoke : Route.name -> gmap string string -> Data -> option (Response Payload))
    now auth user path params d :
  AuthService.getCurrentUser now auth = Some user ->
  User.permissions user = User.getDefaultPermissions "admin" ->
  handleRequest invoke now auth registerEndpoints path params d
    = reply 404 "Endpoint not found"
  \/ handleRequest invoke now auth registerEndpoints path params d
     = reply 500 "Internal server error"
  \/ exists k e ps,
       In (k, e) registerEndpoints
       /\ invoke (handler e) ps d
          = Some (handleRequest invoke now auth registerEndpoints path params d).
Proof.
  intros Huser Hperms. unfold handleRequest.
  destruct (findEndpoint registerEndpoints _ _ params) as [[[e ps]|]|] eqn:Efind;
    [|left; reflexivity | right; left; reflexivity].
  destruct (RouteFacts.findEndpoint_In _ _ _ _ _ _ Efind) as [k Hk].
  assert (Hall : forallb (fun permission =>
                            AuthService.hasPermission now permission auth)
                   (permissions e) = true).
  { pose proof admin_holds_every_route_permission as Htable.
    rewrite List.forallb_forall in Htable. specialize (Htable _ Hk).
    simpl in Htable. rewrite List.forallb_forall in Htable.
    apply List.forallb_forall. intros p Hp.
    unfold AuthService.hasPermission. rewrite Huser, Hperms. exact (Htable p Hp). }
  assert (Hauth : AuthService.isAuthenticated now auth = true).
  { unfold AuthService.isAuthenticated. rewrite Huser. reflexivity. }
  rewrite Hauth, Hall. change (negb true) with false. cbv iota.
  assert (Hcall : callHandler invoke e ps d = reply 500 "Internal server error"
                  \/ invoke (handler e) ps d = Some (callHandler invoke e ps d)).
  { unfold callHandler. destruct (invoke (handler e) ps d); [right | left]; reflexivity. }
  destruct (Nat.ltb 0 (length (permissions e)));
    (destruct Hcall as [H|H]; [right; left; exact H|];
     right; right; exists k, e, ps; split; assumption).
Qed.

Lemma admin_is_never_stopped_by_the_gate_witness :
  let invoke := fun (_ : Route.name) (_ : gmap string string) (_ : unit) =>
                  Some (respond 200 tt) in
  handleRequest invoke 1000%Z Sample2.adminSession registerEndpoints
    "DELETE /api/users/user_7" ∅ tt
    = reply 404 "Endpoint not found"
  \/ handleRequest invoke 1000%Z Sample2.adminSession registerEndpoints
       "DELETE /api/users/user_7" ∅ tt
     = reply 500 "Internal server error"
  \/ exists k e ps,
       In (k, e) registerEndpoints
       /\ invoke (handler e) ps tt
          = Some (handleRequest invoke 1000%Z Sample2.adminSession
                    registerEndpoints "DELETE /api/users/user_7" ∅ tt).
Proof.
  apply (admin_is_never_stopped_by_the_gate
           (fun (_ : Route.name) (_ : gmap string string) (_ : unit) =>
              Some (respond 200 tt))
           1000%Z Sample2.adminSession
           (User.create "user_1" "admin" None (Some "admin") None)
           "DELETE /api/users/user_7" ∅ tt);
    reflexivity.
Defined.

(** X24. The default permissions grow with the role: every default
    permission of a cashier is one of a manager, and every default
    permission of a manager is one of an admin; a role that is none of the
    three has no default permission. *)
Theorem default_permissions_grow_with_the_role p :
  (User.includes p (User.getDefaultPermissions "cashier") = true ->
   User.includes p (User.getDefaultPermissions "manager") = true)
  /\ (User.includes p (User.getDefaultPermissions "manager") = true ->
      User.includes p (User.getDefaultPermissions "admin") = true)
  /\ (forall role,
        role <> "admin"%string -> role <> "manager"%string ->
        role <> "cashier"%string ->
        User.includes p (User.getDefaultPermissions role) = false).
Proof.
  split; [|split].
  - intros H. apply includes_In in H. simpl in H.
    repeat (destruct H as [<-|H]; [reflexivity|]). destruct H.
  - intros H. apply includes_In in H. simpl in H.
    repeat (destruct H as [<-|H]; [reflexivity|]). destruct H.
  - intros role Ha Hm Hc. unfold User.getDefaultPermissions.
    apply String.eqb_neq in Ha, Hm, Hc. rewrite Ha, Hm, Hc. reflexivity.
Qed.

Lemma default_permissions_grow_with_the_role_witness :
  User.includes "transactions:create" (User.getDefaultPermissions "manager") = true.
Proof.
  apply (proj1 (default_permissions_grow_with_the_role "transactions:create")).
  reflexivity.
Defined.

End RoleFacts.

(** ** Editing the permissions of a user *)

Module PermissionFacts.

Import User.

Lemma includes_app p l l' :
  includes p (l ++ l') = includes p l || includes p l'.
Proof. unfold includes. apply List.existsb_app. Qed.

Lemma includes_filter_other p q l :
  q <> p ->
  includes q (List.filter (fun r => negb (String.eqb r p)) l) = includes q l.
Proof.
  intros Hne. unfold includes. induction l as [|r l IH]; simpl; [reflexivity|].
  destruct (String.eqb_spec r p) as [->|E]; simpl.
  - destruct (String.eqb_spec q p); [congruence | exact IH].
  - rewrite IH. reflexivity.
Qed.

Lemma includes_filter_self p l :
  includes p (List.filter (fun r => negb (String.eqb r p)) l) = false.
Proof.
  unfold includes. induction l as [|r l IH]; simpl; [reflexivity|].
  destruct (String.eqb_spec r p) as [->|E]; simpl; [exact IH|].
  destruct (String.eqb_spec p r); [congruence | exact IH].
Qed.

Lemma filter_absent p l :
  includes p l = false ->
  List.filter (fun r => negb (String.eqb r p)) l = l.
Proof.
  unfold includes. induction l as [|r l IH]; simpl; [reflexivity|].
  intros H. apply orb_false_iff in H. destruct H as [Hr Hl].
  rewrite String.eqb_sym in Hr. rewrite Hr. simpl. f_equal. exact (IH Hl).
Qed.

Lemma filter_length_iff p l :
  Nat.eqb (length (List.filter (fun r => negb (String.eqb r p)) l)) (length l) = true
  <-> includes p l = false.
Proof.
  split.
  - intros H. apply Nat.eqb_eq in H.
    apply CartFacts.filter_same_length in H.
    rewrite <- H. apply includes_filter_self.
  - intros H. rewrite (filter_absent p l H). apply Nat.eqb_refl.
Qed.

Lemma set_permissions_same u : set_permissions (permissions u) u = u.
Proof. destruct u; reflexivity. Qed.

(** X25. [addPermission] succeeds exactly when the permission is a
    non-empty string the user does not hold yet; the user then holds it,
    holds every other permission exactly as before, and a permission list
    without repetition stays without repetition.  Otherwise nothing
    changes. *)
Theorem addPermission_grants_once p u :
  (fst (addPermission p u) = true
   <-> (isEmpty p = false /\ hasPermission p u = false))
  /\ (fst (addPermission p u) = false -> snd (addPermission p u) = u)
  /\ (fst (addPermission p u) = true ->
      hasPermission p (snd (addPermission p u)) = true
      /\ forall q, q <> p ->
           hasPermission q (snd (addPermission p u)) = hasPermission q u)
  /\ (List.NoDup (permissions u) ->
      List.NoDup (permissions (snd (addPermission p u)))).
Proof.
  unfold addPermission, hasPermission.
  destruct (isEmpty p) eqn:Ee; simpl.
  { repeat split; try discriminate; try tauto. intros [H _]. discriminate. }
  destruct (includes p (permissions u)) eqn:Ei; simpl.
  { repeat split; try discriminate; try tauto. intros [_ H]. discriminate. }
  split; [split; [intros _; split; reflexivity | reflexivity]|].
  split; [discriminate|]. split.
  - intros _. split.
    + rewrite includes_app. unfold includes at 2. simpl.
      rewrite String.eqb_refl. apply orb_true_r.
    + intros q Hq. rewrite includes_app. unfold includes at 2. simpl.
      destruct (String.eqb_spec q p); [congruence|]. simpl. apply orb_false_r.
  - intros Hnd. apply List.NoDup_app; [exact Hnd | repeat constructor; intros [] |].
    intros x Hx [<-|[]].
    apply RoleFacts.includes_In in Hx. congruence.
Qed.

Lemma addPermission_grants_once_witness :
  hasPermission "transactions:void"
    (snd (addPermission "transactions:void"
            (User.create "user_7" "kim" None (Some "cashier") None))) = true
  /\ forall q, q <> "transactions:void"%string ->
       hasPermission q
         (snd (addPermission "transactions:void"
                 (User.create "user_7" "kim" None (Some "cashier") None)))
       = hasPermission q (User.create "user_7" "kim" None (Some "cashier") None).
Proof.
  apply (proj1 (proj2 (proj2 (addPermission_grants_once "transactions:void"
           (User.create "user_7" "kim" None (Some "cashier") None))))).
  reflexivity.
Defined.

Lemma add_then_remove p u :
  includes p (permissions u) = false ->
  set_permissions
    (List.filter (fun r => negb (String.eqb r p))
       (permissions (snd (addPermission p u))))
    (snd (addPermission p u)) = u.
Proof.
  intros Hp. unfold addPermission. rewrite Hp, orb_false_r.
  destruct (isEmpty p); cbn [snd].
  - rewrite (filter_absent p _ Hp). apply set_permissions_same.
  - cbn [permissions set_permissions].
    rewrite List.filter_app, (filter_absent p _ Hp). simpl.
    rewrite String.eqb_refl. simpl. rewrite app_nil_r.
    destruct u; reflexivity.
Qed.

(** X26. After [removePermission] the user no longer holds the
    permission and holds every other one exactly as before; the call
    returns true exactly when the permission was held.  Removing a
    permission right after adding it to a user who did not hold it gives
    back the user as it was. *)
Theorem removePermission_revokes p u :
  hasPermission p (snd (removePermission p u)) = false
  /\ (fst (removePermission p u) = true <-> hasPermission p u = true)
  /\ (forall q, q <> p ->
        hasPermission q (snd (removePermission p u)) = hasPermission q u)
  /\ (hasPermission p u = false ->
      snd (removePermission p (snd (addPermission p u))) = u).
Proof.
  unfold removePermission, hasPermission. simpl.
  split; [apply includes_filter_self|]. split; [|split].
  - rewrite negb_true_iff.
    destruct (includes p (permissions u)) eqn:Ei.
    + split; [reflexivity|]. intros _.
      destruct (Nat.eqb _ _) eqn:E; [|reflexivity].
      apply filter_length_iff in E. congruence.
    + split; [|discriminate]. intros H.
      pose proof (proj2 (filter_length_iff p (permissions u)) Ei). congruence.
  - intros q Hq. apply includes_filter_other. exact Hq.
  - apply add_then_remove.
Qed.

Lemma removePermission_revokes_witness :
  snd (removePermission "users:delete"
         (snd (addPermission "users:delete" Sample2.manager)))
  = Sample2.manager.
Proof.
  apply (proj2 (proj2 (proj2 (removePermission_revokes "users:delete"
                                Sample2.manager)))).
  reflexivity.
Defined.

End PermissionFacts.

(** ** Sessions *)

Module SessionFacts.

Import AuthService.

(** X27. A permission is only ever granted to an authenticated session;
    a session that is not authenticated at some time is not authenticated
    at any later time; the current user is always handed out without its
    password hash; and after [logout] the session is not authenticated and
    holds no permission. *)
Theorem sessions_expire_for_good now now' a p :
  (hasPermission now p a = true -> isAuthenticated now a = true)
  /\ (isAuthenticated now a = false -> (now <= now')%Z ->
      isAuthenticated now' a = false)
  /\ (forall u, getCurrentUser now a = Some u -> User.passwordHash u = None)
  /\ isAuthenticated now (snd (logout a)) = false
  /\ hasPermission now p (snd (logout a)) = false.
Proof.
  unfold hasPermission, isAuthenticated, getCurrentUser.
  split; [|split; [|split; [|split; reflexivity]]].
  - destruct (currentUser a), (token a) as [tok|], (tokenExpiry a) as [e|];
      try discriminate.
    destruct (isEmpty tok); [discriminate|].
    destruct (e <? now)%Z; [discriminate | reflexivity].
  - destruct (currentUser a), (token a) as [tok|], (tokenExpiry a) as [e|];
      try reflexivity.
    destruct (isEmpty tok); [reflexivity|].
    destruct (e <? now)%Z eqn:E; [|discriminate].
    intros _ Hle. apply Z.ltb_lt in E.
    assert (E' : (e <? now')%Z = true) by (apply Z.ltb_lt; lia).
    rewrite E'. reflexivity.
  - intros u.
    destruct (currentUser a), (token a) as [tok|], (tokenExpiry a) as [e|];
      try discriminate.
    destruct (isEmpty tok); [discriminate|].
    destruct (e <? now)%Z; [discriminate|].
    intros [= <-]. reflexivity.
Qed.

Lemma sessions_expire_for_good_witness :
  isAuthenticated 3000%Z Sample.cashierSession = false.
Proof.
  apply (proj1 (proj2 (sessions_expire_for_good 2500%Z 3000%Z
                         Sample.cashierSession "products:read"))).
  - reflexivity.
  - lia.
Defined.

End SessionFacts.

(** ** Store round trips *)

Module StoreFacts.

Import DatabaseService.



End StoreFacts.

(** ** Stock rule of the product model *)

Module ProductFacts.

Import Product.



End ProductFacts.

(** ** Resizing a line of a transaction *)

Module TransactionQuantityFacts.

Import Transaction.





End TransactionQuantityFacts.
